(** * Countdown firmware (src/code/src/main.cpp): model and properties

    The firmware counts the whole hours left until 2026-04-12 06:00 local
    time (Europe/Budapest), prints them on the serial line and shows hours
    and days alternately on a four digit TM1637 display.

    The file is organised as follows.
    - [CInt]: the integer types of the target (ILP32: [long] and
      [unsigned long] are 32 bits wide).
    - [CTime]: the part of the C library the program calls: [struct tm],
      [mktime] under a POSIX time zone rule, [difftime].
    - [Countdown]: the program itself, function by function, over an explicit
      world (globals, time zone, outputs, environment readings).
    - the properties. *)

From Stdlib Require Import ZArith List Ascii String Bool Lia.
Import ListNotations.
Open Scope Z_scope.

(* ===================================================================== *)
(** * Integer types of the target *)
(* ===================================================================== *)

Module CInt.

Definition LONG_MIN : Z := - 2 ^ 31.
Definition LONG_MAX : Z := 2 ^ 31 - 1.
Definition ULONG_MODULUS : Z := 2 ^ 32.

(** [z] is a value of type [long]. *)
Definition in_long (z : Z) : bool := (LONG_MIN <=? z) && (z <=? LONG_MAX).

(** Reduction of an integer to [unsigned long]. *)
Definition to_ulong (z : Z) : Z := z mod ULONG_MODULUS.

(** [a - b] on [unsigned long]: the difference wraps around. *)
Definition usub (a b : Z) : Z := to_ulong (a - b).

(** [(long) d] for a [double] [d] whose value is the integer [z]. The
    conversion is defined only when the value fits the destination type;
    [None] stands for the undefined conversion of a value out of range. *)
Definition long_of_double (z : Z) : option Z :=
  if in_long z then Some z else None.

(** [a / b] and [a % b] on [long] truncate toward zero. *)
Definition ldiv (a b : Z) : Z := Z.quot a b.
Definition lrem (a b : Z) : Z := Z.rem a b.

End CInt.

(* ===================================================================== *)
(** * The C library's calendar time *)
(* ===================================================================== *)

Module CTime.

(** [struct tm], the fields the program fills in. [tm_mon] counts from 0,
    [tm_year] from 1900. *)
Record tm : Type := mk_tm {
  tm_sec : Z;
  tm_min : Z;
  tm_hour : Z;
  tm_mday : Z;
  tm_mon : Z;
  tm_year : Z;
  tm_isdst : Z
}.

(** One transition rule [Mm.n.d/time] of a POSIX TZ string: weekday [d]
    (0 is Sunday) of week [n] (5 is the last one) of month [m], at [time]
    seconds after local midnight. *)
Record dst_rule : Type := mk_rule {
  rule_m : Z;
  rule_n : Z;
  rule_d : Z;
  rule_s : Z
}.

(** A POSIX time zone [std offset dst,start,end]. The offsets are in seconds
    and are what is added to local time to obtain UTC, so they are negative
    east of Greenwich. *)
Record tzinfo : Type := mk_tz {
  std_offset : Z;
  dst_offset : Z;
  dst_start : dst_rule;
  dst_end : dst_rule
}.

Definition SECSPERDAY : Z := 86400.
Definition SECSPERHOUR : Z := 3600.
Definition SECSPERMIN : Z := 60.
Definition DAYSPERWEEK : Z := 7.
(** 1970-01-01 was a Thursday. *)
Definition EPOCH_WDAY : Z := 4.

Definition isleap (y : Z) : bool :=
  ((y mod 4 =? 0) && negb (y mod 100 =? 0)) || (y mod 400 =? 0).

Definition mon_lengths (leap : bool) : list Z :=
  [31; if leap then 29 else 28; 31; 30; 31; 30; 31; 31; 30; 31; 30; 31].

(** Days of the year before month [mon] (counted from 0). *)
Definition days_before_month (leap : bool) (mon : Z) : Z :=
  fold_right Z.add 0 (firstn (Z.to_nat mon) (mon_lengths leap)).

(** Leap years among the years 1 .. [y]. *)
Definition leaps_through (y : Z) : Z := y / 4 - y / 100 + y / 400.

(** Days from 1970-01-01 to January 1st of year [y]. *)
Definition days_before_year (y : Z) : Z :=
  365 * (y - 1970) + (leaps_through (y - 1) - leaps_through 1969).

(** The loop [while (m_day >= len) m_day -= 7] that brings the last week of
    a rule back into the month. Weeks run from 1 to 5, so [m_day] is at most
    34 and the months have at least 28 days: the loop body runs at most
    once; the fuel leaves room for five rounds. *)
Fixpoint back_into_month (fuel : nat) (m_day len : Z) : Z :=
  match fuel with
  | O => m_day
  | S fuel' =>
      if len <=? m_day then back_into_month fuel' (m_day - DAYSPERWEEK) len
      else m_day
  end.

(** The instant (seconds since the epoch, UTC) at which rule [r] takes effect
    in the year that starts [year_days] days after the epoch; [offset] is the
    offset in force just before the change. *)
Definition tzcalc_change (year_days : Z) (leap : bool) (r : dst_rule)
    (offset : Z) : Z :=
  let days := year_days + days_before_month leap (rule_m r - 1) in
  let m_wday := Z.rem (EPOCH_WDAY + days) DAYSPERWEEK in
  let wday_diff :=
    if rule_d r - m_wday <? 0 then rule_d r - m_wday + DAYSPERWEEK
    else rule_d r - m_wday in
  let m_day := (rule_n r - 1) * DAYSPERWEEK + wday_diff in
  let len := nth (Z.to_nat (rule_m r - 1)) (mon_lengths leap) 0 in
  let m_day := back_into_month 5 m_day len in
  (days + m_day) * SECSPERDAY + rule_s r + offset.

(** The broken-down time read as if it were UTC. *)
Definition tm_seconds (t : tm) : Z :=
  let year := tm_year t + 1900 in
  let days :=
    tm_mday t - 1 + days_before_month (isleap year) (tm_mon t)
    + days_before_year year in
  days * SECSPERDAY + tm_sec t + tm_min t * SECSPERMIN
  + tm_hour t * SECSPERHOUR.

(** Whether daylight saving time is in force at local clock reading [tim]
    of year [year], for a caller that passed [tm_isdst = -1]. A reading in
    the hour that occurs twice when the clocks are set back is taken as
    standard time. *)
Definition dst_in_force (z : tzinfo) (year tim : Z) : bool :=
  let year_days := days_before_year year in
  let leap := isleap year in
  let change0 := tzcalc_change year_days leap (dst_start z) (std_offset z) in
  let change1 := tzcalc_change year_days leap (dst_end z) (dst_offset z) in
  let startdst_dst := change0 - dst_offset z in
  let startstd_dst := change1 - dst_offset z in
  let startstd_std := change1 - std_offset z in
  let tznorth := change0 <? change1 in
  if (startstd_std <=? tim) && (tim <? startstd_dst) then false
  else if tznorth then (startdst_dst <=? tim) && (tim <? startstd_std)
  else (startdst_dst <=? tim) || (tim <? startstd_std).

(** [mktime] for a [struct tm] whose fields are in their normal ranges and
    whose [tm_isdst] is negative (the library decides whether daylight
    saving time applies), which is how the program calls it. [tz] is the
    time zone of the process: [None] when TZ is not set, which reads the
    fields as UTC. *)
Definition mktime (tz : option tzinfo) (t : tm) : Z :=
  let tim := tm_seconds t in
  match tz with
  | None => tim
  | Some z =>
      if dst_in_force z (tm_year t + 1900) tim then tim + dst_offset z
      else tim + std_offset z
  end.

(** ** Reading a TZ string

    [tzset] reads the value of TZ. The model covers the forms met in the
    program, [std offset dst [offset][,Mm.n.d[/time],Mm.n.d[/time]]], with
    names of at least three letters; any other value gives [None]. *)

Definition is_alpha (c : Ascii.ascii) : bool :=
  let n := Z.of_nat (Ascii.nat_of_ascii c) in
  ((65 <=? n) && (n <=? 90)) || ((97 <=? n) && (n <=? 122)).

Definition digit_of (c : Ascii.ascii) : option Z :=
  let n := Z.of_nat (Ascii.nat_of_ascii c) in
  if (48 <=? n) && (n <=? 57) then Some (n - 48) else None.

(** Skips the letters of a zone name and counts them. *)
Fixpoint skip_name (s : string) : nat * string :=
  match s with
  | String c rest =>
      if is_alpha c then let '(n, r) := skip_name rest in (S n, r)
      else (O, s)
  | EmptyString => (O, s)
  end.

(** Reads the digits that follow, on top of the value [acc] read so far. *)
Fixpoint parse_digits (acc : Z) (s : string) : Z * string :=
  match s with
  | String c rest =>
      match digit_of c with
      | Some d => parse_digits (10 * acc + d) rest
      | None => (acc, s)
      end
  | EmptyString => (acc, s)
  end.

(** A decimal number of at least one digit. *)
Definition parse_num (s : string) : option (Z * string) :=
  match s with
  | String c rest =>
      match digit_of c with
      | Some d => Some (parse_digits d rest)
      | None => None
      end
  | EmptyString => None
  end.

(** An optional [sep] followed by a number; 0 when [sep] does not come. *)
Definition parse_opt_field (sep : Ascii.ascii) (s : string)
    : option (Z * string) :=
  match s with
  | String c rest =>
      if Ascii.eqb c sep then parse_num rest else Some (0, s)
  | EmptyString => Some (0, s)
  end.

(** [hh[:mm[:ss]]], in seconds. *)
Definition parse_hms (s : string) : option (Z * string) :=
  match parse_num s with
  | Some (hh, s1) =>
      match parse_opt_field ":"%char s1 with
      | Some (mm, s2) =>
          match parse_opt_field ":"%char s2 with
          | Some (ss, s3) =>
              Some (ss + SECSPERMIN * mm + SECSPERHOUR * hh, s3)
          | None => None
          end
      | None => None
      end
  | None => None
  end.

(** [[+|-]hh[:mm[:ss]]], in seconds; the sign is that of the string, so a
    zone east of Greenwich has a negative offset. *)
Definition parse_offset (s : string) : option (Z * string) :=
  match s with
  | String "-"%char rest =>
      match parse_hms rest with
      | Some (v, r) => Some (- v, r)
      | None => None
      end
  | String "+"%char rest => parse_hms rest
  | _ => parse_hms s
  end.

(** [,Mm.n.d[/time]]; the time of day defaults to 02:00:00. *)
Definition parse_rule (s : string) : option (dst_rule * string) :=
  match s with
  | String ","%char (String "M"%char s0) =>
      match parse_num s0 with
      | Some (m, String "."%char s1) =>
          match parse_num s1 with
          | Some (n, String "."%char s2) =>
              match parse_num s2 with
              | Some (d, String "/"%char s3) =>
                  match parse_hms s3 with
                  | Some (t, s4) => Some (mk_rule m n d t, s4)
                  | None => None
                  end
              | Some (d, s3) => Some (mk_rule m n d (2 * SECSPERHOUR), s3)
              | None => None
              end
          | _ => None
          end
      | _ => None
      end
  | _ => None
  end.

(** A rule that is left out defaults to the one of the United States:
    second Sunday of March for the start, first Sunday of November for the
    end, at 02:00:00. *)
Definition default_rule (i : nat) : dst_rule :=
  match i with
  | O => mk_rule 3 2 0 (2 * SECSPERHOUR)
  | _ => mk_rule 11 1 0 (2 * SECSPERHOUR)
  end.

Definition parse_rule_or_default (i : nat) (s : string)
    : option (dst_rule * string) :=
  match s with
  | EmptyString => Some (default_rule i, EmptyString)
  | _ => parse_rule s
  end.

(** The whole string. Without an offset of its own, daylight saving time is
    one hour ahead of standard time. *)
Definition parse_tz (s : string) : option tzinfo :=
  let '(n_std, s1) := skip_name s in
  if (n_std <? 3)%nat then None
  else
    match parse_offset s1 with
    | Some (std, s2) =>
        let '(n_dst, s3) := skip_name s2 in
        if (n_dst <? 3)%nat then None
        else
          let '(dst, s4) :=
            match parse_offset s3 with
            | Some (d, r) => (d, r)
            | None => (std - SECSPERHOUR, s3)
            end in
          match parse_rule_or_default 0 s4 with
          | Some (start, s5) =>
              match parse_rule_or_default 1 s5 with
              | Some (stop, EmptyString) => Some (mk_tz std dst start stop)
              | _ => None
              end
          | None => None
          end
    | None => None
    end.

(** [difftime (t1, t0)] is the [double] [t1 - t0]. The model keeps its
    mathematical value, which the [double] holds exactly while both
    arguments are below 2^53 in absolute value. *)
Definition difftime (t1 t0 : Z) : Z := t1 - t0.

End CTime.

(* ===================================================================== *)
(** * The program *)
(* ===================================================================== *)

Module Countdown.
Import CInt CTime.

(** ** Configuration *)

Definition WIFI_SSID : string := "WIFISSID".
Definition WIFI_PASSWORD : string := "WIFIPASS".

Record TargetDate : Type := mk_TargetDate {
  year : Z;
  month : Z;
  day : Z;
  hour : Z;
  minute : Z;
  second : Z
}.

Definition TARGET : TargetDate := mk_TargetDate 2026 4 12 6 0 0.

Definition PRINT_INTERVAL_MS : Z := 60 * 1000.
Definition NTP_RESYNC_INTERVAL_MS : Z := 6 * 60 * 60 * 1000.
Definition DISPLAY_MODE_DURATION_MS : Z := 15000.

Inductive DisplayMode : Type := MODE_HOURS | MODE_DAYS.

(** The value [connectWiFi] gives to TZ (Europe/Budapest). *)
Definition TZ_STRING : string := "CET-1CEST,M3.5.0/2,M10.5.0/3".

(** What that value means: standard time CET one hour east of UTC, summer
    time CEST (by default one hour further east) from the last Sunday of
    March 02:00 to the last Sunday of October 03:00. *)
Definition TZ_CET_CEST : tzinfo :=
  mk_tz (- 1 * SECSPERHOUR) (- 2 * SECSPERHOUR)
        (mk_rule 3 5 0 (2 * SECSPERHOUR))
        (mk_rule 10 5 0 (3 * SECSPERHOUR)).

(** The value [configTime (0, 0, ...)] gives to TZ, and what it means:
    UTC in winter and in summer. *)
Definition TZ_UTC_STRING : string := "UTC0DST0".

Definition TZ_UTC : tzinfo :=
  mk_tz 0 0 (mk_rule 3 2 0 (2 * SECSPERHOUR)) (mk_rule 11 1 0 (2 * SECSPERHOUR)).

(** The line feed that ends a message. *)
Definition LF : string := String "010"%char EmptyString.

(** The clock counts as not yet set below this reading. *)
Definition TIME_VALID_THRESHOLD : Z := 100000.

(** ** computeHoursRemaining, as a function of what it reads *)

(** The [struct tm] that [computeHoursRemaining] fills in from [TARGET]. *)
Definition target_tm : tm :=
  mk_tm (second TARGET) (minute TARGET) (hour TARGET) (day TARGET)
        (month TARGET - 1) (year TARGET - 1900) (-1).

(** [computeHoursRemaining] for a process time zone [tz] and a reading [now]
    of [time(nullptr)]. The result is [None] only if the conversion of the
    difference to [long] were undefined. *)
Definition computeHoursRemaining (tz : option tzinfo) (now : Z) : option Z :=
  if now <? TIME_VALID_THRESHOLD then Some (-1)
  else
    let targetTime := mktime tz target_tm in
    if targetTime <=? now then Some 0
    else
      match long_of_double (difftime targetTime now) with
      | Some seconds => Some (ldiv seconds 3600)
      | None => None
      end.


(** ** The world the program runs in *)

(** Arguments of a [printf] call. *)
Inductive PrintfArg : Type :=
| ArgLong (z : Z)
| ArgStr (s : string).

(** What the program does to the outside: calls to the serial port, to the
    display driver, to the WiFi and time services, and waiting. *)
Inductive Output : Type :=
| SerialBegin (baud : Z)
| SerialPrint (s : string)
| SerialPrintln (s : string)
| SerialPrintf (fmt : string) (args : list PrintfArg)
| SerialPrintlnIP
| DisplaySetBrightness (brightness : Z) (on : bool)
| DisplayClear
| DisplaySetSegments (data : list Z)
| DisplayShowNumberDec (num : Z) (leading_zero : bool)
| WiFiModeSTA
| WiFiBegin (ssid pass : string)
| ConfigTime (gmtOffset_sec daylightOffset_sec : Z) (server1 server2 : string)
| Delay (ms : Z).

(** What the program reads from the outside. The program's [k]-th reading of
    the environment (counted over the three kinds together) returns the value
    at index [k]. *)
Record Env : Type := mk_Env {
  time_at : nat -> Z;         (* time(nullptr) *)
  millis_at : nat -> Z;       (* millis(), reduced to unsigned long *)
  wifi_at : nat -> bool       (* WiFi.status() == WL_CONNECTED *)
}.

(** The global variables, the TZ variable of the process, the outputs so
    far (newest first) and the number of readings taken. *)
Record World : Type := mk_World {
  lastPrint : Z;
  lastReportedHours : Z;
  lastNtpSync : Z;
  lastModeSwitch : Z;
  displayMode : DisplayMode;
  displayInitialized : bool;
  TZ : option tzinfo;
  trace : list Output;
  reads : nat
}.

Definition boot : World :=
  mk_World 0 (-1) 0 0 MODE_HOURS false None [] O.

Definition set_lastPrint (v : Z) (w : World) : World :=
  mk_World v (lastReportedHours w) (lastNtpSync w) (lastModeSwitch w)
           (displayMode w) (displayInitialized w) (TZ w) (trace w) (reads w).
Definition set_lastReportedHours (v : Z) (w : World) : World :=
  mk_World (lastPrint w) v (lastNtpSync w) (lastModeSwitch w)
           (displayMode w) (displayInitialized w) (TZ w) (trace w) (reads w).
Definition set_lastNtpSync (v : Z) (w : World) : World :=
  mk_World (lastPrint w) (lastReportedHours w) v (lastModeSwitch w)
           (displayMode w) (displayInitialized w) (TZ w) (trace w) (reads w).
Definition set_lastModeSwitch (v : Z) (w : World) : World :=
  mk_World (lastPrint w) (lastReportedHours w) (lastNtpSync w) v
           (displayMode w) (displayInitialized w) (TZ w) (trace w) (reads w).
Definition set_displayMode (v : DisplayMode) (w : World) : World :=
  mk_World (lastPrint w) (lastReportedHours w) (lastNtpSync w)
           (lastModeSwitch w) v (displayInitialized w) (TZ w) (trace w)
           (reads w).
Definition set_displayInitialized (v : bool) (w : World) : World :=
  mk_World (lastPrint w) (lastReportedHours w) (lastNtpSync w)
           (lastModeSwitch w) (displayMode w) v (TZ w) (trace w) (reads w).
Definition set_TZ (v : option tzinfo) (w : World) : World :=
  mk_World (lastPrint w) (lastReportedHours w) (lastNtpSync w)
           (lastModeSwitch w) (displayMode w) (displayInitialized w) v
           (trace w) (reads w).
Definition set_trace (v : list Output) (w : World) : World :=
  mk_World (lastPrint w) (lastReportedHours w) (lastNtpSync w)
           (lastModeSwitch w) (displayMode w) (displayInitialized w) (TZ w)
           v (reads w).
Definition set_reads (v : nat) (w : World) : World :=
  mk_World (lastPrint w) (lastReportedHours w) (lastNtpSync w)
           (lastModeSwitch w) (displayMode w) (displayInitialized w) (TZ w)
           (trace w) v.

(** ** Computations *)

(** A computation ends with a value and a new world, or it meets an
    undefined conversion, or the bound on the iterations of a polling loop
    is used up. *)
Inductive result (A : Type) : Type :=
| Ret (a : A) (w : World)
| Undefined
| OutOfFuel.
Arguments Ret {A} a w.
Arguments Undefined {A}.
Arguments OutOfFuel {A}.

Definition M (A : Type) : Type := World -> result A.

Definition ret {A : Type} (a : A) : M A := fun w => Ret a w.

Definition bind {A B : Type} (c : M A) (k : A -> M B) : M B :=
  fun w =>
    match c w with
    | Ret a w' => k a w'
    | Undefined => Undefined
    | OutOfFuel => OutOfFuel
    end.

Declare Scope prog_scope.
Delimit Scope prog_scope with prog.
Notation "x <- c ;; k" := (bind c (fun x => k))
  (at level 61, c at next level, right associativity) : prog_scope.
Notation "c ;; k" := (bind c (fun _ => k))
  (at level 61, right associativity) : prog_scope.
Local Open Scope prog_scope.

Definition gets {A : Type} (f : World -> A) : M A := fun w => Ret (f w) w.
Definition modify (f : World -> World) : M unit := fun w => Ret tt (f w).
Definition emit (o : Output) : M unit :=
  modify (fun w => set_trace (o :: trace w) w).
Definition undefined {A : Type} : M A := fun _ => Undefined.
Definition out_of_fuel {A : Type} : M A := fun _ => OutOfFuel.
Definition when (b : bool) (c : M unit) : M unit := if b then c else ret tt.

Section Program.

Variable env : Env.

(** One reading of the environment. *)
Definition read {A : Type} (f : Env -> nat -> A) : M A :=
  fun w => Ret (f env (reads w)) (set_reads (S (reads w)) w).

Definition time : M Z := read time_at.
Definition millis : M Z := r <- read millis_at ;; ret (to_ulong r).
Definition wifi_connected : M bool := read wifi_at.
Definition delay (ms : Z) : M unit := emit (Delay ms).

(** ** Display *)

Definition SEG_DASH : Z := 64.
Definition DASHES : Output :=
  DisplaySetSegments [SEG_DASH; SEG_DASH; SEG_DASH; SEG_DASH].

Definition initDisplay : M unit :=
  init <- gets displayInitialized ;;
  if init then ret tt
  else
    emit (DisplaySetBrightness 15 true) ;;
    emit DisplayClear ;;
    modify (set_displayInitialized true).

Definition showValueOnDisplay (value : Z) : M unit :=
  init <- gets displayInitialized ;;
  when (negb init) initDisplay ;;
  if value <? 0 then emit DASHES
  else
    let value := if 9999 <? value then 9999 else value in
    emit (DisplayShowNumberDec value false).

Definition updateDisplay (hoursRemaining : Z) : M unit :=
  if hoursRemaining <? 0 then showValueOnDisplay (-1)
  else
    let days := ldiv hoursRemaining 24 in
    mode <- gets displayMode ;;
    match mode with
    | MODE_HOURS => showValueOnDisplay (hoursRemaining - 1)
    | MODE_DAYS => showValueOnDisplay days
    end.

(** ** Countdown *)

(** [computeHoursRemaining] as the program runs it: it reads the clock, and
    [mktime] reads the time zone of the process. *)
Definition computeHoursRemainingM : M Z :=
  now <- time ;;
  tz <- gets TZ ;;
  match computeHoursRemaining tz now with
  | Some hours => ret hours
  | None => undefined
  end.

Definition RESULT_FMT : string :=
  "[RESULT] Hours left until 2026-04-12 06:00: %ld (â‰ˆ %ld days %ld h)" ++ LF.

Definition reportIfNeeded (force : bool) : M unit :=
  hours <- computeHoursRemainingM ;;
  if hours <? 0 then
    when force (emit (SerialPrintln "[INFO] Waiting for time sync...")) ;;
    updateDisplay (-1)
  else
    last <- gets lastReportedHours ;;
    if force || negb (hours =? last) then
      let days := ldiv hours 24 in
      let remHours := lrem hours 24 in
      emit (SerialPrintf RESULT_FMT
              [ArgLong (hours - 1); ArgLong days; ArgLong remHours]) ;;
      modify (set_lastReportedHours hours) ;;
      updateDisplay hours
    else ret tt.

(** ** Network and time service *)

Definition NTP_SERVER1 : string := "pool.ntp.org".
Definition NTP_SERVER2 : string := "time.nist.gov".

(** [setenv("TZ", value, 1)] followed by [tzset()]. *)
Definition setenv_TZ (value : string) : M unit :=
  modify (set_TZ (parse_tz value)).

(** [configTime (0, 0, server1, server2)] of the Arduino core for the
    ESP32. It starts the time service, which shows in later readings of the
    clock, and then sets the time zone from its first two arguments: for an
    offset of 0 and a daylight offset of 0 it does
    [setenv("TZ", "UTC0DST0", 1)] and [tzset()], whatever TZ was before. *)
Definition configTime : M unit :=
  emit (ConfigTime 0 0 NTP_SERVER1 NTP_SERVER2) ;;
  setenv_TZ TZ_UTC_STRING.

(** The loop of [connectWiFi]:
    [while (WiFi.status() != WL_CONNECTED && millis() - start < 20000)]. *)
Fixpoint awaitConnection (fuel : nat) (start : Z) : M unit :=
  match fuel with
  | O => out_of_fuel
  | S fuel' =>
      connected <- wifi_connected ;;
      if connected then ret tt
      else
        now <- millis ;;
        if usub now start <? 20000 then
          delay 500 ;;
          emit (SerialPrint ".") ;;
          awaitConnection fuel' start
        else ret tt
  end.

Definition connectWiFi (fuel : nat) : M unit :=
  connected <- wifi_connected ;;
  if connected then ret tt
  else
    emit (SerialPrintf ("[INFO] Connecting to WiFi SSID '%s'..." ++ LF)
            [ArgStr WIFI_SSID]) ;;
    emit WiFiModeSTA ;;
    emit (WiFiBegin WIFI_SSID WIFI_PASSWORD) ;;
    start <- millis ;;
    awaitConnection fuel start ;;
    emit (SerialPrintln "") ;;
    connected <- wifi_connected ;;
    if connected then
      emit (SerialPrint "[INFO] WiFi connected. IP: ") ;;
      emit SerialPrintlnIP ;;
      setenv_TZ TZ_STRING ;;
      configTime ;;
      now <- millis ;;
      modify (set_lastNtpSync now)
    else emit (SerialPrintln "[ERROR] WiFi connection failed.").

(** The branch [else if ((millis() - lastNtpSync) > NTP_RESYNC_INTERVAL_MS)]
    of [ensureTimeResync], reached either because the clock is set or
    because the retry is not yet due. *)
Definition periodicResync : M unit :=
  now <- millis ;;
  last <- gets lastNtpSync ;;
  if NTP_RESYNC_INTERVAL_MS <? usub now last then
    emit (SerialPrintln "[INFO] Periodic NTP resync...") ;;
    configTime ;;
    now <- millis ;;
    modify (set_lastNtpSync now)
  else ret tt.

Definition ensureTimeResync : M unit :=
  now <- time ;;
  let timeValid := TIME_VALID_THRESHOLD <=? now in
  connected <- wifi_connected ;;
  if connected then
    if negb timeValid then
      ms <- millis ;;
      last <- gets lastNtpSync ;;
      if 15000 <? usub ms last then
        emit (SerialPrintln "[INFO] Retrying initial NTP sync...") ;;
        configTime ;;
        now <- millis ;;
        modify (set_lastNtpSync now)
      else periodicResync
    else periodicResync
  else ret tt.

(** ** Entry points *)

Definition setup (fuel : nat) : M unit :=
  emit (SerialBegin 115200) ;;
  delay 200 ;;
  emit (SerialPrintln "") ;;
  emit (SerialPrintln "Booting...") ;;
  initDisplay ;;
  updateDisplay (-1) ;;
  connectWiFi fuel ;;
  now <- millis ;;
  modify (set_lastPrint now) ;;
  now <- millis ;;
  modify (set_lastModeSwitch now).

Definition toggle (m : DisplayMode) : DisplayMode :=
  match m with MODE_HOURS => MODE_DAYS | MODE_DAYS => MODE_HOURS end.

Definition loop (fuel : nat) : M unit :=
  connected <- wifi_connected ;;
  when (negb connected) (connectWiFi fuel) ;;
  ensureTimeResync ;;
  nowMs <- millis ;;
  last <- gets lastPrint ;;
  when (PRINT_INTERVAL_MS <=? usub nowMs last)
       (reportIfNeeded false ;; modify (set_lastPrint nowMs)) ;;
  last <- gets lastModeSwitch ;;
  when (DISPLAY_MODE_DURATION_MS <=? usub nowMs last)
       (modify (fun w => set_displayMode (toggle (displayMode w)) w) ;;
        modify (set_lastModeSwitch nowMs) ;;
        hrs <- computeHoursRemainingM ;;
        updateDisplay hrs) ;;
  last <- gets lastReportedHours ;;
  when (last <? 0) (reportIfNeeded true) ;;
  delay 1000.

(** [n] rounds of [loop]. *)
Fixpoint loops (fuel : nat) (n : nat) : M unit :=
  match n with
  | O => ret tt
  | S n' => loop fuel ;; loops fuel n'
  end.

(** The firmware from power-up through [n] rounds of [loop]. *)
Definition firmware (fuel : nat) (n : nat) : result unit :=
  (setup fuel ;; loops fuel n) boot.

End Program.

(** ** Observations *)

Definition is_display_content (o : Output) : bool :=
  match o with
  | DisplayClear | DisplaySetSegments _ | DisplayShowNumberDec _ _ => true
  | _ => false
  end.

(** What the display shows: the latest call that wrote its digits. *)
Definition displayed (w : World) : option Output :=
  find is_display_content (trace w).

(** The time zones the process can be in: TZ is not set at power-up,
    [connectWiFi] sets it, and so does [configTime]. *)
Definition program_tz (tz : option tzinfo) : Prop :=
  tz = None \/ tz = Some TZ_CET_CEST \/ tz = Some TZ_UTC.

(** The instant the countdown runs to. *)
Definition targetTime (tz : option tzinfo) : Z := mktime tz target_tm.

(** ** Auxiliary definitions for the properties *)

(** The clock reading 2026-04-10 06:00:00 local time. *)
Definition two_days_before : tm := mk_tm 0 0 6 10 (4 - 1) (2026 - 1900) (-1).

(** An environment for concrete runs: the network is down at the first
    reading and up afterwards, the clock reads 2026-04-10 06:00:00 local
    time, and a second of uptime passes between readings. *)
Definition example_env : Env :=
  mk_Env (fun _ => mktime (Some TZ_CET_CEST) two_days_before)
         (fun k => 1000 * Z.of_nat k)
         (fun k => negb (Nat.eqb k 0)).

(** The world after [initDisplay]. *)
Definition initialized (w : World) : World :=
  if displayInitialized w then w
  else
    set_displayInitialized true
      (set_trace (DisplayClear :: DisplaySetBrightness 15 true :: trace w) w).

(** What [showValueOnDisplay] writes for [value]. *)
Definition rendering (value : Z) : Output :=
  if value <? 0 then DASHES
  else DisplayShowNumberDec (if 9999 <? value then 9999 else value) false.

Definition WAITING_MSG : Output :=
  SerialPrintln "[INFO] Waiting for time sync...".

(** The status line for a computed value [hours]. *)
Definition status_line (hours : Z) : Output :=
  SerialPrintf RESULT_FMT
    [ArgLong (hours - 1); ArgLong (ldiv hours 24); ArgLong (lrem hours 24)].

Definition log (o : Output) (w : World) : World := set_trace (o :: trace w) w.

(** The world after one reading of the environment. *)
Definition after_read (w : World) : World := set_reads (S (reads w)) w.

(** The calls [initDisplay] adds. *)
Definition init_calls (w : World) : list Output :=
  if displayInitialized w then []
  else [DisplayClear; DisplaySetBrightness 15 true].

(** [lastReportedHours] either keeps its value or holds a value that is not
    negative. *)
Definition lrh_step (w w' : World) : Prop :=
  lastReportedHours w' = lastReportedHours w \/ 0 <= lastReportedHours w'.

(** A computation is sound when, started in a time zone of the program, it
    never meets an undefined conversion and, if it returns, it leaves the
    process in a time zone of the program and [lastReportedHours] unchanged
    or not negative. *)
Definition sound {A : Type} (c : M A) : Prop :=
  forall w, program_tz (TZ w) ->
    match c w with
    | Ret _ w' => program_tz (TZ w') /\ lrh_step w w'
    | Undefined => False
    | OutOfFuel => True
    end.

(** A computation does not use up the bound on its polling loops. *)
Definition returns {A : Type} (c : M A) : Prop :=
  forall w, c w <> OutOfFuel.

(** ** Definitions for the properties of whole runs *)

(** The zones the process is in between two functions of the program: TZ
    is unset, or [configTime] has set it. The zone [connectWiFi] sets does
    not outlive the call of [configTime] that follows it. *)
Definition zone_utc (tz : option tzinfo) : Prop :=
  tz = None \/ tz = Some TZ_UTC.

(** The poll of [connectWiFi] that starts at reading [k] leaves the polling
    loop: the network is up, or 20 s have passed since [start]. *)
Definition poll_exits (env : Env) (start : Z) (k : nat) : bool :=
  wifi_at env k
  || negb (usub (to_ulong (millis_at env (S k))) start <? 20000).

(** One of the first [fuel] polls, the first one starting at reading [k],
    leaves the polling loop. A poll that stays in the loop takes two
    readings. *)
Definition polling_ends (env : Env) (fuel : nat) (start : Z) (k : nat)
    : Prop :=
  exists j, (j < fuel)%nat /\ poll_exits env start (k + 2 * j) = true.

(** [connectWiFi], entered at reading [k], finds the network up at once or
    leaves its polling loop within [fuel] polls. *)
Definition connect_ends (env : Env) (fuel : nat) (k : nat) : Prop :=
  wifi_at env k = true
  \/ polling_ends env fuel (to_ulong (millis_at env (S k))) (S (S k)).

(** [loop] up to its reading of [millis()]. *)
Definition loop_head (env : Env) (fuel : nat) : M unit :=
  connected <- wifi_connected env ;;
  when (negb connected) (connectWiFi env fuel) ;;
  ensureTimeResync env.

(** The largest value [computeHoursRemaining] can return: the clock reads
    at least the threshold, and the target is at the latest the one of an
    unset TZ. *)
Definition MAX_HOURS : Z := 493298.

(** [z] is a value of type [unsigned long]. *)
Definition in_ulong (z : Z) : Prop := 0 <= z < ULONG_MODULUS.

(** If [c] is started in a world that satisfies [P] and returns, the value
    and the world it returns satisfy [Q]. *)
Definition hoare {A : Type} (P : World -> Prop) (c : M A)
    (Q : A -> World -> Prop) : Prop :=
  forall w a w', P w -> c w = Ret a w' -> Q a w'.

(** [c] keeps the invariant [I]. *)
Definition preserves {A : Type} (I : World -> Prop) (c : M A) : Prop :=
  hoare I c (fun _ => I).

Definition is_display_call (o : Output) : bool :=
  match o with
  | DisplaySetBrightness _ _ | DisplayClear
  | DisplaySetSegments _ | DisplayShowNumberDec _ _ => true
  | _ => false
  end.

(** The calls to the display driver, newest first. *)
Definition display_calls (t : list Output) : list Output :=
  filter is_display_call t.

Definition writes_digits (o : Output) : bool :=
  match o with
  | DisplaySetSegments _ | DisplayShowNumberDec _ _ => true
  | _ => false
  end.

(** The two calls of [initDisplay], newest first. *)
Definition INIT_CALLS : list Output :=
  [DisplayClear; DisplaySetBrightness 15 true].

(** The format of the message [connectWiFi] prints first. *)
Definition CONNECT_FMT : string :=
  "[INFO] Connecting to WiFi SSID '%s'..." ++ LF.

(** What an output of the program looks like: a number for the display is
    within 0 .. 9999 and without leading zeros, segments are the four
    dashes, and a [printf] is the message of [connectWiFi] or a status line
    that carries [hours - 1], the days and the remaining hours of one value
    [hours] that [computeHoursRemaining] can return for a clock that is
    set. *)
Definition ok_output (o : Output) : Prop :=
  match o with
  | DisplayShowNumberDec num leading_zero =>
      0 <= num <= 9999 /\ leading_zero = false
  | DisplaySetSegments data => data = [SEG_DASH; SEG_DASH; SEG_DASH; SEG_DASH]
  | SerialPrintf fmt args =>
      (fmt = CONNECT_FMT /\ args = [ArgStr WIFI_SSID])
      \/ (fmt = RESULT_FMT
          /\ exists hours,
               0 <= hours <= MAX_HOURS
               /\ args = [ArgLong (hours - 1); ArgLong (hours / 24);
                          ArgLong (hours mod 24)])
  | _ => True
  end.

(** The outputs other than calls to the display and status lines. *)
Definition plain_output (o : Output) : Prop :=
  match o with
  | DisplaySetBrightness _ _ | DisplayClear
  | DisplaySetSegments _ | DisplayShowNumberDec _ _ => False
  | SerialPrintf fmt args => fmt = CONNECT_FMT /\ args = [ArgStr WIFI_SSID]
  | _ => True
  end.

(** The display has been driven as [initDisplay] and [showValueOnDisplay]
    do it: nothing before the display is initialised; afterwards the two
    calls of [initDisplay], once, followed by calls that write digits. *)
Definition display_protocol (w : World) : Prop :=
  if displayInitialized w then
    exists writes,
      display_calls (trace w) = writes ++ INIT_CALLS
      /\ forallb writes_digits writes = true
  else display_calls (trace w) = [].

(** The state of a run of the firmware. *)
Record WF (w : World) : Prop := mk_WF {
  wf_tz : zone_utc (TZ w);
  wf_lastReportedHours : -1 <= lastReportedHours w <= MAX_HOURS;
  wf_lastPrint : in_ulong (lastPrint w);
  wf_lastNtpSync : in_ulong (lastNtpSync w);
  wf_lastModeSwitch : in_ulong (lastModeSwitch w);
  wf_outputs : Forall ok_output (trace w);
  wf_display : display_protocol w
}.

(** The display is initialised and its latest call wrote digits. *)
Definition display_live (w : World) : Prop :=
  displayInitialized w = true
  /\ exists o rest,
       display_calls (trace w) = o :: rest /\ writes_digits o = true.

(** A write of digits as the program issues them. *)
Definition digits_shown (o : Output) : Prop :=
  o = DASHES
  \/ exists num, 0 <= num <= 9999 /\ o = DisplayShowNumberDec num false.

Definition is_status_line (o : Output) : bool :=
  match o with
  | SerialPrintf fmt _ => String.eqb fmt RESULT_FMT
  | _ => false
  end.

(** The program is waiting for the clock: nothing has been reported, no
    status line has been printed and whatever was written to the display
    was the dashes. *)
Definition waiting (w : World) : Prop :=
  lastReportedHours w = -1
  /\ Forall (fun o => writes_digits o = true -> o = DASHES) (trace w)
  /\ forallb (fun o => negb (is_status_line o)) (trace w) = true.

Definition is_configTime (o : Output) : bool :=
  match o with
  | ConfigTime _ _ _ _ => true
  | _ => false
  end.

(** The starts of the time service, newest first. *)
Definition config_calls (t : list Output) : list Output :=
  filter is_configTime t.

(** What [connectWiFi] leaves alone in any case, relative to the world [w]
    it started in. *)
Definition network_frame (w w1 : World) : Prop :=
  lastPrint w1 = lastPrint w
  /\ lastReportedHours w1 = lastReportedHours w
  /\ lastModeSwitch w1 = lastModeSwitch w
  /\ displayMode w1 = displayMode w
  /\ displayInitialized w1 = displayInitialized w
  /\ display_calls (trace w1) = display_calls (trace w).

(** What [connectWiFi] leaves alone until the connection is there. *)
Definition time_untouched (w w1 : World) : Prop :=
  TZ w1 = TZ w
  /\ lastNtpSync w1 = lastNtpSync w
  /\ config_calls (trace w1) = config_calls (trace w).

(** The status lines printed, newest first. *)
Definition status_lines (t : list Output) : list Output :=
  filter is_status_line t.

End Countdown.

(* ===================================================================== *)
(** * Properties *)
(* ===================================================================== *)

Import CInt CTime Countdown.
Local Open Scope prog_scope.

(** ** The target instant *)

(** The TZ string of the program denotes [TZ_CET_CEST]. *)
Lemma parse_TZ_STRING : parse_tz TZ_STRING = Some TZ_CET_CEST.
Proof. reflexivity. Qed.

(** 2026-04-12 06:00 CEST is 2026-04-12 04:00 UTC. *)
Lemma targetTime_CET_CEST : targetTime (Some TZ_CET_CEST) = 1775966400.
Proof. reflexivity. Qed.

Lemma targetTime_unset : targetTime None = 1775973600.
Proof. reflexivity. Qed.

(** What [configTime] gives to TZ denotes [TZ_UTC], under which the target
    is 2026-04-12 06:00 UTC. *)
Lemma parse_TZ_UTC_STRING : parse_tz TZ_UTC_STRING = Some TZ_UTC.
Proof. reflexivity. Qed.

Lemma targetTime_UTC : targetTime (Some TZ_UTC) = 1775973600.
Proof. reflexivity. Qed.

(** Whatever time zone the process is in, the target lies after the validity
    threshold and less than [LONG_MAX] seconds after it. *)
Lemma targetTime_bounds (tz : option tzinfo) :
  program_tz tz ->
  TIME_VALID_THRESHOLD < targetTime tz <= TIME_VALID_THRESHOLD + LONG_MAX.
Proof.
  intros [-> | [-> | ->]];
    [rewrite targetTime_unset | rewrite targetTime_CET_CEST
    | rewrite targetTime_UTC];
    unfold TIME_VALID_THRESHOLD, LONG_MAX; lia.
Qed.

(** ** computeHoursRemaining *)

Lemma long_of_double_fits (z : Z) :
  LONG_MIN <= z <= LONG_MAX -> long_of_double z = Some z.
Proof.
  intros [Hlo Hhi]. unfold long_of_double, in_long.
  apply Z.leb_le in Hlo. apply Z.leb_le in Hhi.
  now rewrite Hlo, Hhi.
Qed.

Lemma computeHoursRemaining_unsynced (tz : option tzinfo) (now : Z) :
  now < TIME_VALID_THRESHOLD -> computeHoursRemaining tz now = Some (-1).
Proof.
  intros H. unfold computeHoursRemaining.
  apply Z.ltb_lt in H. now rewrite H.
Qed.

Lemma computeHoursRemaining_past (tz : option tzinfo) (now : Z) :
  TIME_VALID_THRESHOLD <= now -> targetTime tz <= now ->
  computeHoursRemaining tz now = Some 0.
Proof.
  intros Hs Ht. unfold computeHoursRemaining; fold (targetTime tz).
  destruct (Z.ltb_spec now TIME_VALID_THRESHOLD); [lia |].
  destruct (Z.leb_spec (targetTime tz) now); [reflexivity | lia].
Qed.

Lemma computeHoursRemaining_future (tz : option tzinfo) (now : Z) :
  program_tz tz ->
  TIME_VALID_THRESHOLD <= now -> now < targetTime tz ->
  computeHoursRemaining tz now = Some ((targetTime tz - now) / 3600).
Proof.
  intros Htz Hs Ht. pose proof (targetTime_bounds tz Htz) as Hb.
  unfold computeHoursRemaining; fold (targetTime tz).
  destruct (Z.ltb_spec now TIME_VALID_THRESHOLD); [lia |].
  destruct (Z.leb_spec (targetTime tz) now); [lia |].
  unfold difftime. rewrite long_of_double_fits.
  - unfold ldiv. rewrite Z.quot_div_nonneg by lia. reflexivity.
  - unfold LONG_MIN, LONG_MAX in *. lia.
Qed.

(** The function always returns: the conversion to [long] is never out of
    range, and for a clock that is set the result is not negative. *)
Lemma computeHoursRemaining_synced (tz : option tzinfo) (now : Z) :
  program_tz tz -> TIME_VALID_THRESHOLD <= now ->
  exists hours, computeHoursRemaining tz now = Some hours /\ 0 <= hours.
Proof.
  intros Htz Hs.
  destruct (Z.le_gt_cases (targetTime tz) now) as [Ht | Ht].
  - exists 0. split; [now apply computeHoursRemaining_past | lia].
  - exists ((targetTime tz - now) / 3600). split.
    + now apply computeHoursRemaining_future.
    + apply Z.div_pos; lia.
Qed.

Lemma computeHoursRemaining_total (tz : option tzinfo) (now : Z) :
  program_tz tz ->
  exists hours, computeHoursRemaining tz now = Some hours /\ -1 <= hours.
Proof.
  intros Htz.
  destruct (Z.lt_ge_cases now TIME_VALID_THRESHOLD) as [H | H].
  - exists (-1). split; [now apply computeHoursRemaining_unsynced | lia].
  - destruct (computeHoursRemaining_synced tz now Htz H) as (h & Hh & Hpos).
    exists h. split; [assumption | lia].
Qed.

(** C1. For a clock that is set ([now] at or above the threshold) and reads
    an instant strictly before the target, [computeHoursRemaining] returns
    the floor of [(target - now) / 3600], the difference taken in seconds. *)
Theorem C1_hours_before_target (tz : option tzinfo) (now : Z) :
  program_tz tz ->
  TIME_VALID_THRESHOLD <= now ->
  now < targetTime tz ->
  computeHoursRemaining tz now = Some ((targetTime tz - now) / 3600).
Proof. apply computeHoursRemaining_future. Qed.

Lemma C1_hours_before_target_witness :
  computeHoursRemaining (Some TZ_CET_CEST) 1775790000
  = Some ((targetTime (Some TZ_CET_CEST) - 1775790000) / 3600).
Proof.
  apply (C1_hours_before_target (Some TZ_CET_CEST) 1775790000).
  - right; left; reflexivity.
  - unfold TIME_VALID_THRESHOLD; lia.
  - rewrite targetTime_CET_CEST; lia.
Defined.

(** C2. For a clock that is set, [computeHoursRemaining] returns exactly 0
    once [now] has reached the target, and in every case a value that is
    not negative. *)
Theorem C2_zero_at_target_and_nonnegative (tz : option tzinfo) (now : Z) :
  program_tz tz ->
  TIME_VALID_THRESHOLD <= now ->
  (targetTime tz <= now -> computeHoursRemaining tz now = Some 0)
  /\ (exists hours, computeHoursRemaining tz now = Some hours /\ 0 <= hours).
Proof.
  intros Htz Hs. split.
  - now apply computeHoursRemaining_past.
  - now apply computeHoursRemaining_synced.
Qed.

Lemma C2_zero_at_target_and_nonnegative_witness :
  computeHoursRemaining (Some TZ_CET_CEST) 1775966400 = Some 0
  /\ computeHoursRemaining (Some TZ_CET_CEST) 1775966401 = Some 0.
Proof.
  split.
  - apply (C2_zero_at_target_and_nonnegative (Some TZ_CET_CEST) 1775966400).
    + right; left; reflexivity.
    + unfold TIME_VALID_THRESHOLD; lia.
    + rewrite targetTime_CET_CEST; lia.
  - apply (C2_zero_at_target_and_nonnegative (Some TZ_CET_CEST) 1775966401).
    + right; left; reflexivity.
    + unfold TIME_VALID_THRESHOLD; lia.
    + rewrite targetTime_CET_CEST; lia.
Defined.

(** C3. [computeHoursRemaining] returns the sentinel -1 exactly when [now]
    is below the threshold of 100000 seconds since the epoch; at or above
    the threshold it returns a value other than -1. *)
Theorem C3_unsynced_iff_below_threshold (tz : option tzinfo) (now : Z) :
  program_tz tz ->
  TIME_VALID_THRESHOLD = 100000
  /\ (computeHoursRemaining tz now = Some (-1) <-> now < 100000)
  /\ (100000 <= now ->
      exists hours, computeHoursRemaining tz now = Some hours /\ hours <> -1).
Proof.
  intros Htz. split; [reflexivity |].
  change 100000 with TIME_VALID_THRESHOLD.
  assert (Hge : TIME_VALID_THRESHOLD <= now ->
                exists hours,
                  computeHoursRemaining tz now = Some hours /\ hours <> -1).
  { intros Hs.
    destruct (computeHoursRemaining_synced tz now Htz Hs) as (h & Hh & Hpos).
    exists h. split; [assumption | lia]. }
  split; [split | exact Hge].
  - intros Hret.
    destruct (Z.lt_ge_cases now TIME_VALID_THRESHOLD) as [H | H];
      [assumption |].
    destruct (Hge H) as (h & Hh & Hne). congruence.
  - apply computeHoursRemaining_unsynced.
Qed.

Lemma C3_unsynced_iff_below_threshold_witness :
  computeHoursRemaining None 99999 = Some (-1)
  /\ exists hours,
       computeHoursRemaining None 100000 = Some hours /\ hours <> -1.
Proof.
  destruct (C3_unsynced_iff_below_threshold None 99999) as (_ & Hiff & _).
  { left; reflexivity. }
  destruct (C3_unsynced_iff_below_threshold None 100000) as (_ & _ & Hge).
  { left; reflexivity. }
  split.
  - apply Hiff; lia.
  - apply Hge; lia.
Defined.

(** C7. For two readings [now1 <= now2] of a clock that is set, both
    strictly before the target, the hours returned for [now2] are at most
    those returned for [now1], and neither value is negative. *)
Theorem C7_hours_non_increasing (tz : option tzinfo) (now1 now2 : Z) :
  program_tz tz ->
  TIME_VALID_THRESHOLD <= now1 ->
  now1 <= now2 ->
  now2 < targetTime tz ->
  exists hours1 hours2,
    computeHoursRemaining tz now1 = Some hours1
    /\ computeHoursRemaining tz now2 = Some hours2
    /\ hours2 <= hours1 /\ 0 <= hours2 /\ 0 <= hours1.
Proof.
  intros Htz Hs Hle Ht.
  exists ((targetTime tz - now1) / 3600), ((targetTime tz - now2) / 3600).
  repeat split.
  - apply computeHoursRemaining_future; [assumption | lia | lia].
  - apply computeHoursRemaining_future; [assumption | lia | lia].
  - apply Z.div_le_mono; lia.
  - apply Z.div_pos; lia.
  - apply Z.div_pos; lia.
Qed.

Lemma C7_hours_non_increasing_witness :
  exists hours1 hours2,
    computeHoursRemaining (Some TZ_CET_CEST) 1775790000 = Some hours1
    /\ computeHoursRemaining (Some TZ_CET_CEST) 1775793600 = Some hours2
    /\ hours2 <= hours1 /\ 0 <= hours2 /\ 0 <= hours1.
Proof.
  apply (C7_hours_non_increasing (Some TZ_CET_CEST) 1775790000 1775793600).
  - right; left; reflexivity.
  - unfold TIME_VALID_THRESHOLD; lia.
  - lia.
  - rewrite targetTime_CET_CEST; lia.
Defined.


(** ** Display *)

Lemma showValueOnDisplay_run (value : Z) (w : World) :
  showValueOnDisplay value w =
  Ret tt (set_trace (rendering value :: trace (initialized w)) (initialized w)).
Proof.
  unfold showValueOnDisplay, rendering, initialized, initDisplay, when, bind,
    gets, emit, modify, ret.
  destruct w as [lp lrh lns lms mode init tz tr rd]; cbn.
  destruct init; cbn; destruct (value <? 0); reflexivity.
Qed.

Lemma displayed_after_show (value : Z) (w : World) :
  displayed (set_trace (rendering value :: trace (initialized w))
               (initialized w)) = Some (rendering value).
Proof.
  unfold displayed, rendering. cbn.
  destruct (value <? 0); reflexivity.
Qed.

Lemma displayMode_initialized (w : World) :
  displayMode (initialized w) = displayMode w.
Proof. unfold initialized. destruct (displayInitialized w); reflexivity. Qed.

Lemma lastReportedHours_initialized (w : World) :
  lastReportedHours (initialized w) = lastReportedHours w.
Proof. unfold initialized. destruct (displayInitialized w); reflexivity. Qed.

(** [updateDisplay] always returns, and what it shows is the rendering of
    -1, of [hours - 1] or of the days, as the value and the mode decide. *)
Lemma updateDisplay_run (hoursRemaining : Z) (w : World) :
  let value :=
    if hoursRemaining <? 0 then -1
    else
      match displayMode w with
      | MODE_HOURS => hoursRemaining - 1
      | MODE_DAYS => ldiv hoursRemaining 24
      end in
  updateDisplay hoursRemaining w =
  Ret tt (set_trace (rendering value :: trace (initialized w)) (initialized w)).
Proof.
  cbv zeta. unfold updateDisplay.
  destruct (hoursRemaining <? 0).
  - apply showValueOnDisplay_run.
  - unfold bind, gets.
    destruct (displayMode w); apply showValueOnDisplay_run.
Qed.

(** C4. In hours mode, for a clock that is set, the display shows
    [hours - 1], at most 9999; for [hours = 0] the value is negative and the
    display shows the four dashes instead of a number. *)
Theorem C4_hours_mode_shows_hours_minus_one (w : World) (hours : Z) :
  displayMode w = MODE_HOURS ->
  0 <= hours ->
  exists w',
    updateDisplay hours w = Ret tt w'
    /\ (hours = 0 -> displayed w' = Some DASHES)
    /\ (1 <= hours ->
        displayed w' = Some (DisplayShowNumberDec (Z.min (hours - 1) 9999)
                               false)).
Proof.
  intros Hmode Hpos. eexists. split; [apply updateDisplay_run |].
  rewrite displayed_after_show, Hmode.
  destruct (Z.ltb_spec hours 0); [lia |]. unfold rendering. split.
  - intros ->. reflexivity.
  - intros H1. destruct (Z.ltb_spec (hours - 1) 0); [lia |].
    destruct (Z.ltb_spec 9999 (hours - 1)).
    + rewrite Z.min_r by lia. reflexivity.
    + rewrite Z.min_l by lia. reflexivity.
Qed.

Lemma C4_hours_mode_shows_hours_minus_one_witness :
  (exists w',
     updateDisplay 0 boot = Ret tt w' /\ displayed w' = Some DASHES)
  /\ (exists w',
        updateDisplay 48 boot = Ret tt w'
        /\ displayed w' = Some (DisplayShowNumberDec 47 false))
  /\ (exists w',
        updateDisplay 20000 boot = Ret tt w'
        /\ displayed w' = Some (DisplayShowNumberDec 9999 false)).
Proof.
  repeat split.
  - destruct (C4_hours_mode_shows_hours_minus_one boot 0)
      as (w' & Hrun & H0 & _); [reflexivity | lia |].
    exists w'. split; [exact Hrun | apply H0; reflexivity].
  - destruct (C4_hours_mode_shows_hours_minus_one boot 48)
      as (w' & Hrun & _ & H1); [reflexivity | lia |].
    exists w'. split; [exact Hrun | apply H1; lia].
  - destruct (C4_hours_mode_shows_hours_minus_one boot 20000)
      as (w' & Hrun & _ & H1); [reflexivity | lia |].
    exists w'. split; [exact Hrun | apply H1; lia].
Defined.

(** C5. In days mode, for a clock that is set and every [hours >= 0], the
    display shows the floor of [hours / 24] clamped to 0 .. 9999; a value
    above 9999 is shown as 9999, never as the dashes. *)
Theorem C5_days_mode_shows_days (w : World) (hours : Z) :
  displayMode w = MODE_DAYS ->
  0 <= hours ->
  exists w',
    updateDisplay hours w = Ret tt w'
    /\ displayed w' =
       Some (DisplayShowNumberDec (Z.max 0 (Z.min (hours / 24) 9999)) false)
    /\ displayed w' <> Some DASHES.
Proof.
  intros Hmode Hpos. eexists. split; [apply updateDisplay_run |].
  rewrite displayed_after_show, Hmode.
  destruct (Z.ltb_spec hours 0); [lia |].
  unfold rendering, ldiv. rewrite Z.quot_div_nonneg by lia.
  assert (0 <= hours / 24) by (apply Z.div_pos; lia).
  destruct (Z.ltb_spec (hours / 24) 0); [lia |].
  destruct (Z.ltb_spec 9999 (hours / 24)).
  - rewrite Z.min_r, Z.max_r by lia. split; [reflexivity | discriminate].
  - rewrite Z.min_l, Z.max_r by lia. split; [reflexivity | discriminate].
Qed.

Lemma C5_days_mode_shows_days_witness :
  exists w',
    updateDisplay 240001 (set_displayMode MODE_DAYS boot) = Ret tt w'
    /\ displayed w' =
       Some (DisplayShowNumberDec (Z.max 0 (Z.min (240001 / 24) 9999)) false)
    /\ displayed w' <> Some DASHES.
Proof.
  apply (C5_days_mode_shows_days (set_displayMode MODE_DAYS boot) 240001).
  - reflexivity.
  - lia.
Defined.

(** C6. For a negative hours value (clock not set), [updateDisplay] shows
    the four dashes in either mode, and issues the same calls whatever the
    mode is. *)
Theorem C6_unsynced_shows_dashes_in_both_modes
    (w : World) (mode1 mode2 : DisplayMode) (hours : Z) :
  hours < 0 ->
  exists w1 w2,
    updateDisplay hours (set_displayMode mode1 w) = Ret tt w1
    /\ updateDisplay hours (set_displayMode mode2 w) = Ret tt w2
    /\ displayed w1 = Some DASHES
    /\ displayed w2 = Some DASHES
    /\ trace w1 = trace w2.
Proof.
  intros Hneg. do 2 eexists.
  split; [apply updateDisplay_run |]. split; [apply updateDisplay_run |].
  rewrite !displayed_after_show.
  destruct (Z.ltb_spec hours 0); [| lia].
  repeat split.
  unfold initialized. cbn. destruct (displayInitialized w); reflexivity.
Qed.

Lemma C6_unsynced_shows_dashes_in_both_modes_witness :
  exists w1 w2,
    updateDisplay (-1) (set_displayMode MODE_HOURS boot) = Ret tt w1
    /\ updateDisplay (-1) (set_displayMode MODE_DAYS boot) = Ret tt w2
    /\ displayed w1 = Some DASHES
    /\ displayed w2 = Some DASHES
    /\ trace w1 = trace w2.
Proof.
  apply (C6_unsynced_shows_dashes_in_both_modes boot MODE_HOURS MODE_DAYS (-1)).
  lia.
Defined.

(** ** Reporting *)

Lemma computeHoursRemainingM_run (env : Env) (w : World) :
  computeHoursRemainingM env w =
  match computeHoursRemaining (TZ w) (time_at env (reads w)) with
  | Some hours => Ret hours (after_read w)
  | None => Undefined
  end.
Proof.
  unfold computeHoursRemainingM, bind, time, read, gets. cbn.
  destruct (computeHoursRemaining _ _); reflexivity.
Qed.

Lemma reportIfNeeded_run (env : Env) (force : bool) (w : World) (hours : Z) :
  computeHoursRemaining (TZ w) (time_at env (reads w)) = Some hours ->
  reportIfNeeded env force w =
  if hours <? 0 then
    updateDisplay (-1)
      (if force then log WAITING_MSG (after_read w) else after_read w)
  else if force || negb (hours =? lastReportedHours w) then
    updateDisplay hours
      (set_lastReportedHours hours (log (status_line hours) (after_read w)))
  else Ret tt (after_read w).
Proof.
  intros Hh. unfold reportIfNeeded, bind at 1.
  rewrite computeHoursRemainingM_run, Hh.
  destruct (hours <? 0).
  - destruct force; reflexivity.
  - unfold bind, gets. cbn [lastReportedHours after_read set_reads].
    destruct (force || negb (hours =? lastReportedHours w)); reflexivity.
Qed.

Lemma trace_initialized (w : World) :
  trace (initialized w) = init_calls w ++ trace w.
Proof.
  unfold initialized, init_calls. destruct (displayInitialized w); reflexivity.
Qed.

(** C9. A status line that [reportIfNeeded] prints for a computed value
    [hours >= 0] carries [hours - 1] in its hours field, the floor of
    [hours / 24] in its days field and [hours mod 24] in its remainder
    field, so the fields satisfy [H = 24 * D + R - 1] and not
    [H = 24 * D + R]. The line is printed when the report is forced or the
    value differs from the last one reported. *)
Theorem C9_status_line_fields
    (env : Env) (force : bool) (w : World) (hours : Z) :
  computeHoursRemaining (TZ w) (time_at env (reads w)) = Some hours ->
  0 <= hours ->
  exists w' new,
    reportIfNeeded env force w = Ret tt w'
    /\ trace w' = new ++ trace w
    /\ (force = true \/ hours <> lastReportedHours w ->
        In (SerialPrintf RESULT_FMT
              [ArgLong (hours - 1); ArgLong (hours / 24);
               ArgLong (hours mod 24)]) new)
    /\ (forall fmt args, In (SerialPrintf fmt args) new ->
        exists H D R,
          fmt = RESULT_FMT
          /\ args = [ArgLong H; ArgLong D; ArgLong R]
          /\ H = hours - 1 /\ D = hours / 24 /\ R = hours mod 24
          /\ H = 24 * D + R - 1 /\ H <> 24 * D + R).
Proof.
  intros Hh Hpos.
  assert (Hline : status_line hours =
                  SerialPrintf RESULT_FMT
                    [ArgLong (hours - 1); ArgLong (hours / 24);
                     ArgLong (hours mod 24)]).
  { unfold status_line, ldiv, lrem.
    rewrite Z.quot_div_nonneg, Z.rem_mod_nonneg by lia. reflexivity. }
  rewrite (reportIfNeeded_run env force w hours Hh).
  destruct (Z.ltb_spec hours 0); [lia |].
  destruct (force || negb (hours =? lastReportedHours w)) eqn:Hprint.
  - rewrite updateDisplay_run. cbv zeta.
    set (w1 := set_lastReportedHours hours (log (status_line hours)
                                              (after_read w))).
    set (value := if hours <? 0 then -1
                  else match displayMode w1 with
                       | MODE_HOURS => hours - 1
                       | MODE_DAYS => ldiv hours 24
                       end).
    exists (set_trace (rendering value :: trace (initialized w1))
              (initialized w1)).
    exists (rendering value :: init_calls w1 ++ [status_line hours]).
    split; [reflexivity |]. split.
    { cbn [trace set_trace]. rewrite trace_initialized. subst w1.
      cbn [trace set_lastReportedHours log set_trace after_read set_reads].
      cbn [app]. rewrite <- app_assoc. reflexivity. }
    split.
    { intros _. right. apply in_or_app. right. left. exact Hline. }
    intros fmt args [Hin | Hin].
    + exfalso. unfold rendering, DASHES in Hin.
      destruct (value <? 0); discriminate.
    + apply in_app_or in Hin. destruct Hin as [Hin | [Hin | []]].
      * exfalso. unfold init_calls in Hin.
        destruct (displayInitialized w1); cbn in Hin;
          intuition discriminate.
      * rewrite Hline in Hin. injection Hin as <- <-.
        exists (hours - 1), (hours / 24), (hours mod 24).
        pose proof (Z.div_mod hours 24 ltac:(lia)).
        repeat split; lia.
  - exists (after_read w), []. split; [reflexivity |].
    split; [reflexivity |]. split.
    + intros [-> | Hne]; [discriminate |].
      apply orb_false_elim in Hprint. destruct Hprint as [_ Hsame].
      apply negb_false_iff, Z.eqb_eq in Hsame. contradiction.
    + intros fmt args [].
Qed.

Lemma C9_status_line_fields_witness :
  let w := set_TZ (Some TZ_CET_CEST) boot in
  computeHoursRemaining (TZ w) (time_at example_env (reads w)) = Some 48
  /\ 0 <= 48
  /\ exists w' new,
       reportIfNeeded example_env false w = Ret tt w'
       /\ trace w' = new ++ trace w
       /\ In (SerialPrintf RESULT_FMT [ArgLong 47; ArgLong 2; ArgLong 0]) new.
Proof.
  cbv zeta.
  assert (Hh : computeHoursRemaining (TZ (set_TZ (Some TZ_CET_CEST) boot))
                 (time_at example_env
                    (reads (set_TZ (Some TZ_CET_CEST) boot))) = Some 48)
    by reflexivity.
  assert (Hpos : 0 <= 48) by lia.
  split; [exact Hh |]. split; [exact Hpos |].
  destruct (C9_status_line_fields example_env false
              (set_TZ (Some TZ_CET_CEST) boot) 48 Hh Hpos)
    as (w' & new & Hrun & Htrace & Hprinted & _).
  exists w', new. split; [exact Hrun |]. split; [exact Htrace |].
  apply Hprinted. right. cbn. lia.
Defined.

(** ** The last reported value over the run of the program *)

Lemma lrh_step_refl (w : World) : lrh_step w w.
Proof. left; reflexivity. Qed.

Lemma lrh_step_trans (w1 w2 w3 : World) :
  lrh_step w1 w2 -> lrh_step w2 w3 -> lrh_step w1 w3.
Proof.
  unfold lrh_step. intros [H12 | H12] [H23 | H23]; try (right; lia).
  left; congruence.
Qed.

Section Soundness.

Context {A B : Type}.

Lemma sound_ret (a : A) : sound (ret a).
Proof. intros w Htz. cbn. split; [assumption | apply lrh_step_refl]. Qed.

Lemma sound_bind (c : M A) (k : A -> M B) :
  sound c -> (forall a, sound (k a)) -> sound (bind c k).
Proof.
  intros Hc Hk w Htz. unfold bind. specialize (Hc w Htz).
  destruct (c w) as [a w1 | |]; [| contradiction | exact I].
  destruct Hc as [Htz1 H1]. specialize (Hk a w1 Htz1).
  destruct (k a w1) as [b w2 | |]; [| contradiction | exact I].
  destruct Hk as [Htz2 H2]. split; [assumption |].
  exact (lrh_step_trans _ _ _ H1 H2).
Qed.

Lemma sound_gets (f : World -> A) : sound (gets f).
Proof. intros w Htz. cbn. split; [assumption | apply lrh_step_refl]. Qed.

Lemma sound_read (env : Env) (f : Env -> nat -> A) : sound (read env f).
Proof. intros w Htz. cbn. split; [assumption | left; reflexivity]. Qed.

Lemma sound_out_of_fuel : sound (@out_of_fuel A).
Proof. intros w Htz. exact I. Qed.

End Soundness.

(** A change of the world that touches neither TZ nor
    [lastReportedHours]. *)
Lemma sound_modify_other (f : World -> World) :
  (forall w, TZ (f w) = TZ w) ->
  (forall w, lastReportedHours (f w) = lastReportedHours w) ->
  sound (modify f).
Proof.
  intros Htz Hlrh w Hw. cbn. rewrite Htz. split; [assumption |].
  left. apply Hlrh.
Qed.

Lemma sound_emit (o : Output) : sound (emit o).
Proof. apply sound_modify_other; reflexivity. Qed.

Lemma sound_setenv_TZ : sound (setenv_TZ TZ_STRING).
Proof.
  intros w Hw. unfold setenv_TZ. rewrite parse_TZ_STRING. cbn.
  split; [right; left; reflexivity | left; reflexivity].
Qed.

Lemma sound_setenv_TZ_UTC : sound (setenv_TZ TZ_UTC_STRING).
Proof.
  intros w Hw. unfold setenv_TZ. rewrite parse_TZ_UTC_STRING. cbn.
  split; [right; right; reflexivity | left; reflexivity].
Qed.

Lemma sound_set_lastReportedHours (hours : Z) :
  (hours <? 0) = false -> sound (modify (set_lastReportedHours hours)).
Proof.
  intros Hpos w Hw. cbn. split; [assumption |].
  right. cbn. apply Z.ltb_ge. assumption.
Qed.

Lemma sound_when (b : bool) (c : M unit) : sound c -> sound (when b c).
Proof. intros Hc. destruct b; [exact Hc | apply sound_ret]. Qed.

Create HintDb sound discriminated.
#[local] Hint Resolve sound_ret sound_gets sound_read sound_out_of_fuel
  sound_emit sound_setenv_TZ sound_setenv_TZ_UTC sound_set_lastReportedHours
  : sound.

(** Walks through a computation: binds, tests, and the primitive steps. *)
Ltac sound_walk :=
  repeat match goal with
    | |- sound (bind _ _) => apply sound_bind; [| intro]
    | |- sound (when _ _) => apply sound_when
    | |- sound (if ?b then _ else _) => destruct b eqn:?
    | |- sound (match ?m with MODE_HOURS => _ | MODE_DAYS => _ end) =>
        destruct m
    | |- sound (modify _) =>
        first [ apply sound_modify_other; reflexivity
              | solve [auto with sound] ]
    | |- sound _ => solve [auto with sound]
    end.

Lemma sound_millis (env : Env) : sound (millis env).
Proof. unfold millis. sound_walk. Qed.

Lemma sound_initDisplay : sound initDisplay.
Proof. unfold initDisplay. sound_walk. Qed.

Lemma sound_showValueOnDisplay (value : Z) : sound (showValueOnDisplay value).
Proof.
  unfold showValueOnDisplay. sound_walk. apply sound_initDisplay.
Qed.

Lemma sound_updateDisplay (hours : Z) : sound (updateDisplay hours).
Proof.
  unfold updateDisplay. sound_walk; apply sound_showValueOnDisplay.
Qed.

Lemma sound_computeHoursRemainingM (env : Env) :
  sound (computeHoursRemainingM env).
Proof.
  intros w Htz. rewrite computeHoursRemainingM_run.
  destruct (computeHoursRemaining_total (TZ w) (time_at env (reads w)) Htz)
    as (hours & -> & _).
  split; [assumption | left; reflexivity].
Qed.

#[local] Hint Resolve sound_millis sound_initDisplay sound_showValueOnDisplay
  sound_updateDisplay sound_computeHoursRemainingM : sound.

Lemma sound_reportIfNeeded (env : Env) (force : bool) :
  sound (reportIfNeeded env force).
Proof. unfold reportIfNeeded. sound_walk. Qed.

Lemma sound_configTime : sound configTime.
Proof. unfold configTime. sound_walk. Qed.

#[local] Hint Resolve sound_reportIfNeeded sound_configTime : sound.

Lemma sound_awaitConnection (env : Env) (fuel : nat) (start : Z) :
  sound (awaitConnection env fuel start).
Proof.
  induction fuel as [| fuel IH]; cbn [awaitConnection].
  - apply sound_out_of_fuel.
  - unfold wifi_connected, delay. sound_walk.
Qed.

#[local] Hint Resolve sound_awaitConnection : sound.

Lemma sound_connectWiFi (env : Env) (fuel : nat) :
  sound (connectWiFi env fuel).
Proof. unfold connectWiFi, wifi_connected. sound_walk. Qed.

Lemma sound_periodicResync (env : Env) : sound (periodicResync env).
Proof. unfold periodicResync. sound_walk. Qed.

#[local] Hint Resolve sound_connectWiFi sound_periodicResync : sound.

Lemma sound_ensureTimeResync (env : Env) : sound (ensureTimeResync env).
Proof. unfold ensureTimeResync, time, wifi_connected. sound_walk. Qed.

#[local] Hint Resolve sound_ensureTimeResync : sound.

Lemma sound_setup (env : Env) (fuel : nat) : sound (setup env fuel).
Proof. unfold setup, delay. sound_walk. Qed.

Lemma sound_loop (env : Env) (fuel : nat) : sound (loop env fuel).
Proof. unfold loop, wifi_connected, delay. sound_walk. Qed.

#[local] Hint Resolve sound_setup sound_loop : sound.

Lemma sound_loops (env : Env) (fuel n : nat) : sound (loops env fuel n).
Proof.
  induction n as [| n IH]; cbn [loops]; sound_walk.
Qed.

(** *** Runs with the network up

    The only loop of the program besides [loop] itself waits for the
    network. When every reading finds the network connected, [connectWiFi]
    returns at its first test, so [setup] and every round of [loop] return
    whatever the bound on the polling loop is. *)

Lemma returns_ret {A : Type} (a : A) : returns (ret a).
Proof. intros w. discriminate. Qed.

Lemma returns_gets {A : Type} (f : World -> A) : returns (gets f).
Proof. intros w. discriminate. Qed.

Lemma returns_modify (f : World -> World) : returns (modify f).
Proof. intros w. discriminate. Qed.

Lemma returns_emit (o : Output) : returns (emit o).
Proof. apply returns_modify. Qed.

Lemma returns_read {A : Type} (env : Env) (f : Env -> nat -> A) :
  returns (read env f).
Proof. intros w. discriminate. Qed.

Lemma returns_bind {A B : Type} (c : M A) (k : A -> M B) :
  returns c -> (forall a, returns (k a)) -> returns (bind c k).
Proof.
  intros Hc Hk w. unfold bind. specialize (Hc w).
  destruct (c w) as [a w1 | |]; [apply Hk | discriminate | contradiction].
Qed.

Lemma returns_when (b : bool) (c : M unit) : returns c -> returns (when b c).
Proof. intros Hc. destruct b; [exact Hc | apply returns_ret]. Qed.

Lemma returns_computeHoursRemainingM (env : Env) :
  returns (computeHoursRemainingM env).
Proof.
  intros w. rewrite computeHoursRemainingM_run.
  destruct (computeHoursRemaining _ _); discriminate.
Qed.

Create HintDb returns discriminated.
#[local] Hint Resolve returns_ret returns_gets returns_modify returns_emit
  returns_read returns_computeHoursRemainingM : returns.

Ltac returns_walk :=
  repeat match goal with
    | |- returns (bind _ _) => apply returns_bind; [| intro]
    | |- returns (when _ _) => apply returns_when
    | |- returns (if ?b then _ else _) => destruct b
    | |- returns (match ?m with MODE_HOURS => _ | MODE_DAYS => _ end) =>
        destruct m
    | |- returns _ => solve [auto with returns]
    end.

Lemma returns_updateDisplay (hours : Z) : returns (updateDisplay hours).
Proof. intros w. rewrite updateDisplay_run. discriminate. Qed.

#[local] Hint Resolve returns_updateDisplay : returns.

Lemma returns_reportIfNeeded (env : Env) (force : bool) :
  returns (reportIfNeeded env force).
Proof. unfold reportIfNeeded. returns_walk. Qed.

Lemma returns_ensureTimeResync (env : Env) : returns (ensureTimeResync env).
Proof.
  unfold ensureTimeResync, periodicResync, configTime, setenv_TZ, time,
    wifi_connected, millis.
  returns_walk.
Qed.

#[local] Hint Resolve returns_reportIfNeeded returns_ensureTimeResync
  : returns.

Section NetworkUp.

Variable env : Env.
Hypothesis network_up : forall k, wifi_at env k = true.

Lemma returns_connectWiFi_up (fuel : nat) : returns (connectWiFi env fuel).
Proof.
  intros w. unfold connectWiFi, bind at 1, wifi_connected, read.
  rewrite network_up. discriminate.
Qed.

Lemma returns_setup_up (fuel : nat) : returns (setup env fuel).
Proof.
  pose proof (returns_connectWiFi_up fuel).
  unfold setup, delay, initDisplay, millis. returns_walk.
Qed.

Lemma returns_loop_up (fuel : nat) : returns (loop env fuel).
Proof.
  pose proof (returns_connectWiFi_up fuel).
  unfold loop, delay, wifi_connected, millis. returns_walk.
Qed.

Lemma returns_loops_up (fuel n : nat) : returns (loops env fuel n).
Proof.
  pose proof (returns_loop_up fuel).
  induction n as [| n IH]; cbn [loops]; returns_walk.
Qed.

(** With the network up the firmware gets through [setup] and any number
    of rounds of [loop], for any readings of the clocks. *)
Lemma firmware_returns_up (fuel n : nat) :
  exists w, firmware env fuel n = Ret tt w.
Proof.
  assert (Hs : sound (setup env fuel ;; loops env fuel n)).
  { apply sound_bind; [apply sound_setup | intro; apply sound_loops]. }
  specialize (Hs boot (or_introl eq_refl)).
  assert (Hr : returns (setup env fuel ;; loops env fuel n)).
  { apply returns_bind; [apply returns_setup_up |].
    intro; apply returns_loops_up. }
  specialize (Hr boot). unfold firmware.
  destruct ((setup env fuel ;; loops env fuel n) boot) as [[] w | |].
  - exists w. reflexivity.
  - contradiction.
  - contradiction.
Qed.

End NetworkUp.

Lemma lastReportedHours_after_updateDisplay (hours : Z) (w : World) :
  exists w',
    updateDisplay hours w = Ret tt w'
    /\ lastReportedHours w' = lastReportedHours w
    /\ displayed w' =
       Some (rendering (if hours <? 0 then -1
                        else match displayMode w with
                             | MODE_HOURS => hours - 1
                             | MODE_DAYS => ldiv hours 24
                             end)).
Proof.
  eexists. split; [apply updateDisplay_run |]. split.
  - cbn [lastReportedHours set_trace]. apply lastReportedHours_initialized.
  - apply displayed_after_show.
Qed.

(** What [reportIfNeeded] does to [lastReportedHours]: it returns, and it
    either leaves the variable alone or stores the value just computed,
    which is not negative. *)
Lemma reportIfNeeded_lastReportedHours
    (env : Env) (force : bool) (w : World) (hours : Z) :
  computeHoursRemaining (TZ w) (time_at env (reads w)) = Some hours ->
  exists w',
    reportIfNeeded env force w = Ret tt w'
    /\ (hours < 0 ->
        lastReportedHours w' = lastReportedHours w
        /\ displayed w' = Some DASHES)
    /\ (lastReportedHours w' = lastReportedHours w
        \/ (0 <= hours /\ lastReportedHours w' = hours)).
Proof.
  intros Hh. rewrite (reportIfNeeded_run env force w hours Hh).
  destruct (Z.ltb_spec hours 0) as [Hneg | Hpos].
  - destruct (lastReportedHours_after_updateDisplay (-1)
                (if force then log WAITING_MSG (after_read w)
                 else after_read w)) as (w' & -> & Hlrh & Hshown).
    assert (Hsame : lastReportedHours w' = lastReportedHours w).
    { rewrite Hlrh. destruct force; reflexivity. }
    exists w'. split; [reflexivity |]. split; [| left; exact Hsame].
    intros _. split; [exact Hsame | exact Hshown].
  - destruct (force || negb (hours =? lastReportedHours w)).
    + destruct (lastReportedHours_after_updateDisplay hours
                  (set_lastReportedHours hours
                     (log (status_line hours) (after_read w))))
        as (w' & -> & Hlrh & _).
      exists w'. split; [reflexivity |]. split; [lia |].
      right. split; [assumption | exact Hlrh].
    + exists (after_read w). split; [reflexivity |]. split; [lia |].
      left; reflexivity.
Qed.

(** C10. When [computeHoursRemaining] yields the sentinel -1,
    [reportIfNeeded] shows the dashes and leaves [lastReportedHours] as it
    was. [reportIfNeeded] only ever stores a computed value that is not
    negative, and nothing else in the program writes the variable: through
    any number of rounds of [loop], a value of [lastReportedHours] that is
    not negative stays so, and from power-up the variable is -1 or not
    negative. *)
Theorem C10_lastReportedHours_stays_synced
    (env : Env) (fuel n : nat) (force : bool) (w : World) :
  program_tz (TZ w) ->
  (computeHoursRemaining (TZ w) (time_at env (reads w)) = Some (-1) ->
   exists w',
     reportIfNeeded env force w = Ret tt w'
     /\ lastReportedHours w' = lastReportedHours w
     /\ displayed w' = Some DASHES)
  /\ (exists w',
        reportIfNeeded env force w = Ret tt w'
        /\ (lastReportedHours w' = lastReportedHours w
            \/ (0 <= lastReportedHours w'
                /\ computeHoursRemaining (TZ w) (time_at env (reads w))
                   = Some (lastReportedHours w'))))
  /\ loops env fuel n w <> Undefined
  /\ (forall w',
        loops env fuel n w = Ret tt w' ->
        0 <= lastReportedHours w -> 0 <= lastReportedHours w')
  /\ (forall w1 w2,
        firmware env fuel n = Ret tt w1 ->
        (lastReportedHours w1 = -1 \/ 0 <= lastReportedHours w1)
        /\ (loops env fuel n w1 = Ret tt w2 ->
            0 <= lastReportedHours w1 -> 0 <= lastReportedHours w2)).
Proof.
  intros Htz.
  assert (Hloops : forall w0 w',
             program_tz (TZ w0) -> loops env fuel n w0 = Ret tt w' ->
             0 <= lastReportedHours w0 -> 0 <= lastReportedHours w').
  { intros w0 w' Htz0 Hrun Hpos.
    pose proof (sound_loops env fuel n w0 Htz0) as Hs. rewrite Hrun in Hs.
    destruct Hs as [_ [Heq | Hge]]; [rewrite Heq |]; assumption. }
  assert (Hfw : sound (setup env fuel ;; loops env fuel n)).
  { apply sound_bind; [apply sound_setup | intro; apply sound_loops]. }
  specialize (Hfw boot (or_introl eq_refl)). fold (firmware env fuel n) in Hfw.
  split; [| split; [| split; [| split]]].
  - intros Hh.
    destruct (reportIfNeeded_lastReportedHours env force w (-1) Hh)
      as (w' & Hrun & Hneg & _).
    exists w'. split; [exact Hrun | apply Hneg; lia].
  - destruct (computeHoursRemaining_total (TZ w) (time_at env (reads w)) Htz)
      as (hours & Hh & _).
    destruct (reportIfNeeded_lastReportedHours env force w hours Hh)
      as (w' & Hrun & _ & Hcases).
    exists w'. split; [exact Hrun |].
    destruct Hcases as [Hsame | [Hpos Hnew]]; [left; exact Hsame |].
    right. rewrite Hnew. split; assumption.
  - intros Hundef. pose proof (sound_loops env fuel n w Htz) as Hs.
    rewrite Hundef in Hs. exact Hs.
  - intros w'. apply Hloops. exact Htz.
  - intros w1 w2 Hrun. rewrite Hrun in Hfw. destruct Hfw as [Htz1 Hstep].
    split.
    + destruct Hstep as [Heq | Hge]; [left; exact Heq | right; exact Hge].
    + apply Hloops. exact Htz1.
Qed.

Lemma C10_lastReportedHours_stays_synced_witness :
  program_tz (TZ boot)
  /\ (exists w',
        reportIfNeeded example_env true boot = Ret tt w'
        /\ (lastReportedHours w' = lastReportedHours boot
            \/ (0 <= lastReportedHours w'
                /\ computeHoursRemaining (TZ boot)
                     (time_at example_env (reads boot))
                   = Some (lastReportedHours w'))))
  /\ (exists w1 w2,
        firmware example_env 2 1 = Ret tt w1
        /\ loops example_env 2 1 w1 = Ret tt w2
        /\ lastReportedHours w1 = 50
        /\ 0 <= lastReportedHours w2).
Proof.
  assert (Htz : program_tz (TZ boot)) by (left; reflexivity).
  destruct (C10_lastReportedHours_stays_synced example_env 2 1 true boot Htz)
    as (_ & Hreport & _ & _ & Hrun).
  split; [exact Htz |]. split; [exact Hreport |].
  destruct (firmware example_env 2 1) as [[] w1 | |] eqn:Hfw;
    [| vm_compute in Hfw; discriminate | vm_compute in Hfw; discriminate].
  destruct (loops example_env 2 1 w1) as [[] w2 | |] eqn:Hloops;
    [| vm_compute in Hfw; injection Hfw as <-;
       vm_compute in Hloops; discriminate
     | vm_compute in Hfw; injection Hfw as <-;
       vm_compute in Hloops; discriminate].
  assert (H50 : lastReportedHours w1 = 50).
  { vm_compute in Hfw. injection Hfw as <-. reflexivity. }
  exists w1, w2. split; [reflexivity |]. split; [exact Hloops |].
  split; [exact H50 |].
  destruct (Hrun w1 w2 eq_refl) as [_ Hstay].
  apply Hstay; [exact Hloops | lia].
Defined.

(* ===================================================================== *)
(** * Further properties *)
(* ===================================================================== *)

(** ** The countdown as a function of the clock *)

(** X1. For a clock that is set, a reading up to an hour later gives the
    same value or one less, and a reading exactly an hour later gives one
    less, down to 0: the countdown skips no value. *)
Theorem X1_hours_step_by_one (tz : option tzinfo) (now d : Z) :
  program_tz tz ->
  TIME_VALID_THRESHOLD <= now ->
  0 <= d <= 3600 ->
  exists hours hours',
    computeHoursRemaining tz now = Some hours
    /\ computeHoursRemaining tz (now + d) = Some hours'
    /\ Z.max 0 (hours - 1) <= hours' <= hours
    /\ (d = 3600 -> hours' = Z.max 0 (hours - 1)).
Proof.
  intros Htz Hs Hd.
  destruct (Z.le_gt_cases (targetTime tz) now) as [Hpast | Hfut].
  - exists 0, 0. rewrite !computeHoursRemaining_past by lia.
    repeat split; lia.
  - rewrite (computeHoursRemaining_future tz now) by assumption.
    set (a := targetTime tz - now). assert (Ha : 0 < a) by (subst a; lia).
    assert (H0 : 0 <= a / 3600) by (apply Z.div_pos; lia).
    destruct (Z.le_gt_cases (targetTime tz) (now + d)) as [Hpast' | Hfut'].
    + exists (a / 3600), 0.
      rewrite computeHoursRemaining_past by lia.
      assert (a / 3600 <= 1).
      { replace 1 with (3600 / 3600) by reflexivity.
        apply Z.div_le_mono; subst a; lia. }
      repeat split; lia.
    + exists (a / 3600), ((a - d) / 3600).
      rewrite (computeHoursRemaining_future tz (now + d)) by (try assumption; lia).
      replace (targetTime tz - (now + d)) with (a - d) by (subst a; lia).
      assert (Hlow : a / 3600 - 1 <= (a - d) / 3600).
      { replace (a / 3600 - 1) with ((a + (-1) * 3600) / 3600)
          by (rewrite Z.div_add by lia; lia).
        apply Z.div_le_mono; lia. }
      assert (Hhigh : (a - d) / 3600 <= a / 3600)
        by (apply Z.div_le_mono; lia).
      assert (H0' : 0 <= (a - d) / 3600) by (apply Z.div_pos; subst a; lia).
      repeat split; try lia.
      intros ->.
      replace (a - 3600) with (a + (-1) * 3600) by lia.
      rewrite Z.div_add by lia.
      replace (a - 3600) with (a + (-1) * 3600) in H0' by lia.
      rewrite Z.div_add in H0' by lia. lia.
Qed.

Lemma X1_hours_step_by_one_witness :
  program_tz (Some TZ_CET_CEST)
  /\ TIME_VALID_THRESHOLD <= 1775793600
  /\ 0 <= 3600 <= 3600
  /\ exists hours hours',
       computeHoursRemaining (Some TZ_CET_CEST) 1775793600 = Some hours
       /\ computeHoursRemaining (Some TZ_CET_CEST) (1775793600 + 3600)
          = Some hours'
       /\ Z.max 0 (hours - 1) <= hours' <= hours
       /\ (3600 = 3600 -> hours' = Z.max 0 (hours - 1)).
Proof.
  assert (Htz : program_tz (Some TZ_CET_CEST))
    by (right; left; reflexivity).
  assert (Hs : TIME_VALID_THRESHOLD <= 1775793600)
    by (unfold TIME_VALID_THRESHOLD; lia).
  assert (Hd : 0 <= 3600 <= 3600) by lia.
  repeat split; try assumption; try lia.
  exact (X1_hours_step_by_one (Some TZ_CET_CEST) 1775793600 3600 Htz Hs Hd).
Defined.

(** X2. As long as TZ is not set, [mktime] reads the target as UTC, two
    hours after the target in Budapest summer time: for a clock that is set
    and reads an instant before the target, the countdown is two hours
    higher than it is under the zone CET-1CEST that [connectWiFi] passes to
    [setenv]. The same holds under the zone UTC0DST0 that [configTime]
    leaves behind. *)
Theorem X2_unset_TZ_adds_two_hours (now : Z) :
  TIME_VALID_THRESHOLD <= now ->
  now < targetTime (Some TZ_CET_CEST) ->
  exists hours,
    computeHoursRemaining (Some TZ_CET_CEST) now = Some hours
    /\ computeHoursRemaining None now = Some (hours + 2)
    /\ computeHoursRemaining (Some TZ_UTC) now = Some (hours + 2).
Proof.
  intros Hs Ht.
  assert (Hlate : forall tz,
             program_tz tz -> targetTime tz = 1775973600 ->
             computeHoursRemaining tz now
             = Some ((targetTime (Some TZ_CET_CEST) - now) / 3600 + 2)).
  { intros tz Htz Htarget.
    rewrite computeHoursRemaining_future;
      [| exact Htz | assumption
       | rewrite Htarget; rewrite targetTime_CET_CEST in Ht; lia].
    rewrite Htarget, targetTime_CET_CEST.
    replace (1775973600 - now) with (1775966400 - now + 2 * 3600) by lia.
    rewrite Z.div_add by lia. reflexivity. }
  exists ((targetTime (Some TZ_CET_CEST) - now) / 3600). split; [| split].
  - apply computeHoursRemaining_future;
      [right; left; reflexivity | assumption | assumption].
  - apply Hlate; [left; reflexivity | apply targetTime_unset].
  - apply Hlate; [right; right; reflexivity | apply targetTime_UTC].
Qed.

Lemma X2_unset_TZ_adds_two_hours_witness :
  TIME_VALID_THRESHOLD <= 1775793600
  /\ 1775793600 < targetTime (Some TZ_CET_CEST)
  /\ exists hours,
       computeHoursRemaining (Some TZ_CET_CEST) 1775793600 = Some hours
       /\ computeHoursRemaining None 1775793600 = Some (hours + 2)
       /\ computeHoursRemaining (Some TZ_UTC) 1775793600 = Some (hours + 2).
Proof.
  assert (Hs : TIME_VALID_THRESHOLD <= 1775793600)
    by (unfold TIME_VALID_THRESHOLD; lia).
  assert (Ht : 1775793600 < targetTime (Some TZ_CET_CEST))
    by (rewrite targetTime_CET_CEST; lia).
  split; [exact Hs |]. split; [exact Ht |].
  exact (X2_unset_TZ_adds_two_hours 1775793600 Hs Ht).
Defined.

(** The largest value of the countdown. *)
Lemma computeHoursRemaining_range (tz : option tzinfo) (now hours : Z) :
  program_tz tz ->
  computeHoursRemaining tz now = Some hours ->
  -1 <= hours <= MAX_HOURS
  /\ (now < TIME_VALID_THRESHOLD -> hours = -1)
  /\ (TIME_VALID_THRESHOLD <= now -> 0 <= hours).
Proof.
  intros Htz Hh.
  destruct (Z.lt_ge_cases now TIME_VALID_THRESHOLD) as [Hlow | Hs].
  - rewrite computeHoursRemaining_unsynced in Hh by assumption.
    injection Hh as <-. unfold MAX_HOURS. repeat split; lia.
  - destruct (Z.le_gt_cases (targetTime tz) now) as [Hpast | Hfut].
    + rewrite computeHoursRemaining_past in Hh by assumption.
      injection Hh as <-. unfold MAX_HOURS. repeat split; lia.
    + rewrite computeHoursRemaining_future in Hh by assumption.
      injection Hh as <-.
      assert (0 <= (targetTime tz - now) / 3600) by (apply Z.div_pos; lia).
      assert ((targetTime tz - now) / 3600 <= MAX_HOURS).
      { unfold MAX_HOURS.
        replace 493298 with ((1775973600 - 100000) / 3600) by reflexivity.
        apply Z.div_le_mono; [lia |].
        unfold TIME_VALID_THRESHOLD in Hs.
        destruct Htz as [-> | [-> | ->]];
          [rewrite targetTime_unset | rewrite targetTime_CET_CEST
          | rewrite targetTime_UTC]; lia. }
      repeat split; lia.
Qed.

(** ** Reporting twice, and what the display shows after a report *)

(** What [updateDisplay] leaves alone. *)
Lemma updateDisplay_frame (hours : Z) (w : World) :
  exists w',
    updateDisplay hours w = Ret tt w'
    /\ lastPrint w' = lastPrint w
    /\ lastReportedHours w' = lastReportedHours w
    /\ lastNtpSync w' = lastNtpSync w
    /\ lastModeSwitch w' = lastModeSwitch w
    /\ displayMode w' = displayMode w
    /\ displayInitialized w' = true
    /\ TZ w' = TZ w
    /\ reads w' = reads w.
Proof.
  eexists. split; [apply updateDisplay_run |].
  destruct w as [lp lrh lns lms mode init tz tr rd].
  unfold initialized; cbn. destruct init; cbn; repeat split.
Qed.

(** X4. After [reportIfNeeded] has handled a value [hours >= 0],
    [lastReportedHours] holds that value, and a following call that is not
    forced and computes the same value prints nothing and does not touch
    the display: within one hour only one status line is printed. *)
Theorem X4_second_report_is_silent
    (env : Env) (force : bool) (w : World) (hours : Z) :
  computeHoursRemaining (TZ w) (time_at env (reads w)) = Some hours ->
  computeHoursRemaining (TZ w) (time_at env (S (reads w))) = Some hours ->
  0 <= hours ->
  exists w1,
    reportIfNeeded env force w = Ret tt w1
    /\ lastReportedHours w1 = hours
    /\ reportIfNeeded env false w1 = Ret tt (after_read w1).
Proof.
  intros Hfirst Hsecond Hpos.
  assert (Hrun : exists w1,
             reportIfNeeded env force w = Ret tt w1
             /\ lastReportedHours w1 = hours
             /\ TZ w1 = TZ w /\ reads w1 = S (reads w)).
  { rewrite (reportIfNeeded_run env force w hours Hfirst).
    destruct (Z.ltb_spec hours 0); [lia |].
    destruct (force || negb (hours =? lastReportedHours w)) eqn:Hprint.
    - destruct (updateDisplay_frame hours
                  (set_lastReportedHours hours
                     (log (status_line hours) (after_read w))))
        as (w1 & -> & _ & Hlrh & _ & _ & _ & _ & Htz & Hreads).
      exists w1. repeat split; assumption.
    - exists (after_read w). repeat split.
      apply orb_false_elim in Hprint. destruct Hprint as [_ Hsame].
      apply negb_false_iff, Z.eqb_eq in Hsame. cbn. congruence. }
  destruct Hrun as (w1 & Hrun & Hlrh & Htz & Hreads).
  exists w1. split; [exact Hrun |]. split; [exact Hlrh |].
  rewrite (reportIfNeeded_run env false w1 hours)
    by (rewrite Htz, Hreads; exact Hsecond).
  destruct (Z.ltb_spec hours 0); [lia |].
  rewrite Hlrh, Z.eqb_refl. reflexivity.
Qed.

Lemma X4_second_report_is_silent_witness :
  let w := set_TZ (Some TZ_CET_CEST) boot in
  computeHoursRemaining (TZ w) (time_at example_env (reads w)) = Some 48
  /\ computeHoursRemaining (TZ w) (time_at example_env (S (reads w)))
     = Some 48
  /\ 0 <= 48
  /\ exists w1,
       reportIfNeeded example_env true w = Ret tt w1
       /\ lastReportedHours w1 = 48
       /\ reportIfNeeded example_env false w1 = Ret tt (after_read w1).
Proof.
  cbv zeta.
  assert (H1 : computeHoursRemaining (TZ (set_TZ (Some TZ_CET_CEST) boot))
                 (time_at example_env
                    (reads (set_TZ (Some TZ_CET_CEST) boot))) = Some 48)
    by reflexivity.
  assert (H2 : computeHoursRemaining (TZ (set_TZ (Some TZ_CET_CEST) boot))
                 (time_at example_env
                    (S (reads (set_TZ (Some TZ_CET_CEST) boot)))) = Some 48)
    by reflexivity.
  assert (Hpos : 0 <= 48) by lia.
  split; [exact H1 |]. split; [exact H2 |]. split; [exact Hpos |].
  exact (X4_second_report_is_silent example_env true
           (set_TZ (Some TZ_CET_CEST) boot) 48 H1 H2 Hpos).
Defined.

(** X5. When [reportIfNeeded] prints a status line (the report is forced or
    the value differs from the last one reported), it adds to the outputs
    exactly the line, the two calls of [initDisplay] if the display was not
    yet initialised, and one write to the display that agrees with the line:
    in hours mode the hours field, in days mode the days field, rendered as
    [showValueOnDisplay] renders it (dashes below 0, at most 9999). *)
Theorem X5_display_agrees_with_status_line
    (env : Env) (force : bool) (w : World) (hours : Z) :
  computeHoursRemaining (TZ w) (time_at env (reads w)) = Some hours ->
  0 <= hours ->
  force = true \/ hours <> lastReportedHours w ->
  exists w' H D R,
    reportIfNeeded env force w = Ret tt w'
    /\ H = hours - 1 /\ D = hours / 24 /\ R = hours mod 24
    /\ trace w' =
       rendering (match displayMode w with
                  | MODE_HOURS => H
                  | MODE_DAYS => D
                  end)
       :: init_calls w
          ++ SerialPrintf RESULT_FMT [ArgLong H; ArgLong D; ArgLong R]
          :: trace w
    /\ displayed w' =
       Some (rendering (match displayMode w with
                        | MODE_HOURS => H
                        | MODE_DAYS => D
                        end))
    /\ lastReportedHours w' = hours.
Proof.
  intros Hh Hpos Hdue.
  rewrite (reportIfNeeded_run env force w hours Hh).
  destruct (Z.ltb_spec hours 0); [lia |].
  assert (Hprint : force || negb (hours =? lastReportedHours w) = true).
  { destruct Hdue as [-> | Hne]; [reflexivity |].
    apply orb_true_iff. right. apply negb_true_iff, Z.eqb_neq. exact Hne. }
  rewrite Hprint.
  set (w1 := set_lastReportedHours hours
               (log (status_line hours) (after_read w))).
  rewrite updateDisplay_run. cbv zeta.
  destruct (Z.ltb_spec hours 0); [lia |].
  eexists. exists (hours - 1), (hours / 24), (hours mod 24).
  split; [reflexivity |].
  assert (Hq : ldiv hours 24 = hours / 24)
    by (unfold ldiv; apply Z.quot_div_nonneg; lia).
  assert (Hr : lrem hours 24 = hours mod 24)
    by (unfold lrem; apply Z.rem_mod_nonneg; lia).
  repeat split.
  - cbn [trace set_trace]. rewrite trace_initialized. subst w1.
    unfold status_line. rewrite Hq, Hr. reflexivity.
  - rewrite displayed_after_show. subst w1. rewrite Hq. reflexivity.
  - cbn [lastReportedHours set_trace].
    rewrite lastReportedHours_initialized. reflexivity.
Qed.

Lemma X5_display_agrees_with_status_line_witness :
  let w := set_displayMode MODE_DAYS (set_TZ (Some TZ_CET_CEST) boot) in
  computeHoursRemaining (TZ w) (time_at example_env (reads w)) = Some 48
  /\ 0 <= 48
  /\ (false = true \/ 48 <> lastReportedHours w)
  /\ exists w',
       reportIfNeeded example_env false w = Ret tt w'
       /\ trace w' =
          [DisplayShowNumberDec 2 false; DisplayClear;
           DisplaySetBrightness 15 true;
           SerialPrintf RESULT_FMT [ArgLong 47; ArgLong 2; ArgLong 0]]
       /\ lastReportedHours w' = 48.
Proof.
  cbv zeta.
  set (w := set_displayMode MODE_DAYS (set_TZ (Some TZ_CET_CEST) boot)).
  assert (Hh : computeHoursRemaining (TZ w)
                 (time_at example_env (reads w)) = Some 48) by reflexivity.
  assert (Hpos : 0 <= 48) by lia.
  assert (Hdue : false = true \/ 48 <> lastReportedHours w)
    by (right; cbn; lia).
  split; [exact Hh |]. split; [exact Hpos |]. split; [exact Hdue |].
  destruct (X5_display_agrees_with_status_line example_env false w 48
              Hh Hpos Hdue)
    as (w' & H & D & R & Hrun & -> & -> & -> & Htrace & _ & Hlrh).
  exists w'. split; [exact Hrun |]. split; [exact Htrace | exact Hlrh].
Defined.

(** ** Reasoning about runs *)

Section Hoare.

Context {A B : Type}.
Variable P : World -> Prop.

Lemma hoare_ret (a : A) (Q : A -> World -> Prop) :
  (forall w, P w -> Q a w) -> hoare P (ret a) Q.
Proof. intros H w a' w' Hw Hrun. injection Hrun as <- <-. auto. Qed.

Lemma hoare_bind (c : M A) (k : A -> M B) (R : A -> World -> Prop)
    (Q : B -> World -> Prop) :
  hoare P c R -> (forall a, hoare (R a) (k a) Q) -> hoare P (bind c k) Q.
Proof.
  intros Hc Hk w b w' Hw Hrun. unfold bind in Hrun.
  destruct (c w) as [a w1 | |] eqn:Hcw; try discriminate.
  exact (Hk a w1 b w' (Hc w a w1 Hw Hcw) Hrun).
Qed.

Lemma hoare_gets (f : World -> A) (Q : A -> World -> Prop) :
  (forall w, P w -> Q (f w) w) -> hoare P (gets f) Q.
Proof. intros H w a w' Hw Hrun. injection Hrun as <- <-. auto. Qed.

Lemma hoare_read (env : Env) (f : Env -> nat -> A)
    (Q : A -> World -> Prop) :
  (forall w, P w -> Q (f env (reads w)) (after_read w)) ->
  hoare P (read env f) Q.
Proof. intros H w a w' Hw Hrun. injection Hrun as <- <-. auto. Qed.

Lemma hoare_weaken (c : M A) (Q Q' : A -> World -> Prop) :
  hoare P c Q -> (forall a w, Q a w -> Q' a w) -> hoare P c Q'.
Proof. intros Hc HQ w a w' Hw Hrun. eauto. Qed.

End Hoare.

Lemma hoare_modify (P : World -> Prop) (f : World -> World)
    (Q : unit -> World -> Prop) :
  (forall w, P w -> Q tt (f w)) -> hoare P (modify f) Q.
Proof. intros H w [] w' Hw Hrun. injection Hrun as <-. auto. Qed.

Lemma hoare_strengthen {A : Type} (P P' : World -> Prop) (c : M A)
    (Q : A -> World -> Prop) :
  hoare P c Q -> (forall w, P' w -> P w) -> hoare P' c Q.
Proof. intros Hc HP w a w' Hw Hrun. eauto. Qed.

Section Preserves.

Variable I : World -> Prop.

Lemma preserves_ret {A : Type} (a : A) : preserves I (ret a).
Proof. apply hoare_ret. auto. Qed.

Lemma preserves_bind {A B : Type} (c : M A) (k : A -> M B) :
  preserves I c -> (forall a, preserves I (k a)) -> preserves I (bind c k).
Proof. intros Hc Hk. exact (hoare_bind I c k (fun _ => I) _ Hc Hk). Qed.

Lemma preserves_gets {A : Type} (f : World -> A) : preserves I (gets f).
Proof. apply hoare_gets. auto. Qed.

Lemma preserves_modify (f : World -> World) :
  (forall w, I w -> I (f w)) -> preserves I (modify f).
Proof. intros H. apply hoare_modify. exact H. Qed.

Lemma preserves_when (b : bool) (c : M unit) :
  preserves I c -> preserves I (when b c).
Proof. intros Hc. destruct b; [exact Hc | apply preserves_ret]. Qed.

Lemma preserves_out_of_fuel {A : Type} : preserves I (@out_of_fuel A).
Proof. intros w a w' _ Hrun. discriminate. Qed.

(** Invariants of the functions that talk to the network and of the entry
    points, from what the invariant has to withstand: a reading of the
    environment, a plain output, the assignments to the timers, to TZ and
    to the mode, and the functions that drive the display and report. For
    TZ it is the zone of [configTime] that counts: the zone [connectWiFi]
    sets is replaced at once. *)

Variable env : Env.

Hypothesis I_read : forall w, I w -> I (after_read w).
Hypothesis I_plain : forall o w, plain_output o -> I w -> I (log o w).
Hypothesis I_TZ : forall w, I w -> I (set_TZ (Some TZ_UTC) w).
Hypothesis I_lastNtpSync :
  forall v w, in_ulong v -> I w -> I (set_lastNtpSync v w).

Lemma preserves_read {A : Type} (f : Env -> nat -> A) :
  preserves I (read env f).
Proof. apply hoare_read. exact I_read. Qed.

Lemma preserves_emit (o : Output) : plain_output o -> preserves I (emit o).
Proof. intros Ho. apply preserves_modify. intros w. exact (I_plain o w Ho). Qed.

(** After a reading of [millis()], with the value in hand. *)
Lemma preserves_bind_millis {B : Type} (k : Z -> M B) :
  (forall v, in_ulong v -> preserves I (k v)) ->
  preserves I (bind (millis env) k).
Proof.
  intros Hk w b w' Hw Hrun. unfold millis, bind, read, ret in Hrun.
  refine (Hk _ _ _ b w' (I_read w Hw) Hrun).
  unfold in_ulong, to_ulong, ULONG_MODULUS. apply Z.mod_pos_bound. lia.
Qed.

Ltac preserves_walk :=
  repeat match goal with
    | |- preserves _ _ => assumption
    | |- preserves _ (bind (setenv_TZ _) _) => fail 1
    | |- preserves _ (bind (millis _) _) =>
        apply preserves_bind_millis; intros ? ?
    | |- preserves _ (bind _ _) => apply preserves_bind; [| intro]
    | |- preserves _ (when _ _) => apply preserves_when
    | |- preserves _ (if ?b then _ else _) => destruct b
    | |- preserves _ (ret _) => apply preserves_ret
    | |- preserves _ (gets _) => apply preserves_gets
    | |- preserves _ (read _ _) => apply preserves_read
    | |- preserves _ (emit _) => apply preserves_emit; cbn; auto
    | |- preserves _ out_of_fuel => apply preserves_out_of_fuel
    end.

Lemma preserves_configTime : preserves I configTime.
Proof.
  unfold configTime, setenv_TZ. rewrite parse_TZ_UTC_STRING.
  apply preserves_bind; [apply preserves_emit; exact Logic.I | intro].
  apply preserves_modify. exact I_TZ.
Qed.

(** [setenv] of the Budapest zone with [configTime] right after it, as in
    [connectWiFi]. *)
Lemma preserves_setenv_configTime {B : Type} (rest : M B) :
  preserves I rest ->
  preserves I (setenv_TZ TZ_STRING ;; configTime ;; rest).
Proof.
  intros Hrest w b w' Hw Hrun.
  cbv beta iota delta [bind setenv_TZ configTime emit modify] in Hrun.
  rewrite parse_TZ_STRING, parse_TZ_UTC_STRING in Hrun.
  refine (Hrest _ b w' _ Hrun).
  change (I (set_TZ (Some TZ_UTC)
               (log (ConfigTime 0 0 NTP_SERVER1 NTP_SERVER2) w))).
  apply I_TZ, I_plain; [exact Logic.I | exact Hw].
Qed.

Lemma preserves_awaitConnection (fuel : nat) (start : Z) :
  preserves I (awaitConnection env fuel start).
Proof.
  induction fuel as [| fuel IH]; cbn [awaitConnection];
    unfold wifi_connected, delay; preserves_walk.
Qed.

Lemma preserves_connectWiFi (fuel : nat) : preserves I (connectWiFi env fuel).
Proof.
  pose proof (preserves_awaitConnection fuel).
  unfold connectWiFi, wifi_connected. preserves_walk.
  - unfold CONNECT_FMT. auto.
  - apply preserves_setenv_configTime. preserves_walk.
    apply preserves_modify. intros w. apply I_lastNtpSync. assumption.
Qed.

Lemma preserves_periodicResync : preserves I (periodicResync env).
Proof.
  pose proof preserves_configTime.
  unfold periodicResync. preserves_walk.
  apply preserves_modify. intros w. apply I_lastNtpSync. assumption.
Qed.

Lemma preserves_ensureTimeResync : preserves I (ensureTimeResync env).
Proof.
  pose proof preserves_periodicResync.
  pose proof preserves_configTime.
  unfold ensureTimeResync, time, wifi_connected. preserves_walk.
  apply preserves_modify. intros w. apply I_lastNtpSync. assumption.
Qed.

Hypothesis I_lastPrint :
  forall v w, in_ulong v -> I w -> I (set_lastPrint v w).
Hypothesis I_lastModeSwitch :
  forall v w, in_ulong v -> I w -> I (set_lastModeSwitch v w).
Hypothesis I_displayMode : forall m w, I w -> I (set_displayMode m w).
Hypothesis I_refresh :
  preserves I (hrs <- computeHoursRemainingM env ;; updateDisplay hrs).
Hypothesis I_report : forall force, preserves I (reportIfNeeded env force).

(** [setup] from the call of [connectWiFi] on. *)
Lemma preserves_setup_tail (fuel : nat) :
  preserves I (connectWiFi env fuel ;;
               now <- millis env ;;
               modify (set_lastPrint now) ;;
               now <- millis env ;;
               modify (set_lastModeSwitch now)).
Proof.
  pose proof (preserves_connectWiFi fuel).
  preserves_walk.
  - apply preserves_modify. intros w. apply I_lastPrint. assumption.
  - apply preserves_modify. intros w. apply I_lastModeSwitch. assumption.
Qed.

Hypothesis I_initDisplay : preserves I initDisplay.
Hypothesis I_unsynced : preserves I (updateDisplay (-1)).

Lemma preserves_setup (fuel : nat) : preserves I (setup env fuel).
Proof.
  pose proof (preserves_setup_tail fuel).
  unfold setup, delay. preserves_walk.
Qed.

Lemma preserves_loop (fuel : nat) : preserves I (loop env fuel).
Proof.
  pose proof (preserves_connectWiFi fuel).
  pose proof preserves_ensureTimeResync.
  pose proof (I_report false). pose proof (I_report true).
  unfold loop, wifi_connected, delay. preserves_walk.
  - apply preserves_modify. intros w. apply I_lastPrint. assumption.
  - apply preserves_modify. intros w. apply I_displayMode.
  - apply preserves_modify. intros w. apply I_lastModeSwitch. assumption.
Qed.

Lemma preserves_loops (fuel n : nat) : preserves I (loops env fuel n).
Proof.
  pose proof (preserves_loop fuel).
  induction n as [| n IH]; cbn [loops]; preserves_walk.
Qed.

End Preserves.

(** ** The state and the outputs of a run *)

Lemma WF_boot : WF boot.
Proof.
  constructor; cbn; try (unfold in_ulong, ULONG_MODULUS, MAX_HOURS; lia).
  - left; reflexivity.
  - constructor.
  - reflexivity.
Qed.

Ltac WF_fields :=
  let H := fresh in
  intros H; destruct H; constructor; cbn; try assumption.

Lemma WF_after_read (w : World) : WF w -> WF (after_read w).
Proof. WF_fields. Qed.

Lemma WF_set_TZ (w : World) : WF w -> WF (set_TZ (Some TZ_UTC) w).
Proof. WF_fields. right; reflexivity. Qed.

Lemma zone_utc_program_tz (tz : option tzinfo) : zone_utc tz -> program_tz tz.
Proof. intros [-> | ->]; [left | right; right]; reflexivity. Qed.

Lemma WF_set_lastNtpSync (v : Z) (w : World) :
  in_ulong v -> WF w -> WF (set_lastNtpSync v w).
Proof. intros Hv. WF_fields. Qed.

Lemma WF_set_lastPrint (v : Z) (w : World) :
  in_ulong v -> WF w -> WF (set_lastPrint v w).
Proof. intros Hv. WF_fields. Qed.

Lemma WF_set_lastModeSwitch (v : Z) (w : World) :
  in_ulong v -> WF w -> WF (set_lastModeSwitch v w).
Proof. intros Hv. WF_fields. Qed.

Lemma WF_set_displayMode (m : DisplayMode) (w : World) :
  WF w -> WF (set_displayMode m w).
Proof. WF_fields. Qed.

Lemma WF_set_lastReportedHours (hours : Z) (w : World) :
  -1 <= hours <= MAX_HOURS -> WF w -> WF (set_lastReportedHours hours w).
Proof. intros Hv. WF_fields. Qed.

Lemma plain_output_ok (o : Output) : plain_output o -> ok_output o.
Proof. destruct o; cbn; auto; contradiction. Qed.

Lemma plain_output_no_display (o : Output) :
  plain_output o -> is_display_call o = false.
Proof. destruct o; cbn; auto; contradiction. Qed.

(** An output that is not a call to the display. *)
Lemma WF_log (o : Output) (w : World) :
  ok_output o -> is_display_call o = false -> WF w -> WF (log o w).
Proof.
  intros Hok Hno. WF_fields.
  - constructor; assumption.
  - unfold display_protocol in *. cbn. unfold display_calls in *. cbn.
    rewrite Hno. assumption.
Qed.

Lemma WF_log_plain (o : Output) (w : World) :
  plain_output o -> WF w -> WF (log o w).
Proof.
  intros Ho. apply WF_log;
    [apply plain_output_ok | apply plain_output_no_display]; exact Ho.
Qed.

Lemma initDisplay_run (w : World) : initDisplay w = Ret tt (initialized w).
Proof.
  destruct w as [lp lrh lns lms mode init tz tr rd].
  unfold initDisplay, initialized, bind, gets, emit, modify, ret. cbn.
  destruct init; reflexivity.
Qed.

Lemma displayInitialized_initialized (w : World) :
  displayInitialized (initialized w) = true.
Proof.
  unfold initialized. destruct (displayInitialized w) eqn:Hinit;
    [exact Hinit | reflexivity].
Qed.

Lemma WF_initialized (w : World) : WF w -> WF (initialized w).
Proof.
  intros Hw. unfold initialized.
  destruct (displayInitialized w) eqn:Hinit; [exact Hw |].
  destruct Hw as [Htz Hlrh Hlp Hlns Hlms Hout Hdisp].
  constructor; cbn; try assumption.
  - repeat constructor; assumption.
  - unfold display_protocol in *. rewrite Hinit in Hdisp. cbn.
    exists []. unfold display_calls in *. cbn. rewrite Hdisp.
    split; reflexivity.
Qed.

Lemma rendering_ok (value : Z) :
  ok_output (rendering value) /\ writes_digits (rendering value) = true.
Proof.
  unfold rendering. destruct (Z.ltb_spec value 0).
  - split; reflexivity.
  - cbn. destruct (Z.ltb_spec 9999 value); repeat split; lia.
Qed.

(** A write to the display after [initDisplay]. *)
Lemma WF_show (value : Z) (w : World) :
  WF w ->
  WF (set_trace (rendering value :: trace (initialized w)) (initialized w)).
Proof.
  intros Hw. apply WF_initialized in Hw.
  pose proof (displayInitialized_initialized w) as Hinit.
  destruct (rendering_ok value) as [Hok Hdigits].
  destruct Hw as [Htz Hlrh Hlp Hlns Hlms Hout Hdisp].
  constructor; cbn; try assumption.
  - constructor; assumption.
  - unfold display_protocol in *. cbn. rewrite Hinit in *.
    destruct Hdisp as (writes & Hcalls & Hall).
    exists (rendering value :: writes). unfold display_calls in *. cbn.
    assert (Hcall : is_display_call (rendering value) = true).
    { destruct (rendering value); try discriminate; reflexivity. }
    rewrite Hcall, Hcalls. split; [reflexivity |].
    cbn. rewrite Hdigits, Hall. reflexivity.
Qed.

Lemma preserves_WF_initDisplay : preserves WF initDisplay.
Proof.
  intros w [] w' Hw Hrun. rewrite initDisplay_run in Hrun.
  injection Hrun as <-. apply WF_initialized. exact Hw.
Qed.

Lemma preserves_WF_updateDisplay (hours : Z) :
  preserves WF (updateDisplay hours).
Proof.
  intros w [] w' Hw Hrun. rewrite updateDisplay_run in Hrun.
  injection Hrun as <-. apply WF_show. exact Hw.
Qed.

Lemma preserves_WF_computeHoursRemainingM (env : Env) :
  preserves WF (computeHoursRemainingM env).
Proof.
  intros w a w' Hw Hrun. rewrite computeHoursRemainingM_run in Hrun.
  destruct (computeHoursRemaining _ _); [| discriminate].
  injection Hrun as <- <-. apply WF_after_read. exact Hw.
Qed.

Lemma status_line_ok (hours : Z) :
  0 <= hours <= MAX_HOURS -> ok_output (status_line hours).
Proof.
  intros Hh. right. split; [reflexivity |]. exists hours.
  split; [exact Hh |]. unfold ldiv, lrem.
  rewrite Z.quot_div_nonneg, Z.rem_mod_nonneg by lia. reflexivity.
Qed.

Lemma preserves_WF_reportIfNeeded (env : Env) (force : bool) :
  preserves WF (reportIfNeeded env force).
Proof.
  intros w a w' Hw Hrun. destruct a.
  destruct (computeHoursRemaining (TZ w) (time_at env (reads w)))
    as [hours |] eqn:Hh.
  - rewrite (reportIfNeeded_run env force w hours Hh) in Hrun.
    destruct (computeHoursRemaining_range _ _ _
                (zone_utc_program_tz _ (wf_tz w Hw)) Hh)
      as (Hrange & _ & _).
    destruct (Z.ltb_spec hours 0).
    + apply (preserves_WF_updateDisplay (-1) _ tt w') in Hrun; [exact Hrun |].
      destruct force; [apply WF_log; [exact I | reflexivity |] |];
        apply WF_after_read; exact Hw.
    + destruct (force || negb (hours =? lastReportedHours w)).
      * apply (preserves_WF_updateDisplay hours _ tt w') in Hrun;
          [exact Hrun |].
        apply WF_set_lastReportedHours; [lia |].
        apply WF_log; [apply status_line_ok; lia | reflexivity |].
        apply WF_after_read; exact Hw.
      * injection Hrun as <-. apply WF_after_read; exact Hw.
  - unfold reportIfNeeded, bind in Hrun.
    rewrite computeHoursRemainingM_run, Hh in Hrun. discriminate.
Qed.

Lemma preserves_WF_loop (env : Env) (fuel : nat) :
  preserves WF (loop env fuel).
Proof.
  apply preserves_loop.
  - exact WF_after_read.
  - exact WF_log_plain.
  - exact WF_set_TZ.
  - exact WF_set_lastNtpSync.
  - exact WF_set_lastPrint.
  - exact WF_set_lastModeSwitch.
  - exact WF_set_displayMode.
  - apply preserves_bind;
      [apply preserves_WF_computeHoursRemainingM
      | intro; apply preserves_WF_updateDisplay].
  - apply preserves_WF_reportIfNeeded.
Qed.

Lemma preserves_WF_loops (env : Env) (fuel n : nat) :
  preserves WF (loops env fuel n).
Proof.
  induction n as [| n IH]; cbn [loops].
  - apply preserves_ret.
  - apply preserves_bind; [apply preserves_WF_loop | intro; exact IH].
Qed.

Lemma preserves_WF_setup (env : Env) (fuel : nat) :
  preserves WF (setup env fuel).
Proof.
  apply preserves_setup.
  - exact WF_after_read.
  - exact WF_log_plain.
  - exact WF_set_TZ.
  - exact WF_set_lastNtpSync.
  - exact WF_set_lastPrint.
  - exact WF_set_lastModeSwitch.
  - exact preserves_WF_initDisplay.
  - apply preserves_WF_updateDisplay.
Qed.

(** Every state the firmware reaches is well formed. *)
Lemma firmware_WF (env : Env) (fuel n : nat) (w : World) :
  firmware env fuel n = Ret tt w -> WF w.
Proof.
  intros Hrun.
  assert (H : preserves WF (setup env fuel ;; loops env fuel n)).
  { apply preserves_bind;
      [apply preserves_WF_setup | intro; apply preserves_WF_loops]. }
  exact (H boot tt w WF_boot Hrun).
Qed.

(** X6. In every state the firmware reaches, after [setup] and any number
    of rounds of [loop] and whatever the clock, the millisecond counter and
    the network do, [lastReportedHours] is -1 or lies between 0 and 493298,
    so that [hours - 1] cannot overflow [long], and the three timers hold
    values of [unsigned long]. TZ is unset or the UTC zone of [configTime]:
    the zone [connectWiFi] sets is replaced by the call of [configTime] that
    follows it, so [mktime] reads the target as 06:00 UTC. *)
Theorem X6_state_of_a_run (env : Env) (fuel n : nat) (w : World) :
  firmware env fuel n = Ret tt w ->
  (lastReportedHours w = -1 \/ 0 <= lastReportedHours w <= 493298)
  /\ LONG_MIN <= lastReportedHours w - 1 <= LONG_MAX
  /\ in_ulong (lastPrint w)
  /\ in_ulong (lastNtpSync w)
  /\ in_ulong (lastModeSwitch w)
  /\ (TZ w = None \/ TZ w = parse_tz TZ_UTC_STRING)
  /\ mktime (TZ w) target_tm = tm_seconds target_tm.
Proof.
  intros Hrun.
  destruct (firmware_WF env fuel n w Hrun)
    as [Htz Hlrh Hlp Hlns Hlms _ _].
  unfold MAX_HOURS in Hlrh. unfold LONG_MIN, LONG_MAX.
  rewrite parse_TZ_UTC_STRING.
  split; [lia |]. split; [lia |]. split; [exact Hlp |].
  split; [exact Hlns |]. split; [exact Hlms |]. split; [exact Htz |].
  destruct Htz as [-> | ->]; reflexivity.
Qed.

Lemma X6_state_of_a_run_witness :
  exists w,
    firmware example_env 2 1 = Ret tt w
    /\ (lastReportedHours w = -1 \/ 0 <= lastReportedHours w <= 493298)
    /\ in_ulong (lastPrint w)
    /\ TZ w = Some TZ_UTC.
Proof.
  destruct (firmware example_env 2 1) as [[] w | |] eqn:Hrun;
    [| vm_compute in Hrun; discriminate | vm_compute in Hrun; discriminate].
  exists w. split; [reflexivity |].
  destruct (X6_state_of_a_run example_env 2 1 w Hrun)
    as (Hlrh & _ & Hlp & _).
  split; [exact Hlrh |]. split; [exact Hlp |].
  vm_compute in Hrun. injection Hrun as <-. reflexivity.
Defined.

(** X8. Every [printf] of a run is the message of [connectWiFi] with the
    SSID or a status line; a status line is only printed for a clock that
    is set, and its fields come from one value of the countdown: the hours
    field lies in -1 .. 493297, the days in 0 .. 20554, the remainder in
    0 .. 23, and [H = 24 * D + R - 1]. *)
Theorem X8_printf_lines_of_a_run
    (env : Env) (fuel n : nat) (w : World) (fmt : string)
    (args : list PrintfArg) :
  firmware env fuel n = Ret tt w ->
  In (SerialPrintf fmt args) (trace w) ->
  (fmt = CONNECT_FMT /\ args = [ArgStr WIFI_SSID])
  \/ (fmt = RESULT_FMT
      /\ exists H D R,
           args = [ArgLong H; ArgLong D; ArgLong R]
           /\ -1 <= H <= 493297 /\ 0 <= D <= 20554 /\ 0 <= R <= 23
           /\ H = 24 * D + R - 1).
Proof.
  intros Hrun Hin. pose proof (firmware_WF env fuel n w Hrun) as Hw.
  pose proof (proj1 (Forall_forall _ _) (wf_outputs w Hw) _ Hin) as Hok.
  destruct Hok as [Hconnect | (Hfmt & hours & Hrange & Hargs)];
    [left; exact Hconnect | right].
  split; [exact Hfmt |].
  exists (hours - 1), (hours / 24), (hours mod 24).
  unfold MAX_HOURS in Hrange.
  pose proof (Z.div_mod hours 24 ltac:(lia)).
  pose proof (Z.mod_pos_bound hours 24 ltac:(lia)).
  assert (0 <= hours / 24) by (apply Z.div_pos; lia).
  assert (hours / 24 <= 493298 / 24) by (apply Z.div_le_mono; lia).
  change (493298 / 24) with 20554 in *.
  repeat split; try assumption; lia.
Qed.

Lemma X8_printf_lines_of_a_run_witness :
  exists w,
    firmware example_env 2 1 = Ret tt w
    /\ In (SerialPrintf RESULT_FMT [ArgLong 49; ArgLong 2; ArgLong 2])
          (trace w)
    /\ ((RESULT_FMT = CONNECT_FMT
         /\ [ArgLong 49; ArgLong 2; ArgLong 2] = [ArgStr WIFI_SSID])
        \/ (RESULT_FMT = RESULT_FMT
            /\ exists H D R,
                 [ArgLong 49; ArgLong 2; ArgLong 2]
                 = [ArgLong H; ArgLong D; ArgLong R]
                 /\ -1 <= H <= 493297 /\ 0 <= D <= 20554 /\ 0 <= R <= 23
                 /\ H = 24 * D + R - 1)).
Proof.
  destruct (firmware example_env 2 1) as [[] w | |] eqn:Hrun;
    [| vm_compute in Hrun; discriminate | vm_compute in Hrun; discriminate].
  assert (Hin : In (SerialPrintf RESULT_FMT
                      [ArgLong 49; ArgLong 2; ArgLong 2]) (trace w)).
  { vm_compute in Hrun. injection Hrun as <-. cbn. right. right. left.
    reflexivity. }
  exists w. split; [reflexivity |]. split; [exact Hin |].
  exact (X8_printf_lines_of_a_run example_env 2 1 w _ _ Hrun Hin).
Defined.

(** ** What the display shows during a run *)

Lemma displayed_head (t : list Output) (o : Output) (rest : list Output) :
  display_calls t = o :: rest ->
  is_display_content o = true ->
  find is_display_content t = Some o.
Proof.
  unfold display_calls. intros Hcalls Hcontent.
  induction t as [| a t IH]; [discriminate |].
  cbn in Hcalls. cbn. destruct (is_display_call a) eqn:Hcall.
  - injection Hcalls as -> _. rewrite Hcontent. reflexivity.
  - assert (Hno : is_display_content a = false)
      by (destruct a; try reflexivity; discriminate).
    rewrite Hno. exact (IH Hcalls).
Qed.

Lemma display_calls_plain (o : Output) (t : list Output) :
  plain_output o -> display_calls (o :: t) = display_calls t.
Proof.
  intros Ho. unfold display_calls. cbn.
  rewrite (plain_output_no_display o Ho). reflexivity.
Qed.

Lemma display_live_show (value : Z) (w : World) :
  display_live
    (set_trace (rendering value :: trace (initialized w)) (initialized w)).
Proof.
  split.
  - cbn. apply displayInitialized_initialized.
  - exists (rendering value), (display_calls (trace (initialized w))).
    destruct (rendering_ok value) as [_ Hdigits]. split; [| exact Hdigits].
    unfold display_calls. cbn.
    replace (is_display_call (rendering value)) with true;
      [reflexivity |].
    destruct (rendering value); try discriminate; reflexivity.
Qed.

(** [updateDisplay] leaves digits on the display, whatever it was before. *)
Lemma display_live_updateDisplay (hours : Z) (P : World -> Prop) :
  hoare P (updateDisplay hours) (fun _ => display_live).
Proof.
  intros w [] w' _ Hrun. rewrite updateDisplay_run in Hrun.
  injection Hrun as <-. apply display_live_show.
Qed.

Ltac live_fields :=
  let H := fresh in
  intros H; destruct H as (? & ? & ? & ? & ?); split; cbn;
  [assumption | eauto].

Lemma preserves_live_reportIfNeeded (env : Env) (force : bool) :
  preserves display_live (reportIfNeeded env force).
Proof.
  intros w [] w' Hw Hrun.
  destruct (computeHoursRemaining (TZ w) (time_at env (reads w)))
    as [hours |] eqn:Hh.
  - rewrite (reportIfNeeded_run env force w hours Hh) in Hrun.
    destruct (hours <? 0);
      [exact (display_live_updateDisplay _ (fun _ => True) _ tt w' I Hrun) |].
    destruct (force || negb (hours =? lastReportedHours w));
      [exact (display_live_updateDisplay _ (fun _ => True) _ tt w' I Hrun) |].
    injection Hrun as <-. revert Hw. live_fields.
  - unfold reportIfNeeded, bind in Hrun.
    rewrite computeHoursRemainingM_run, Hh in Hrun. discriminate.
Qed.

Lemma display_live_after_read (w : World) :
  display_live w -> display_live (after_read w).
Proof. live_fields. Qed.

Lemma display_live_log_plain (o : Output) (w : World) :
  plain_output o -> display_live w -> display_live (log o w).
Proof.
  intros Ho (Hinit & o' & rest & Hcalls & Hdigits). split.
  - exact Hinit.
  - exists o', rest. split; [| exact Hdigits].
    unfold log. cbn [trace set_trace].
    rewrite display_calls_plain by exact Ho. exact Hcalls.
Qed.

Lemma display_live_set_TZ (w : World) :
  display_live w -> display_live (set_TZ (Some TZ_UTC) w).
Proof. live_fields. Qed.

Lemma display_live_set_lastNtpSync (v : Z) (w : World) :
  in_ulong v -> display_live w -> display_live (set_lastNtpSync v w).
Proof. intros _. live_fields. Qed.

Lemma display_live_set_lastPrint (v : Z) (w : World) :
  in_ulong v -> display_live w -> display_live (set_lastPrint v w).
Proof. intros _. live_fields. Qed.

Lemma display_live_set_lastModeSwitch (v : Z) (w : World) :
  in_ulong v -> display_live w -> display_live (set_lastModeSwitch v w).
Proof. intros _. live_fields. Qed.

Lemma display_live_set_displayMode (m : DisplayMode) (w : World) :
  display_live w -> display_live (set_displayMode m w).
Proof. live_fields. Qed.

Section DisplayLive.

Variable env : Env.

Lemma preserves_live_loops (fuel n : nat) :
  preserves display_live (loops env fuel n).
Proof.
  apply preserves_loops.
  - exact display_live_after_read.
  - exact display_live_log_plain.
  - exact display_live_set_TZ.
  - exact display_live_set_lastNtpSync.
  - exact display_live_set_lastPrint.
  - exact display_live_set_lastModeSwitch.
  - exact display_live_set_displayMode.
  - apply (hoare_bind _ _ _ (fun _ _ => True)).
    + intros ? ? ? _ _. exact I.
    + intro. apply display_live_updateDisplay.
  - apply preserves_live_reportIfNeeded.
Qed.

(** [setup] ends with digits on the display. *)
Lemma display_live_setup (fuel : nat) :
  hoare (fun _ => True) (setup env fuel) (fun _ => display_live).
Proof.
  unfold setup.
  do 5 (apply (hoare_bind _ _ _ (fun _ _ => True));
        [intros ? ? ? _ _; exact I | intro]).
  apply (hoare_bind _ _ _ (fun _ => display_live));
    [apply display_live_updateDisplay | intro].
  apply preserves_setup_tail.
  - exact display_live_after_read.
  - exact display_live_log_plain.
  - exact display_live_set_TZ.
  - exact display_live_set_lastNtpSync.
  - exact display_live_set_lastPrint.
  - exact display_live_set_lastModeSwitch.
Qed.

Lemma firmware_display_live (fuel n : nat) (w : World) :
  firmware env fuel n = Ret tt w -> display_live w.
Proof.
  intros Hrun.
  assert (H : hoare (fun _ => True) (setup env fuel ;; loops env fuel n)
                (fun _ => display_live)).
  { apply (hoare_bind _ _ _ (fun _ => display_live));
      [apply display_live_setup | intro; apply preserves_live_loops]. }
  exact (H boot tt w I Hrun).
Qed.

End DisplayLive.

(** X7. Over a whole run the display is driven in this order: brightness
    and clear once, at the start, then only writes of digits, each the four
    dashes or a number within 0 .. 9999 without leading zeros; after
    [setup] there is always such a write, and the latest one is what the
    display shows. *)
Theorem X7_display_calls_of_a_run (env : Env) (fuel n : nat) (w : World) :
  firmware env fuel n = Ret tt w ->
  displayInitialized w = true
  /\ exists o writes,
       display_calls (trace w)
       = (o :: writes) ++ [DisplayClear; DisplaySetBrightness 15 true]
       /\ Forall digits_shown (o :: writes)
       /\ displayed w = Some o.
Proof.
  intros Hrun.
  destruct (firmware_WF env fuel n w Hrun) as [_ _ _ _ _ Hout Hproto].
  destruct (firmware_display_live env fuel n w Hrun)
    as (Hinit & o & rest & Hcalls & Hdigits).
  split; [exact Hinit |].
  unfold display_protocol in Hproto. rewrite Hinit in Hproto.
  destruct Hproto as (writes & Hwrites & Hall).
  destruct writes as [| o' writes].
  { rewrite Hcalls in Hwrites. injection Hwrites as -> _. discriminate. }
  rewrite Hcalls in Hwrites. injection Hwrites as -> ->.
  exists o', writes. split; [exact Hcalls |]. split.
  - apply Forall_forall. intros x Hx.
    assert (Hin : In x (trace w)).
    { assert (Hx' : In x (display_calls (trace w))).
      { rewrite Hcalls. change (In x ((o' :: writes) ++ INIT_CALLS)).
        apply in_or_app. left. exact Hx. }
      unfold display_calls in Hx'. apply filter_In in Hx'. tauto. }
    pose proof (proj1 (Forall_forall _ _) Hout x Hin) as Hok.
    pose proof (proj1 (forallb_forall _ _) Hall x Hx) as Hdig.
    destruct x; try discriminate; cbn in Hok.
    + left. rewrite Hok. reflexivity.
    + right. destruct Hok as [Hrange ->]. exists num. auto.
  - apply (displayed_head (trace w) o' (writes ++ INIT_CALLS));
      [exact Hcalls |].
    destruct o'; try discriminate; reflexivity.
Qed.

Lemma X7_display_calls_of_a_run_witness :
  exists w,
    firmware example_env 2 1 = Ret tt w
    /\ display_calls (trace w)
       = [DisplayShowNumberDec 49 false; DASHES; DisplayClear;
          DisplaySetBrightness 15 true]
    /\ displayed w = Some (DisplayShowNumberDec 49 false).
Proof.
  destruct (firmware example_env 2 1) as [[] w | |] eqn:Hrun;
    [| vm_compute in Hrun; discriminate | vm_compute in Hrun; discriminate].
  destruct (X7_display_calls_of_a_run example_env 2 1 w Hrun)
    as (_ & o & writes & Hcalls & _ & Hshown).
  assert (Hconcrete : display_calls (trace w)
                      = [DisplayShowNumberDec 49 false; DASHES; DisplayClear;
                         DisplaySetBrightness 15 true]).
  { vm_compute in Hrun. injection Hrun as <-. reflexivity. }
  exists w. split; [reflexivity |]. split; [exact Hconcrete |].
  rewrite Hshown. rewrite Hconcrete in Hcalls.
  injection Hcalls as <- _. reflexivity.
Defined.

(** ** A clock that is never set *)

Lemma waiting_boot : waiting boot.
Proof. repeat split. constructor. Qed.

Lemma waiting_log (o : Output) (w : World) :
  writes_digits o = false -> is_status_line o = false ->
  waiting w -> waiting (log o w).
Proof.
  intros Hdigits Hstatus (Hlrh & Hdash & Hnone). repeat split; cbn.
  - exact Hlrh.
  - constructor; [rewrite Hdigits; discriminate | exact Hdash].
  - rewrite Hstatus, Hnone. reflexivity.
Qed.

Lemma waiting_log_plain (o : Output) (w : World) :
  plain_output o -> waiting w -> waiting (log o w).
Proof.
  intros Ho. apply waiting_log.
  - destruct o; try reflexivity; contradiction.
  - destruct o; try reflexivity. destruct Ho as [-> _]. reflexivity.
Qed.

Lemma waiting_initialized (w : World) : waiting w -> waiting (initialized w).
Proof.
  intros Hw. unfold initialized.
  destruct (displayInitialized w); [exact Hw |].
  destruct Hw as (Hlrh & Hdash & Hnone). repeat split; cbn.
  - exact Hlrh.
  - repeat (constructor; [discriminate |]). exact Hdash.
  - exact Hnone.
Qed.

(** The dashes on the display. *)
Lemma waiting_show_dashes (w : World) :
  waiting w ->
  waiting (set_trace (rendering (-1) :: trace (initialized w))
             (initialized w)).
Proof.
  intros Hw. apply waiting_initialized in Hw.
  destruct Hw as (Hlrh & Hdash & Hnone). repeat split; cbn.
  - exact Hlrh.
  - constructor; [reflexivity | exact Hdash].
  - exact Hnone.
Qed.

Lemma preserves_waiting_initDisplay : preserves waiting initDisplay.
Proof.
  intros w [] w' Hw Hrun. rewrite initDisplay_run in Hrun.
  injection Hrun as <-. apply waiting_initialized. exact Hw.
Qed.

Lemma preserves_waiting_dashes : preserves waiting (updateDisplay (-1)).
Proof.
  intros w [] w' Hw Hrun. rewrite updateDisplay_run in Hrun.
  injection Hrun as <-. apply waiting_show_dashes. exact Hw.
Qed.

Ltac waiting_fields :=
  let H := fresh in
  intros H; destruct H as (? & ? & ?); repeat split; cbn; assumption.

Section ClockNeverSet.

Variable env : Env.
Hypothesis never_set : forall k, time_at env k < TIME_VALID_THRESHOLD.

Lemma preserves_waiting_refresh :
  preserves waiting (hrs <- computeHoursRemainingM env ;; updateDisplay hrs).
Proof.
  intros w [] w' Hw Hrun. unfold bind in Hrun.
  rewrite computeHoursRemainingM_run in Hrun.
  rewrite computeHoursRemaining_unsynced in Hrun by apply never_set.
  apply (preserves_waiting_dashes (after_read w) tt w'); [| exact Hrun].
  revert Hw. waiting_fields.
Qed.

(** While the clock is not set, [reportIfNeeded] shows the dashes, and
    prints the waiting message if the report is forced. *)
Lemma reportIfNeeded_waiting (force : bool) (w : World) :
  reportIfNeeded env force w =
  updateDisplay (-1)
    (if force then log WAITING_MSG (after_read w) else after_read w).
Proof.
  rewrite (reportIfNeeded_run env force w (-1))
    by (apply computeHoursRemaining_unsynced, never_set).
  reflexivity.
Qed.

Lemma preserves_waiting_reportIfNeeded (force : bool) :
  preserves waiting (reportIfNeeded env force).
Proof.
  intros w [] w' Hw Hrun. rewrite reportIfNeeded_waiting in Hrun.
  refine (preserves_waiting_dashes _ tt w' _ Hrun).
  assert (Hread : waiting (after_read w)) by (revert Hw; waiting_fields).
  destruct force; [| exact Hread].
  apply waiting_log; [reflexivity | reflexivity | exact Hread].
Qed.

Lemma firmware_waiting (fuel n : nat) (w : World) :
  firmware env fuel n = Ret tt w -> waiting w.
Proof.
  intros Hrun.
  assert (Hread : forall w0, waiting w0 -> waiting (after_read w0))
    by (intros w0; waiting_fields).
  assert (Htz : forall w0, waiting w0 ->
                           waiting (set_TZ (Some TZ_UTC) w0))
    by (intros w0; waiting_fields).
  assert (Hlns : forall v w0, in_ulong v -> waiting w0 ->
                              waiting (set_lastNtpSync v w0))
    by (intros v w0 _; waiting_fields).
  assert (Hlp : forall v w0, in_ulong v -> waiting w0 ->
                             waiting (set_lastPrint v w0))
    by (intros v w0 _; waiting_fields).
  assert (Hlms : forall v w0, in_ulong v -> waiting w0 ->
                              waiting (set_lastModeSwitch v w0))
    by (intros v w0 _; waiting_fields).
  assert (Hmode : forall m w0, waiting w0 -> waiting (set_displayMode m w0))
    by (intros m w0; waiting_fields).
  assert (H : preserves waiting (setup env fuel ;; loops env fuel n)).
  { apply preserves_bind; [| intro].
    - apply preserves_setup; try assumption.
      + exact waiting_log_plain.
      + exact preserves_waiting_initDisplay.
      + exact preserves_waiting_dashes.
    - apply preserves_loops; try assumption.
      + exact waiting_log_plain.
      + exact preserves_waiting_refresh.
      + exact preserves_waiting_reportIfNeeded. }
  exact (H boot tt w waiting_boot Hrun).
Qed.

End ClockNeverSet.

(** X11. As long as every reading of the clock is below the threshold, the
    firmware stays in its waiting state through [setup] and any number of
    rounds of [loop]: [lastReportedHours] stays -1, no status line is
    printed, nothing but the dashes is ever written to the display, and the
    display shows the dashes. *)
Theorem X11_waiting_while_clock_not_set
    (env : Env) (fuel n : nat) (w : World) :
  (forall k, time_at env k < TIME_VALID_THRESHOLD) ->
  firmware env fuel n = Ret tt w ->
  lastReportedHours w = -1
  /\ (forall args, ~ In (SerialPrintf RESULT_FMT args) (trace w))
  /\ (forall num lz, ~ In (DisplayShowNumberDec num lz) (trace w))
  /\ displayed w = Some DASHES.
Proof.
  intros Hnever Hrun.
  destruct (firmware_waiting env Hnever fuel n w Hrun)
    as (Hlrh & Hdash & Hnone).
  destruct (firmware_display_live env fuel n w Hrun)
    as (_ & o & rest & Hcalls & Hdigits).
  split; [exact Hlrh |]. split; [| split].
  - intros args Hin.
    pose proof (proj1 (forallb_forall _ _) Hnone _ Hin) as Hno.
    unfold is_status_line in Hno. rewrite String.eqb_refl in Hno.
    discriminate.
  - intros num lz Hin.
    pose proof (proj1 (Forall_forall _ _) Hdash _ Hin eq_refl) as Heq.
    discriminate.
  - assert (Hin : In o (trace w)).
    { assert (Hin' : In o (display_calls (trace w)))
        by (rewrite Hcalls; left; reflexivity).
      unfold display_calls in Hin'. apply filter_In in Hin'. tauto. }
    pose proof (proj1 (Forall_forall _ _) Hdash o Hin Hdigits) as ->.
    apply (displayed_head (trace w) DASHES rest Hcalls). reflexivity.
Qed.

Lemma X11_waiting_while_clock_not_set_witness :
  let env := mk_Env (fun _ => 5) (fun k => 6000 * Z.of_nat k)
                    (fun _ => false) in
  (forall k, time_at env k < TIME_VALID_THRESHOLD)
  /\ exists w,
       firmware env 10 2 = Ret tt w
       /\ lastReportedHours w = -1
       /\ displayed w = Some DASHES
       /\ In WAITING_MSG (trace w).
Proof.
  cbv zeta.
  set (env := mk_Env (fun _ => 5) (fun k => 6000 * Z.of_nat k)
                     (fun _ => false)).
  assert (Hnever : forall k, time_at env k < TIME_VALID_THRESHOLD)
    by (intro k; reflexivity).
  split; [exact Hnever |].
  destruct (firmware env 10 2) as [[] w | |] eqn:Hrun;
    [| vm_compute in Hrun; discriminate | vm_compute in Hrun; discriminate].
  destruct (X11_waiting_while_clock_not_set env 10 2 w Hnever Hrun)
    as (Hlrh & _ & _ & Hshown).
  exists w. split; [reflexivity |]. split; [exact Hlrh |].
  split; [exact Hshown |].
  vm_compute in Hrun. injection Hrun as <-. cbn. tauto.
Defined.

(** ** Leaving the waiting state *)

(** For a clock that is set the countdown is not negative, whatever the
    time zone. *)
Lemma computeHoursRemaining_valid_nonneg
    (tz : option tzinfo) (now hours : Z) :
  TIME_VALID_THRESHOLD <= now ->
  computeHoursRemaining tz now = Some hours -> 0 <= hours.
Proof.
  intros Hs. unfold computeHoursRemaining.
  destruct (Z.ltb_spec now TIME_VALID_THRESHOLD); [lia |].
  destruct (Z.leb_spec (mktime tz target_tm) now).
  - intros [= <-]. lia.
  - unfold long_of_double, difftime.
    destruct (in_long (mktime tz target_tm - now)); [| discriminate].
    intros [= <-]. unfold ldiv. apply Z.quot_pos; lia.
Qed.

(** What [reportIfNeeded] leaves alone. *)
Lemma reportIfNeeded_frame (env : Env) (force : bool) (w w' : World) :
  reportIfNeeded env force w = Ret tt w' ->
  lastPrint w' = lastPrint w
  /\ lastNtpSync w' = lastNtpSync w
  /\ lastModeSwitch w' = lastModeSwitch w
  /\ displayMode w' = displayMode w
  /\ TZ w' = TZ w
  /\ reads w' = S (reads w).
Proof.
  intros Hrun.
  destruct (computeHoursRemaining (TZ w) (time_at env (reads w)))
    as [hours |] eqn:Hh.
  - rewrite (reportIfNeeded_run env force w hours Hh) in Hrun.
    destruct (hours <? 0).
    + destruct (updateDisplay_frame (-1)
                  (if force then log WAITING_MSG (after_read w)
                   else after_read w))
        as (w1 & Hrun1 & Hlp & _ & Hlns & Hlms & Hmode & _ & Htz & Hrd).
      rewrite Hrun1 in Hrun. injection Hrun as <-.
      rewrite Hlp, Hlns, Hlms, Hmode, Htz, Hrd.
      destruct force; repeat split.
    + destruct (force || negb (hours =? lastReportedHours w)).
      * destruct (updateDisplay_frame hours
                    (set_lastReportedHours hours
                       (log (status_line hours) (after_read w))))
          as (w1 & Hrun1 & Hlp & _ & Hlns & Hlms & Hmode & _ & Htz & Hrd).
        rewrite Hrun1 in Hrun. injection Hrun as <-.
        rewrite Hlp, Hlns, Hlms, Hmode, Htz, Hrd. repeat split.
      * injection Hrun as <-. repeat split.
  - unfold reportIfNeeded, bind in Hrun.
    rewrite computeHoursRemainingM_run, Hh in Hrun. discriminate.
Qed.

(** A forced report stores the value it computed when that is not
    negative. *)
Lemma reportIfNeeded_forced (env : Env) (w w' : World) :
  TIME_VALID_THRESHOLD <= time_at env (reads w) ->
  reportIfNeeded env true w = Ret tt w' ->
  0 <= lastReportedHours w'.
Proof.
  intros Hvalid Hrun.
  destruct (computeHoursRemaining (TZ w) (time_at env (reads w)))
    as [hours |] eqn:Hh.
  - pose proof (computeHoursRemaining_valid_nonneg _ _ _ Hvalid Hh) as Hpos.
    rewrite (reportIfNeeded_run env true w hours Hh) in Hrun.
    destruct (Z.ltb_spec hours 0); [lia |]. cbn [orb] in Hrun.
    destruct (updateDisplay_frame hours
                (set_lastReportedHours hours
                   (log (status_line hours) (after_read w))))
      as (w1 & Hrun1 & _ & Hlrh & _).
    rewrite Hrun1 in Hrun. injection Hrun as <-. rewrite Hlrh. exact Hpos.
  - unfold reportIfNeeded, bind in Hrun.
    rewrite computeHoursRemainingM_run, Hh in Hrun. discriminate.
Qed.

(** X10. Once the clock is set, one round of [loop] is enough to leave the
    waiting state: if every reading of the clock from the start of the
    round on is at or above the threshold, [lastReportedHours] is not
    negative when the round ends, whatever it was before. *)
Theorem X10_one_round_after_sync
    (env : Env) (fuel : nat) (w w' : World) :
  (forall k, (reads w <= k)%nat -> TIME_VALID_THRESHOLD <= time_at env k) ->
  loop env fuel w = Ret tt w' ->
  0 <= lastReportedHours w'.
Proof.
  intros Hvalid Hrun.
  set (V := fun w1 : World => (reads w <= reads w1)%nat).
  assert (V_read : forall w1, V w1 -> V (after_read w1))
    by (unfold V; cbn; intros; lia).
  assert (V_plain : forall o w1, plain_output o -> V w1 -> V (log o w1))
    by (unfold V; cbn; auto).
  assert (V_TZ : forall w1, V w1 -> V (set_TZ (Some TZ_UTC) w1))
    by (unfold V; cbn; auto).
  assert (V_lns : forall v w1, in_ulong v -> V w1 -> V (set_lastNtpSync v w1))
    by (unfold V; cbn; auto).
  assert (V_report : forall force, preserves V (reportIfNeeded env force)).
  { intros force w1 [] w2 Hw1 Hrun2.
    destruct (reportIfNeeded_frame env force w1 w2 Hrun2)
      as (_ & _ & _ & _ & _ & Hrd).
    unfold V in *. lia. }
  assert (V_refresh :
            preserves V (hrs <- computeHoursRemainingM env ;;
                         updateDisplay hrs)).
  { intros w1 [] w2 Hw1 Hrun2. unfold bind in Hrun2.
    rewrite computeHoursRemainingM_run in Hrun2.
    destruct (computeHoursRemaining _ _) as [hrs |]; [| discriminate].
    destruct (updateDisplay_frame hrs (after_read w1))
      as (w3 & Hrun3 & _ & _ & _ & _ & _ & _ & _ & Hrd).
    rewrite Hrun3 in Hrun2. injection Hrun2 as <-.
    unfold V in *. rewrite Hrd. cbn. lia. }
  assert (H : hoare V (loop env fuel) (fun _ w2 => 0 <= lastReportedHours w2)).
  { unfold loop.
    apply (hoare_bind _ _ _ (fun _ => V));
      [apply preserves_read; exact V_read | intro].
    apply (hoare_bind _ _ _ (fun _ => V));
      [apply preserves_when, preserves_connectWiFi; assumption | intro].
    apply (hoare_bind _ _ _ (fun _ => V));
      [apply preserves_ensureTimeResync; assumption | intro].
    apply (hoare_bind _ _ _ (fun _ => V)); [| intro nowMs].
    { apply preserves_bind;
        [apply preserves_read; exact V_read | intro; apply preserves_ret]. }
    apply (hoare_bind _ _ _ (fun _ => V)); [apply preserves_gets | intro].
    apply (hoare_bind _ _ _ (fun _ => V)); [| intro].
    { apply preserves_when, preserves_bind; [apply V_report | intro].
      apply preserves_modify. unfold V; cbn; auto. }
    apply (hoare_bind _ _ _ (fun _ => V)); [apply preserves_gets | intro].
    apply (hoare_bind _ _ _ (fun _ => V)); [| intro].
    { apply preserves_when.
      apply preserves_bind;
        [apply preserves_modify; unfold V; cbn; auto | intro].
      apply preserves_bind;
        [apply preserves_modify; unfold V; cbn; auto | intro].
      exact V_refresh. }
    apply (hoare_bind _ _ _
             (fun last w1 => V w1 /\ last = lastReportedHours w1));
      [apply hoare_gets; auto | intro last].
    apply (hoare_bind _ _ _ (fun _ w2 => 0 <= lastReportedHours w2));
      [| intro; apply hoare_modify; cbn; auto].
    intros w1 [] w2 [Hw1 Hlast] Hrun2. unfold when in Hrun2.
    destruct (Z.ltb_spec last 0).
    - apply (reportIfNeeded_forced env w1 w2); [| exact Hrun2].
      apply Hvalid. exact Hw1.
    - injection Hrun2 as <-. lia. }
  apply (H w tt w'); [unfold V; lia | exact Hrun].
Qed.

Lemma X10_one_round_after_sync_witness :
  (forall k, (reads boot <= k)%nat ->
             TIME_VALID_THRESHOLD <= time_at example_env k)
  /\ exists w',
       loop example_env 2 boot = Ret tt w'
       /\ lastReportedHours boot = -1
       /\ 0 <= lastReportedHours w'.
Proof.
  assert (Hvalid : forall k, (reads boot <= k)%nat ->
                             TIME_VALID_THRESHOLD <= time_at example_env k).
  { intros k _. vm_compute. discriminate. }
  split; [exact Hvalid |].
  destruct (loop example_env 2 boot) as [[] w' | |] eqn:Hrun;
    [| vm_compute in Hrun; discriminate | vm_compute in Hrun; discriminate].
  exists w'. split; [reflexivity |]. split; [reflexivity |].
  exact (X10_one_round_after_sync example_env 2 boot w' Hvalid Hrun).
Defined.

(** ** Getting out of the polling loop *)

Lemma bind_inv {A B : Type} (c : M A) (k : A -> M B) (w : World) (b : B)
    (w' : World) :
  bind c k w = Ret b w' ->
  exists a w1, c w = Ret a w1 /\ k a w1 = Ret b w'.
Proof.
  unfold bind. destruct (c w) as [a w1 | |]; try discriminate.
  intros H. exists a, w1. split; [reflexivity | exact H].
Qed.

(** A computation that meets no undefined conversion and keeps within the
    bound on its polling loops returns. *)
Lemma sound_returns {A : Type} (c : M A) (w : World) :
  sound c -> returns c -> program_tz (TZ w) ->
  exists a w', c w = Ret a w' /\ program_tz (TZ w').
Proof.
  intros Hs Hr Htz. specialize (Hs w Htz). specialize (Hr w).
  destruct (c w) as [a w' | |]; [| contradiction | contradiction].
  exists a, w'. split; [reflexivity | apply Hs].
Qed.

(** One round of the polling loop of [connectWiFi]. *)
Lemma awaitConnection_step (env : Env) (fuel : nat) (start : Z) (w : World) :
  awaitConnection env (S fuel) start w =
  if wifi_at env (reads w) then Ret tt (after_read w)
  else if usub (to_ulong (millis_at env (S (reads w)))) start <? 20000 then
    awaitConnection env fuel start
      (log (SerialPrint ".") (log (Delay 500) (after_read (after_read w))))
  else Ret tt (after_read (after_read w)).
Proof.
  cbn [awaitConnection].
  unfold bind at 1, wifi_connected, read. fold (after_read w).
  destruct (wifi_at env (reads w)); [reflexivity |].
  unfold bind at 1, millis, bind at 1, read, ret. fold (after_read (after_read w)).
  cbn [reads after_read set_reads].
  destruct (usub (to_ulong (millis_at env (S (reads w)))) start <? 20000);
    reflexivity.
Qed.

(** Enough fuel gives the result: if one of the first [fuel] polls leaves
    the loop, [awaitConnection] returns. *)
Lemma awaitConnection_returns (env : Env) (fuel : nat) (start : Z) (w : World) :
  polling_ends env fuel start (reads w) ->
  exists w', awaitConnection env fuel start w = Ret tt w'.
Proof.
  revert w. induction fuel as [| fuel IH]; intros w (j & Hj & Hexit);
    [lia |].
  rewrite awaitConnection_step.
  destruct (wifi_at env (reads w)) eqn:Hwifi; [eexists; reflexivity |].
  destruct (usub (to_ulong (millis_at env (S (reads w)))) start <? 20000)
    eqn:Hlt; [| eexists; reflexivity].
  apply IH. destruct j as [| j].
  - unfold poll_exits in Hexit.
    replace (reads w + 2 * 0)%nat with (reads w) in Hexit by lia.
    rewrite Hwifi, Hlt in Hexit. discriminate.
  - exists j. split; [lia |].
    cbn [reads log set_trace after_read set_reads].
    replace (S (S (reads w)) + 2 * j)%nat with (reads w + 2 * S j)%nat by lia.
    exact Hexit.
Qed.

Lemma connectWiFi_returns (env : Env) (fuel : nat) (w : World) :
  connect_ends env fuel (reads w) ->
  exists w', connectWiFi env fuel w = Ret tt w'.
Proof.
  intros Hends.
  cbv beta iota delta [connectWiFi bind emit modify millis read ret
                       wifi_connected setenv_TZ configTime].
  destruct (wifi_at env (reads w)) eqn:Hwifi; [eexists; reflexivity |].
  destruct Hends as [Hup | Hpoll]; [congruence |].
  match goal with
  | |- context [awaitConnection env fuel ?start ?w0] =>
      destruct (awaitConnection_returns env fuel start w0) as (w1 & Hw1);
      [exact Hpoll | rewrite Hw1]
  end.
  cbv beta iota.
  match goal with
  | |- context [if ?b then _ else _] => destruct b
  end; eexists; reflexivity.
Qed.

(** ** The time service *)

(** Reduces the fields of a world that has been written to. *)
Ltac world_cbn :=
  cbn [reads lastNtpSync lastPrint lastReportedHours lastModeSwitch
       displayMode displayInitialized TZ trace set_reads set_trace set_TZ
       set_lastNtpSync negb andb].

(** X12. [ensureTimeResync] always returns and touches nothing but
    [lastNtpSync], TZ and the outputs. With [k] the number of readings
    taken before the call, it reads the clock (reading [k]) and the network
    (reading [k + 1]). It calls [configTime] at most once, and never while
    the network is down: for the early retry, while the clock is not set and
    more than 15 s (on the wrapping counter) have passed between
    [lastNtpSync] and the next reading of [millis()]; otherwise for the
    periodic resync, when more than six hours have passed between
    [lastNtpSync] and the reading of [millis()] taken for that test. When
    it calls [configTime] it prints one message before, stores the reading
    of [millis()] taken right after in [lastNtpSync], and leaves TZ as
    [configTime] sets it. *)
Theorem X12_ensureTimeResync_effect (env : Env) (w : World) :
  let k := reads w in
  let lns := lastNtpSync w in
  let up := wifi_at env (S k) in
  let not_set := time_at env k <? TIME_VALID_THRESHOLD in
  let retry :=
    up && not_set
    && (15000 <? usub (to_ulong (millis_at env (S (S k)))) lns) in
  let kp := if not_set then S (S (S k)) else S (S k) in
  let periodic :=
    up && negb retry
    && (NTP_RESYNC_INTERVAL_MS <? usub (to_ulong (millis_at env kp)) lns) in
  exists w',
    ensureTimeResync env w = Ret tt w'
    /\ (lastPrint w' = lastPrint w
        /\ lastReportedHours w' = lastReportedHours w
        /\ lastModeSwitch w' = lastModeSwitch w
        /\ displayMode w' = displayMode w
        /\ displayInitialized w' = displayInitialized w)
    /\ if retry then
         trace w' =
         ConfigTime 0 0 NTP_SERVER1 NTP_SERVER2
         :: SerialPrintln "[INFO] Retrying initial NTP sync..." :: trace w
         /\ lastNtpSync w' = to_ulong (millis_at env (S (S (S k))))
         /\ reads w' = S (S (S (S k)))
         /\ TZ w' = Some TZ_UTC
       else if periodic then
         trace w' =
         ConfigTime 0 0 NTP_SERVER1 NTP_SERVER2
         :: SerialPrintln "[INFO] Periodic NTP resync..." :: trace w
         /\ lastNtpSync w' = to_ulong (millis_at env (S kp))
         /\ reads w' = S (S kp)
         /\ TZ w' = Some TZ_UTC
       else
         trace w' = trace w /\ lastNtpSync w' = lns /\ TZ w' = TZ w.
Proof.
  destruct w as [lp lrh lns lms mode init tz tr rd]. cbv zeta.
  unfold ensureTimeResync, periodicResync, configTime, setenv_TZ, time,
    wifi_connected, millis, read, bind, gets, emit, modify, ret.
  rewrite parse_TZ_UTC_STRING.
  rewrite (Z.ltb_antisym TIME_VALID_THRESHOLD).
  world_cbn.
  destruct (TIME_VALID_THRESHOLD <=? time_at env rd);
    destruct (wifi_at env (S rd)); world_cbn;
    repeat match goal with
      | |- context [if ?b then _ else _] => destruct b; world_cbn
      end;
    (eexists; split; [reflexivity | world_cbn; repeat split]).
Qed.

(** ** Connecting *)

(** Walks through a computation for an invariant whose elementary steps
    [step] settles. *)
Ltac invariant_walk step :=
  repeat match goal with
    | |- preserves _ _ => assumption
    | |- preserves _ (bind _ _) => apply preserves_bind; [| intro]
    | |- preserves _ (when _ _) => apply preserves_when
    | |- preserves _ (if ?b then _ else _) => destruct b
    | |- preserves _ (ret _) => apply preserves_ret
    | |- preserves _ (gets _) => apply preserves_gets
    | |- preserves _ (read _ _) => apply hoare_read; step
    | |- preserves _ (emit _) => apply preserves_modify; step
    | |- preserves _ (modify _) => apply preserves_modify; step
    | |- preserves _ out_of_fuel => apply preserves_out_of_fuel
    end.

Ltac frame_step :=
  let H := fresh in
  intros ? H; unfold network_frame, time_untouched in *; cbn; exact H.

Lemma preserves_frame_awaitConnection
    (env : Env) (w : World) (fuel : nat) (start : Z) :
  preserves (fun w1 => network_frame w w1 /\ time_untouched w w1)
    (awaitConnection env fuel start).
Proof.
  induction fuel as [| fuel IH]; cbn [awaitConnection];
    unfold wifi_connected, millis, delay; invariant_walk frame_step.
Qed.

(** X13. [connectWiFi] does nothing when the network is already up. When
    it returns otherwise, its last test of the network has either failed,
    and then it has printed the error message and left TZ, [lastNtpSync]
    and the time service alone; or it has succeeded, and then it has called
    [configTime] exactly once and stored the reading of [millis()] taken
    right after that call in [lastNtpSync]. In that case TZ is left as
    [configTime] sets it, UTC0DST0: the Budapest zone of the [setenv] before
    it is overwritten. In no case does [connectWiFi] touch the display, the
    mode, the other timers or [lastReportedHours]. It returns whenever the
    network is up at its first test or one of the polls allowed leaves the
    polling loop. *)
Theorem X13_connectWiFi_effect (env : Env) (fuel : nat) (w : World) :
  (connect_ends env fuel (reads w) ->
   exists w', connectWiFi env fuel w = Ret tt w')
  /\ forall w',
       connectWiFi env fuel w = Ret tt w' ->
       network_frame w w'
       /\ (wifi_at env (reads w) = true -> w' = after_read w)
       /\ (wifi_at env (reads w) = false ->
           (exists k,
              reads w' = S k /\ wifi_at env k = false
              /\ time_untouched w w'
              /\ exists rest,
                   trace w' =
                   SerialPrintln "[ERROR] WiFi connection failed." :: rest)
           \/ (exists k,
                 reads w' = S (S k) /\ wifi_at env k = true
                 /\ lastNtpSync w' = to_ulong (millis_at env (S k))
                 /\ TZ w' = Some TZ_UTC
                 /\ config_calls (trace w')
                    = ConfigTime 0 0 NTP_SERVER1 NTP_SERVER2
                      :: config_calls (trace w))).
Proof.
  split; [apply connectWiFi_returns |].
  intros w' Hrun.
  unfold connectWiFi, bind at 1, wifi_connected, read in Hrun.
  destruct (wifi_at env (reads w)) eqn:Hwifi.
  - injection Hrun as <-. split; [repeat split |].
    split; [reflexivity | discriminate].
  - set (F := fun w1 => network_frame w w1 /\ time_untouched w w1).
    assert (HF : F (after_read w)) by (repeat split).
    revert Hrun. fold (after_read w). generalize (after_read w) HF.
    intros w0 Hw0 Hrun.
    assert (H : hoare F
                  (emit (SerialPrintf CONNECT_FMT [ArgStr WIFI_SSID]) ;;
                   emit WiFiModeSTA ;;
                   emit (WiFiBegin WIFI_SSID WIFI_PASSWORD) ;;
                   start <- millis env ;;
                   awaitConnection env fuel start ;;
                   emit (SerialPrintln "") ;;
                   connected <- read env wifi_at ;;
                   (if connected then
                      emit (SerialPrint "[INFO] WiFi connected. IP: ") ;;
                      emit SerialPrintlnIP ;;
                      setenv_TZ TZ_STRING ;;
                      configTime ;;
                      now <- millis env ;;
                      modify (set_lastNtpSync now)
                    else
                      emit (SerialPrintln "[ERROR] WiFi connection failed.")))
                  (fun _ w2 =>
                     network_frame w w2
                     /\ ((exists k,
                            reads w2 = S k /\ wifi_at env k = false
                            /\ time_untouched w w2
                            /\ exists rest,
                                 trace w2 =
                                 SerialPrintln
                                   "[ERROR] WiFi connection failed."
                                 :: rest)
                         \/ (exists k,
                               reads w2 = S (S k) /\ wifi_at env k = true
                               /\ lastNtpSync w2
                                  = to_ulong (millis_at env (S k))
                               /\ TZ w2 = Some TZ_UTC
                               /\ config_calls (trace w2)
                                  = ConfigTime 0 0 NTP_SERVER1 NTP_SERVER2
                                    :: config_calls (trace w))))).
    { do 3 (apply (hoare_bind _ _ _ (fun _ => F));
            [apply preserves_modify; unfold F; frame_step | intro]).
      apply (hoare_bind _ _ _ (fun _ => F)); [| intro start].
      { change (preserves F (millis env)). unfold millis.
        invariant_walk ltac:(unfold F; frame_step). }
      apply (hoare_bind _ _ _ (fun _ => F));
        [apply preserves_frame_awaitConnection | intro].
      apply (hoare_bind _ _ _ (fun _ => F));
        [apply preserves_modify; unfold F; frame_step | intro].
      apply (hoare_bind _ _ _
               (fun connected w2 =>
                  F w2
                  /\ exists k, reads w2 = S k /\ connected = wifi_at env k));
        [| intros connected].
      { apply hoare_read. intros w1 Hw1. split.
        - revert Hw1. unfold F. generalize w1. frame_step.
        - exists (reads w1). split; reflexivity. }
      intros w1 [] w2 ([Hframe (Htz & Hlns & Hcfg)] & k & Hk & Hconn) Hrun1.
      destruct connected.
      - cbv beta iota delta [bind setenv_TZ configTime emit modify millis
                             read ret] in Hrun1.
        rewrite parse_TZ_STRING, parse_TZ_UTC_STRING in Hrun1.
        injection Hrun1 as <-.
        split; [exact Hframe |]. right. exists k. cbn.
        split; [rewrite Hk; reflexivity |]. split; [auto |].
        split; [rewrite Hk; reflexivity |]. split; [reflexivity |].
        unfold config_calls in *. cbn. rewrite Hcfg. reflexivity.
      - unfold emit, modify in Hrun1. injection Hrun1 as <-.
        split; [exact Hframe |]. left. exists k.
        split; [exact Hk |]. split; [auto |]. split.
        + split; [exact Htz |]. split; [exact Hlns | exact Hcfg].
        + eexists. reflexivity. }
    destruct (H w0 tt w' Hw0 Hrun) as (Hframe & Hcases).
    split; [exact Hframe |]. split; [discriminate |].
    intros _. exact Hcases.
Qed.

Lemma X13_connectWiFi_effect_witness :
  connect_ends example_env 2 (reads boot)
  /\ exists w',
       connectWiFi example_env 2 boot = Ret tt w'
       /\ TZ w' = Some TZ_UTC
       /\ lastNtpSync w' = 4000
       /\ network_frame boot w'.
Proof.
  assert (Hends : connect_ends example_env 2 (reads boot)).
  { right. exists 0%nat. split; [lia | reflexivity]. }
  split; [exact Hends |].
  destruct (X13_connectWiFi_effect example_env 2 boot) as [Hret Heffect].
  destruct (Hret Hends) as (w' & Hrun).
  destruct (Heffect w' Hrun) as (Hframe & _ & _).
  exists w'. split; [exact Hrun |].
  assert (Hw' : TZ w' = Some TZ_UTC /\ lastNtpSync w' = 4000).
  { vm_compute in Hrun. injection Hrun as <-. split; reflexivity. }
  split; [apply Hw' |]. split; [apply Hw' | exact Hframe].
Defined.

(** ** The timers of [loop] *)

Lemma in_ulong_to_ulong (z : Z) : in_ulong (to_ulong z).
Proof.
  unfold in_ulong, to_ulong, ULONG_MODULUS. apply Z.mod_pos_bound. lia.
Qed.

(** Enough fuel gives the result: a round of [loop] returns if the network
    is up at its first test or [connectWiFi] gets out of its polling
    loop. *)
Lemma loop_returns (env : Env) (fuel : nat) (w : World) :
  program_tz (TZ w) ->
  wifi_at env (reads w) = true \/ connect_ends env fuel (S (reads w)) ->
  exists w', loop env fuel w = Ret tt w'.
Proof.
  intros Htz Hnet. unfold loop, bind at 1, wifi_connected, read.
  fold (after_read w).
  match goal with
  | |- context [bind (when _ _) ?k] => set (tail := k)
  end.
  assert (Htail : forall w1, program_tz (TZ w1) ->
                             exists w', tail tt w1 = Ret tt w').
  { intros w1 Htz1.
    assert (Hs : sound (tail tt))
      by (subst tail; cbv beta; unfold wifi_connected, delay; sound_walk).
    assert (Hr : returns (tail tt))
      by (subst tail; cbv beta; unfold wifi_connected, delay, millis;
          returns_walk).
    destruct (sound_returns _ w1 Hs Hr Htz1) as ([] & w' & Hrun & _).
    exists w'. exact Hrun. }
  clearbody tail.
  destruct (wifi_at env (reads w)) eqn:Hwifi.
  - unfold when, negb, bind, ret. apply Htail. exact Htz.
  - destruct Hnet as [Hup | Hends]; [discriminate |].
    destruct (connectWiFi_returns env fuel (after_read w) Hends)
      as (w1 & Hw1).
    pose proof (sound_connectWiFi env fuel (after_read w) Htz) as Hs.
    rewrite Hw1 in Hs. destruct Hs as [Htz1 _].
    unfold when, negb, bind. rewrite Hw1. apply Htail. exact Htz1.
Qed.

(** What the part of [loop] before its reading of [millis()] leaves
    alone. *)
Lemma loop_head_frame (env : Env) (fuel : nat) (w w1 : World) :
  loop_head env fuel w = Ret tt w1 ->
  displayMode w1 = displayMode w
  /\ lastModeSwitch w1 = lastModeSwitch w
  /\ lastPrint w1 = lastPrint w.
Proof.
  set (G := fun w0 : World =>
              displayMode w0 = displayMode w
              /\ lastModeSwitch w0 = lastModeSwitch w
              /\ lastPrint w0 = lastPrint w).
  assert (G_read : forall w0, G w0 -> G (after_read w0)) by (unfold G; auto).
  assert (G_plain : forall o w0, plain_output o -> G w0 -> G (log o w0))
    by (unfold G; auto).
  assert (G_TZ : forall w0, G w0 -> G (set_TZ (Some TZ_UTC) w0))
    by (unfold G; auto).
  assert (G_lns : forall v w0, in_ulong v -> G w0 -> G (set_lastNtpSync v w0))
    by (unfold G; auto).
  assert (H : preserves G (loop_head env fuel)).
  { unfold loop_head.
    apply preserves_bind; [apply preserves_read; exact G_read | intro].
    apply preserves_bind;
      [apply preserves_when, preserves_connectWiFi; assumption | intro].
    apply preserves_ensureTimeResync; assumption. }
  intros Hrun. apply (H w tt w1); [unfold G; auto | exact Hrun].
Qed.

(** The timers and the mode over one round. [nowMs] is the reading of
    [millis()] that [loop] takes after [ensureTimeResync]. *)
Lemma loop_timers (env : Env) (fuel : nat) (w w' : World) :
  loop env fuel w = Ret tt w' ->
  exists w1,
    loop_head env fuel w = Ret tt w1
    /\ let nowMs := to_ulong (millis_at env (reads w1)) in
       let switch :=
         DISPLAY_MODE_DURATION_MS <=? usub nowMs (lastModeSwitch w) in
       let print := PRINT_INTERVAL_MS <=? usub nowMs (lastPrint w) in
       displayMode w'
       = (if switch then toggle (displayMode w) else displayMode w)
       /\ lastModeSwitch w' = (if switch then nowMs else lastModeSwitch w)
       /\ lastPrint w' = (if print then nowMs else lastPrint w)
       /\ exists rest, trace w' = Delay 1000 :: rest.
Proof.
  intros Hrun. unfold loop in Hrun.
  apply bind_inv in Hrun. destruct Hrun as (connected & wa & Ha & Hrun).
  apply bind_inv in Hrun. destruct Hrun as ([] & wb & Hb & Hrun).
  apply bind_inv in Hrun. destruct Hrun as ([] & w1 & H1 & Hrun).
  apply bind_inv in Hrun. destruct Hrun as (nowMs & w2 & H2 & Hrun).
  assert (Hhead : loop_head env fuel w = Ret tt w1).
  { unfold loop_head, bind. rewrite Ha, Hb. exact H1. }
  exists w1. split; [exact Hhead |].
  destruct (loop_head_frame env fuel w w1 Hhead) as (Hmode1 & Hlms1 & Hlp1).
  unfold millis, bind, read, ret in H2. injection H2 as <- <-.
  cbv zeta.
  set (nowMs := to_ulong (millis_at env (reads w1))) in *.
  (* the test of the print interval *)
  apply bind_inv in Hrun. destruct Hrun as (lastP & w3 & H3 & Hrun).
  unfold gets in H3. injection H3 as <- <-.
  apply bind_inv in Hrun. destruct Hrun as ([] & w4 & H4 & Hrun).
  cbn [lastPrint after_read set_reads] in H4. rewrite Hlp1 in H4.
  assert (Hw4 : displayMode w4 = displayMode w
                /\ lastModeSwitch w4 = lastModeSwitch w
                /\ lastPrint w4
                   = (if PRINT_INTERVAL_MS <=? usub nowMs (lastPrint w)
                      then nowMs else lastPrint w)).
  { unfold when in H4.
    destruct (PRINT_INTERVAL_MS <=? usub nowMs (lastPrint w)).
    - apply bind_inv in H4. destruct H4 as ([] & w5 & H5 & H4).
      unfold modify in H4. injection H4 as <-.
      destruct (reportIfNeeded_frame env false _ w5 H5)
        as (_ & _ & Hlms5 & Hmode5 & _).
      cbn. rewrite Hlms5, Hmode5. cbn. auto.
    - injection H4 as <-. cbn. auto. }
  destruct Hw4 as (Hmode4 & Hlms4 & Hlp4).
  (* the test of the mode interval *)
  apply bind_inv in Hrun. destruct Hrun as (lastM & w5 & H5 & Hrun).
  unfold gets in H5. injection H5 as <- <-. rewrite Hlms4 in Hrun.
  apply bind_inv in Hrun. destruct Hrun as ([] & w6 & H6 & Hrun).
  assert (Hw6 : displayMode w6
                = (if DISPLAY_MODE_DURATION_MS
                      <=? usub nowMs (lastModeSwitch w)
                   then toggle (displayMode w) else displayMode w)
                /\ lastModeSwitch w6
                   = (if DISPLAY_MODE_DURATION_MS
                         <=? usub nowMs (lastModeSwitch w)
                      then nowMs else lastModeSwitch w)
                /\ lastPrint w6 = lastPrint w4).
  { unfold when in H6.
    destruct (DISPLAY_MODE_DURATION_MS <=? usub nowMs (lastModeSwitch w)).
    - apply bind_inv in H6. destruct H6 as ([] & w7 & H7 & H6).
      apply bind_inv in H6. destruct H6 as ([] & w8 & H8 & H6).
      apply bind_inv in H6. destruct H6 as (hrs & w9 & H9 & H6).
      unfold modify in H7, H8. injection H7 as <-. injection H8 as <-.
      rewrite computeHoursRemainingM_run in H9.
      destruct (computeHoursRemaining _ _); [| discriminate].
      injection H9 as <- <-.
      match type of H6 with
      | updateDisplay ?h ?w0 = _ =>
          destruct (updateDisplay_frame h w0)
            as (w10 & H10 & Hlp10 & _ & _ & Hlms10 & Hmode10 & _)
      end.
      rewrite H10 in H6. injection H6 as <-.
      rewrite Hlp10, Hlms10, Hmode10. cbn. rewrite Hmode4. auto.
    - injection H6 as <-. auto. }
  destruct Hw6 as (Hmode6 & Hlms6 & Hlp6).
  (* the forced report and the wait *)
  apply bind_inv in Hrun. destruct Hrun as (lastR & w7 & H7 & Hrun).
  unfold gets in H7. injection H7 as <- <-.
  apply bind_inv in Hrun. destruct Hrun as ([] & w8 & H8 & Hrun).
  assert (Hw8 : displayMode w8 = displayMode w6
                /\ lastModeSwitch w8 = lastModeSwitch w6
                /\ lastPrint w8 = lastPrint w6).
  { unfold when in H8. destruct (lastReportedHours w6 <? 0).
    - destruct (reportIfNeeded_frame env true w6 w8 H8)
        as (Hlp8 & _ & Hlms8 & Hmode8 & _). auto.
    - injection H8 as <-. auto. }
  destruct Hw8 as (Hmode8 & Hlms8 & Hlp8).
  unfold delay, emit, modify in Hrun. injection Hrun as <-. cbn.
  rewrite Hmode8, Hlms8, Hlp8, Hmode6, Hlms6, Hlp6, Hlp4.
  repeat split. eexists. reflexivity.
Qed.

(** X14. In one round of [loop], with [nowMs] the reading of [millis()]
    that the round takes after [ensureTimeResync], the display mode toggles
    exactly when at least 15000 ms lie between [lastModeSwitch] and [nowMs]
    on the wrapping counter, and [lastModeSwitch] then becomes [nowMs];
    [lastPrint] becomes [nowMs] exactly when at least 60000 ms lie between
    [lastPrint] and [nowMs]; otherwise the mode and the two timers stay as
    they were. The round ends with the wait of one second. The round
    returns if the network is up at its first test or [connectWiFi] gets
    out of its polling loop. *)
Theorem X14_timers_of_a_round (env : Env) (fuel : nat) (w : World) :
  (program_tz (TZ w) ->
   wifi_at env (reads w) = true \/ connect_ends env fuel (S (reads w)) ->
   exists w', loop env fuel w = Ret tt w')
  /\ forall w',
       loop env fuel w = Ret tt w' ->
       exists w1,
         loop_head env fuel w = Ret tt w1
         /\ let nowMs := to_ulong (millis_at env (reads w1)) in
            let switch :=
              DISPLAY_MODE_DURATION_MS <=? usub nowMs (lastModeSwitch w) in
            let print := PRINT_INTERVAL_MS <=? usub nowMs (lastPrint w) in
            displayMode w'
            = (if switch then toggle (displayMode w) else displayMode w)
            /\ lastModeSwitch w'
               = (if switch then nowMs else lastModeSwitch w)
            /\ lastPrint w' = (if print then nowMs else lastPrint w)
            /\ exists rest, trace w' = Delay 1000 :: rest.
Proof.
  split; [apply loop_returns | apply loop_timers].
Qed.

Lemma X14_timers_of_a_round_witness :
  let w := set_lastReportedHours 50 (set_TZ (Some TZ_UTC) boot) in
  let env := mk_Env (fun _ => 1775793600) (fun _ => 4294967296 + 20000)
                    (fun _ => true) in
  program_tz (TZ w)
  /\ (wifi_at env (reads w) = true \/ connect_ends env 1 (S (reads w)))
  /\ exists w',
       loop env 1 w = Ret tt w'
       /\ displayMode w' = MODE_DAYS
       /\ lastModeSwitch w' = 20000
       /\ lastPrint w' = lastPrint w.
Proof.
  cbv zeta.
  set (w := set_lastReportedHours 50 (set_TZ (Some TZ_UTC) boot)).
  set (env := mk_Env (fun _ => 1775793600) (fun _ => 4294967296 + 20000)
                     (fun _ => true)).
  assert (Htz : program_tz (TZ w)) by (right; right; reflexivity).
  assert (Hnet : wifi_at env (reads w) = true
                 \/ connect_ends env 1 (S (reads w)))
    by (left; reflexivity).
  split; [exact Htz |]. split; [exact Hnet |].
  destruct (X14_timers_of_a_round env 1 w) as [Hret Htimers].
  destruct (Hret Htz Hnet) as (w' & Hrun).
  destruct (Htimers w' Hrun) as (w1 & Hhead & Hmode & Hlms & Hlp & _).
  exists w'. split; [exact Hrun |].
  assert (Hw1 : reads w1 = 4%nat).
  { vm_compute in Hhead. injection Hhead as <-. reflexivity. }
  cbv zeta in Hmode, Hlms, Hlp. rewrite Hw1 in Hmode, Hlms, Hlp.
  split; [exact Hmode |]. split; [exact Hlms | exact Hlp].
Defined.

(** X3. The interval tests of [loop] decide on the time that has really
    passed, although [millis()] wraps around every 2^32 ms. A round that
    finds the network up at its first test, or whose [connectWiFi] gets out
    of its polling loop, returns. Let the uptime read in this round (the
    reading that [loop] takes after [ensureTimeResync], before its reduction
    to [unsigned long]) be [uptime], and let [lastModeSwitch] and
    [lastPrint] hold what was read at the uptimes [t_switch] and [t_print],
    each less than 2^32 ms before [uptime]. Then the mode toggles and
    [lastModeSwitch] is renewed exactly when [uptime - t_switch] is at least
    15000, and [lastPrint] is renewed exactly when [uptime - t_print] is at
    least 60000, whether or not the counter has wrapped in between. *)
Theorem X3_intervals_across_rollover
    (env : Env) (fuel : nat) (w : World) :
  program_tz (TZ w) ->
  wifi_at env (reads w) = true \/ connect_ends env fuel (S (reads w)) ->
  exists w1 w',
    loop_head env fuel w = Ret tt w1
    /\ loop env fuel w = Ret tt w'
    /\ forall t_switch t_print : Z,
         let uptime := millis_at env (reads w1) in
         lastModeSwitch w = to_ulong t_switch ->
         lastPrint w = to_ulong t_print ->
         0 <= uptime - t_switch < ULONG_MODULUS ->
         0 <= uptime - t_print < ULONG_MODULUS ->
         displayMode w'
         = (if DISPLAY_MODE_DURATION_MS <=? uptime - t_switch
            then toggle (displayMode w) else displayMode w)
         /\ lastModeSwitch w'
            = (if DISPLAY_MODE_DURATION_MS <=? uptime - t_switch
               then to_ulong uptime else to_ulong t_switch)
         /\ lastPrint w'
            = (if PRINT_INTERVAL_MS <=? uptime - t_print
               then to_ulong uptime else to_ulong t_print).
Proof.
  intros Htz Hnet.
  destruct (loop_returns env fuel w Htz Hnet) as (w' & Hrun).
  destruct (loop_timers env fuel w w' Hrun) as (w1 & Hhead & Htimers).
  exists w1, w'. split; [exact Hhead |]. split; [exact Hrun |].
  intros t_switch t_print uptime Hlms Hlp Hswitch Hprint. subst uptime.
  cbv zeta in Htimers. destruct Htimers as (Hmode' & Hlms' & Hlp' & _).
  assert (Helapsed : forall t,
             0 <= millis_at env (reads w1) - t < ULONG_MODULUS ->
             usub (to_ulong (millis_at env (reads w1))) (to_ulong t)
             = millis_at env (reads w1) - t).
  { intros t Ht. unfold usub, to_ulong. rewrite <- Zminus_mod.
    apply Z.mod_small. exact Ht. }
  rewrite Hlms, (Helapsed t_switch Hswitch) in Hmode', Hlms'.
  rewrite Hlp, (Helapsed t_print Hprint) in Hlp'.
  split; [exact Hmode' |]. split; [exact Hlms' | exact Hlp'].
Qed.

Lemma X3_intervals_across_rollover_witness :
  let w :=
    set_lastModeSwitch (to_ulong 4294960000)
      (set_lastPrint (to_ulong 4294960000)
         (set_lastReportedHours 50 (set_TZ (Some TZ_UTC) boot))) in
  let env := mk_Env (fun _ => 1775793600) (fun _ => 4294960000 + 20000)
                    (fun _ => true) in
  program_tz (TZ w)
  /\ (wifi_at env (reads w) = true \/ connect_ends env 1 (S (reads w)))
  /\ exists w1 w',
       loop_head env 1 w = Ret tt w1
       /\ loop env 1 w = Ret tt w'
       /\ to_ulong (millis_at env (reads w1)) < lastModeSwitch w
       /\ displayMode w' = MODE_DAYS
       /\ lastModeSwitch w' = 12704
       /\ lastPrint w' = lastPrint w.
Proof.
  cbv zeta.
  set (w := set_lastModeSwitch (to_ulong 4294960000)
              (set_lastPrint (to_ulong 4294960000)
                 (set_lastReportedHours 50 (set_TZ (Some TZ_UTC) boot)))).
  set (env := mk_Env (fun _ => 1775793600) (fun _ => 4294960000 + 20000)
                     (fun _ => true)).
  assert (Htz : program_tz (TZ w)) by (right; right; reflexivity).
  assert (Hnet : wifi_at env (reads w) = true
                 \/ connect_ends env 1 (S (reads w)))
    by (left; reflexivity).
  split; [exact Htz |]. split; [exact Hnet |].
  destruct (X3_intervals_across_rollover env 1 w Htz Hnet)
    as (w1 & w' & Hhead & Hrun & Hintervals).
  assert (Hw1 : reads w1 = 4%nat).
  { vm_compute in Hhead. injection Hhead as <-. reflexivity. }
  assert (Hswitch : 0 <= millis_at env (reads w1) - 4294960000
                    < ULONG_MODULUS)
    by (rewrite Hw1; cbn; unfold ULONG_MODULUS; lia).
  destruct (Hintervals 4294960000 4294960000 eq_refl eq_refl Hswitch Hswitch)
    as (Hmode & Hlms & Hlp).
  exists w1, w'. split; [exact Hhead |]. split; [exact Hrun |].
  rewrite Hw1 in Hmode, Hlms, Hlp.
  split; [rewrite Hw1; reflexivity |].
  split; [exact Hmode |]. split; [exact Hlms | exact Hlp].
Defined.

(** ** Power-up *)

Lemma reads_initialized (w : World) : reads (initialized w) = reads w.
Proof. unfold initialized. destruct (displayInitialized w); reflexivity. Qed.

(** Enough fuel gives the result: [setup] returns if [connectWiFi] gets out
    of its polling loop. *)
Lemma setup_returns (env : Env) (fuel : nat) (w0 : World) :
  connect_ends env fuel (reads w0) ->
  exists w, setup env fuel w0 = Ret tt w.
Proof.
  intros Hends. unfold setup, delay.
  cbv beta iota delta [bind emit modify].
  rewrite initDisplay_run. cbv beta iota.
  rewrite updateDisplay_run. cbv beta iota zeta.
  match goal with
  | |- context [connectWiFi env fuel ?w1] =>
      destruct (connectWiFi_returns env fuel w1) as (w2 & Hw2);
      [| rewrite Hw2]
  end.
  - cbn [reads set_trace]. rewrite !reads_initialized. exact Hends.
  - unfold millis, read, bind, ret. eexists. reflexivity.
Qed.

(** X9. [setup] leaves the display initialised and showing the dashes: the
    only calls it makes to the display are the two of [initDisplay], unless
    the display was initialised before, and one write of the dashes. It
    does not report: [lastReportedHours] and the mode are as before, so from
    power-up the firmware enters [loop] in its waiting state, in hours
    mode. Its last two readings are of [millis()]: [lastPrint] holds the
    first of them and [lastModeSwitch] the second, reduced to
    [unsigned long]. [setup] returns if [connectWiFi] gets out of its
    polling loop. *)
Theorem X9_setup_shows_dashes (env : Env) (fuel : nat) (w0 : World) :
  (connect_ends env fuel (reads w0) ->
   exists w, setup env fuel w0 = Ret tt w)
  /\ forall w,
       setup env fuel w0 = Ret tt w ->
       lastReportedHours w = lastReportedHours w0
       /\ displayMode w = displayMode w0
       /\ displayInitialized w = true
       /\ display_calls (trace w)
          = DASHES :: init_calls w0 ++ display_calls (trace w0)
       /\ displayed w = Some DASHES
       /\ exists k,
            reads w = S (S k)
            /\ lastPrint w = to_ulong (millis_at env k)
            /\ lastModeSwitch w = to_ulong (millis_at env (S k)).
Proof.
  split; [apply setup_returns |].
  intros w Hrun.
  set (S0 := fun w1 : World =>
               lastReportedHours w1 = lastReportedHours w0
               /\ displayMode w1 = displayMode w0
               /\ displayInitialized w1 = displayInitialized w0
               /\ display_calls (trace w1) = display_calls (trace w0)).
  set (S2 := fun w1 : World =>
               lastReportedHours w1 = lastReportedHours w0
               /\ displayMode w1 = displayMode w0
               /\ displayInitialized w1 = true
               /\ display_calls (trace w1)
                  = DASHES :: init_calls w0 ++ display_calls (trace w0)).
  assert (Hcalls_init : forall w1,
             displayInitialized w1 = displayInitialized w0 ->
             display_calls (trace (initialized w1))
             = init_calls w0 ++ display_calls (trace w1)).
  { intros w1 Hflag. rewrite trace_initialized. unfold display_calls.
    rewrite filter_app. unfold init_calls. rewrite Hflag.
    destruct (displayInitialized w0); reflexivity. }
  assert (H : hoare S0 (setup env fuel)
                (fun _ w1 =>
                   S2 w1
                   /\ exists k,
                        reads w1 = S (S k)
                        /\ lastPrint w1 = to_ulong (millis_at env k)
                        /\ lastModeSwitch w1
                           = to_ulong (millis_at env (S k)))).
  { unfold setup, delay.
    do 4 (apply (hoare_bind _ _ _ (fun _ => S0));
          [apply preserves_modify; unfold S0; cbn; auto | intro]).
    apply (hoare_bind _ _ _
             (fun _ w1 =>
                lastReportedHours w1 = lastReportedHours w0
                /\ displayMode w1 = displayMode w0
                /\ displayInitialized w1 = true
                /\ display_calls (trace w1)
                   = init_calls w0 ++ display_calls (trace w0)));
      [| intro].
    { intros w1 [] w2 (Hlrh & Hmode & Hflag & Hcalls) Hrun1.
      rewrite initDisplay_run in Hrun1. injection Hrun1 as <-.
      rewrite lastReportedHours_initialized, displayMode_initialized,
        displayInitialized_initialized, (Hcalls_init w1 Hflag), Hcalls.
      auto. }
    apply (hoare_bind _ _ _ (fun _ => S2)); [| intro].
    { intros w1 [] w2 (Hlrh & Hmode & Hflag & Hcalls) Hrun1.
      rewrite updateDisplay_run in Hrun1. injection Hrun1 as <-.
      assert (Hsame : initialized w1 = w1)
        by (unfold initialized; rewrite Hflag; reflexivity).
      rewrite Hsame. unfold S2. cbn. fold (display_calls (trace w1)).
      rewrite Hcalls. auto. }
    assert (S2_read : forall w1, S2 w1 -> S2 (after_read w1))
      by (unfold S2; auto).
    assert (S2_plain : forall o w1, plain_output o -> S2 w1 -> S2 (log o w1)).
    { unfold S2. intros o w1 Ho (Hlrh & Hmode & Hflag & Hcalls).
      unfold log. cbn [lastReportedHours displayMode displayInitialized
                         trace set_trace].
      rewrite display_calls_plain by exact Ho. auto. }
    assert (S2_TZ : forall w1, S2 w1 -> S2 (set_TZ (Some TZ_UTC) w1))
      by (unfold S2; auto).
    assert (S2_lns : forall v w1, in_ulong v -> S2 w1 ->
                                  S2 (set_lastNtpSync v w1))
      by (unfold S2; auto).
    apply (hoare_bind _ _ _ (fun _ => S2));
      [apply preserves_connectWiFi; assumption | intro].
    intros w1 [] w2 Hw1 Hrun1.
    unfold millis, bind, read, modify, ret in Hrun1. injection Hrun1 as <-.
    split; [exact Hw1 |]. exists (reads w1). cbn. auto. }
  assert (HS0 : S0 w0) by (unfold S0; auto).
  destruct (H w0 tt w HS0 Hrun)
    as ((Hlrh & Hmode & Hflag & Hcalls) & Htimers).
  repeat (split; [assumption |]). split; [| exact Htimers].
  apply (displayed_head (trace w) DASHES _ Hcalls). reflexivity.
Qed.

Lemma X9_setup_shows_dashes_witness :
  connect_ends example_env 2 (reads boot)
  /\ exists w,
       setup example_env 2 boot = Ret tt w
       /\ lastReportedHours w = -1
       /\ displayMode w = MODE_HOURS
       /\ display_calls (trace w)
          = [DASHES; DisplayClear; DisplaySetBrightness 15 true]
       /\ displayed w = Some DASHES
       /\ reads w = 7%nat
       /\ lastPrint w = to_ulong (millis_at example_env 5)
       /\ lastModeSwitch w = to_ulong (millis_at example_env 6).
Proof.
  assert (Hends : connect_ends example_env 2 (reads boot)).
  { right. exists 0%nat. split; [lia | reflexivity]. }
  split; [exact Hends |].
  destruct (X9_setup_shows_dashes example_env 2 boot) as [Hret Hsetup].
  destruct (Hret Hends) as (w & Hrun).
  destruct (Hsetup w Hrun)
    as (Hlrh & Hmode & _ & Hcalls & Hshown & k & Hreads & Hlp & Hlms).
  assert (Hw : reads w = 7%nat).
  { vm_compute in Hrun. injection Hrun as <-. reflexivity. }
  assert (Hk : k = 5%nat).
  { rewrite Hw in Hreads. injection Hreads as <-. reflexivity. }
  subst k.
  exists w. split; [exact Hrun |]. split; [exact Hlrh |].
  split; [exact Hmode |]. split; [exact Hcalls |].
  split; [exact Hshown |]. split; [exact Hw |].
  split; [exact Hlp | exact Hlms].
Defined.

(** ** Status lines *)

(** X15. While the clock is not set, [reportIfNeeded] writes the dashes to
    the display (after the two calls of [initDisplay] if the display was not
    initialised) and prints the waiting message exactly when the report is
    forced: the periodic, unforced report is silent on the serial line. No
    global variable other than [displayInitialized] changes. *)
Theorem X15_report_while_waiting (env : Env) (force : bool) (w : World) :
  time_at env (reads w) < TIME_VALID_THRESHOLD ->
  exists w',
    reportIfNeeded env force w = Ret tt w'
    /\ trace w' =
       DASHES :: init_calls w
       ++ (if force then [SerialPrintln "[INFO] Waiting for time sync..."]
           else [])
       ++ trace w
    /\ lastReportedHours w' = lastReportedHours w
    /\ lastPrint w' = lastPrint w
    /\ lastNtpSync w' = lastNtpSync w
    /\ lastModeSwitch w' = lastModeSwitch w
    /\ displayMode w' = displayMode w
    /\ TZ w' = TZ w.
Proof.
  intros Hlow.
  rewrite (reportIfNeeded_run env force w (-1))
    by (apply computeHoursRemaining_unsynced; exact Hlow).
  change (-1 <? 0) with true. cbv iota.
  set (w1 := if force then log WAITING_MSG (after_read w) else after_read w).
  destruct (updateDisplay_frame (-1) w1)
    as (w' & Hrun & Hlp & Hlrh & Hlns & Hlms & Hmode & _ & Htz & _).
  exists w'. split; [exact Hrun |].
  rewrite Hlp, Hlrh, Hlns, Hlms, Hmode, Htz.
  rewrite updateDisplay_run in Hrun. injection Hrun as <-.
  cbn [trace set_trace]. rewrite trace_initialized.
  subst w1. destruct force; repeat split.
Qed.

Lemma X15_report_while_waiting_witness :
  time_at (mk_Env (fun _ => 0) (fun _ => 0) (fun _ => false)) (reads boot)
  < TIME_VALID_THRESHOLD
  /\ exists w',
       reportIfNeeded (mk_Env (fun _ => 0) (fun _ => 0) (fun _ => false))
         false boot = Ret tt w'
       /\ trace w' = [DASHES; DisplayClear; DisplaySetBrightness 15 true].
Proof.
  assert (Hlow : time_at (mk_Env (fun _ => 0) (fun _ => 0) (fun _ => false))
                   (reads boot) < TIME_VALID_THRESHOLD) by reflexivity.
  split; [exact Hlow |].
  destruct (X15_report_while_waiting
              (mk_Env (fun _ => 0) (fun _ => 0) (fun _ => false))
              false boot Hlow) as (w' & Hrun & Htrace & _).
  exists w'. split; [exact Hrun | exact Htrace].
Defined.

Lemma status_lines_plain (o : Output) (t : list Output) :
  plain_output o -> status_lines (o :: t) = status_lines t.
Proof.
  intros Ho. unfold status_lines. cbn.
  replace (is_status_line o) with false; [reflexivity |].
  destruct o; try reflexivity. destruct Ho as [-> _]. reflexivity.
Qed.

Lemma status_lines_updateDisplay (hours : Z) (w w' : World) :
  updateDisplay hours w = Ret tt w' ->
  status_lines (trace w') = status_lines (trace w)
  /\ lastReportedHours w' = lastReportedHours w.
Proof.
  intros Hrun. rewrite updateDisplay_run in Hrun. injection Hrun as <-.
  cbn [trace set_trace lastReportedHours].
  rewrite lastReportedHours_initialized, trace_initialized.
  split; [| reflexivity]. unfold status_lines. cbn [filter].
  replace (is_status_line (rendering _)) with false
    by (unfold rendering; destruct (_ <? 0); reflexivity).
  rewrite filter_app. unfold init_calls.
  destruct (displayInitialized w); reflexivity.
Qed.

(** One call of [reportIfNeeded] prints at most one status line, and
    [lastReportedHours] is not negative after it has printed one. *)
Lemma reportIfNeeded_status_lines (env : Env) (force : bool) (w w' : World) :
  reportIfNeeded env force w = Ret tt w' ->
  status_lines (trace w') = status_lines (trace w)
  \/ (0 <= lastReportedHours w'
      /\ exists line,
           status_lines (trace w') = line :: status_lines (trace w)).
Proof.
  intros Hrun.
  destruct (computeHoursRemaining (TZ w) (time_at env (reads w)))
    as [hours |] eqn:Hh.
  - rewrite (reportIfNeeded_run env force w hours Hh) in Hrun.
    destruct (Z.ltb_spec hours 0).
    + left. apply status_lines_updateDisplay in Hrun.
      destruct Hrun as [-> _]. destruct force; reflexivity.
    + destruct (force || negb (hours =? lastReportedHours w)).
      * right. apply status_lines_updateDisplay in Hrun.
        destruct Hrun as [-> ->]. cbn. split; [assumption |].
        eexists. reflexivity.
      * left. injection Hrun as <-. reflexivity.
  - unfold reportIfNeeded, bind in Hrun.
    rewrite computeHoursRemainingM_run, Hh in Hrun. discriminate.
Qed.

(** X16. One round of [loop] prints at most one status line, although it
    can call [reportIfNeeded] twice: the forced call at the end is made only
    while [lastReportedHours] is negative, which it no longer is once a
    line has been printed. *)
Theorem X16_one_status_line_per_round
    (env : Env) (fuel : nat) (w w' : World) :
  loop env fuel w = Ret tt w' ->
  status_lines (trace w') = status_lines (trace w)
  \/ (0 <= lastReportedHours w'
      /\ exists line,
           status_lines (trace w') = line :: status_lines (trace w)).
Proof.
  intros Hrun.
  set (C0 := fun w1 : World =>
               status_lines (trace w1) = status_lines (trace w)).
  set (C1 := fun w1 : World =>
               C0 w1
               \/ (0 <= lastReportedHours w1
                   /\ exists line,
                        status_lines (trace w1)
                        = line :: status_lines (trace w))).
  assert (C0_read : forall w1, C0 w1 -> C0 (after_read w1))
    by (unfold C0; auto).
  assert (C0_plain : forall o w1, plain_output o -> C0 w1 -> C0 (log o w1)).
  { unfold C0. intros o w1 Ho Hw1. unfold log. cbn [trace set_trace].
    rewrite status_lines_plain by exact Ho. exact Hw1. }
  assert (C0_TZ : forall w1, C0 w1 -> C0 (set_TZ (Some TZ_UTC) w1))
    by (unfold C0; auto).
  assert (C0_lns : forall v w1, in_ulong v -> C0 w1 ->
                                C0 (set_lastNtpSync v w1))
    by (unfold C0; auto).
  assert (H : hoare C0 (loop env fuel) (fun _ => C1)).
  { unfold loop.
    apply (hoare_bind _ _ _ (fun _ => C0));
      [apply preserves_read; exact C0_read | intro].
    apply (hoare_bind _ _ _ (fun _ => C0));
      [apply preserves_when, preserves_connectWiFi; assumption | intro].
    apply (hoare_bind _ _ _ (fun _ => C0));
      [apply preserves_ensureTimeResync; assumption | intro].
    apply (hoare_bind _ _ _ (fun _ => C0)); [| intro nowMs].
    { apply preserves_bind;
        [apply preserves_read; exact C0_read | intro; apply preserves_ret]. }
    apply (hoare_bind _ _ _ (fun _ => C0));
      [apply preserves_gets | intro lastP].
    apply (hoare_bind _ _ _ (fun _ => C1)); [| intro].
    { intros w1 [] w2 Hw1 Hrun1. unfold when in Hrun1.
      destruct (PRINT_INTERVAL_MS <=? usub nowMs lastP);
        [| injection Hrun1 as <-; left; exact Hw1].
      unfold bind in Hrun1.
      destruct (reportIfNeeded env false w1) as [[] w3 | |] eqn:Hrep;
        try discriminate.
      injection Hrun1 as <-.
      destruct (reportIfNeeded_status_lines env false w1 w3 Hrep)
        as [Hsame | (Hpos & line & Hline)].
      - left. unfold C0 in *.
        change (status_lines (trace w3) = status_lines (trace w)).
        congruence.
      - right. split; [exact Hpos |]. exists line. unfold C0 in *.
        change (status_lines (trace w3) = line :: status_lines (trace w)).
        congruence. }
    apply (hoare_bind _ _ _ (fun _ => C1));
      [apply preserves_gets | intro lastM].
    apply (hoare_bind _ _ _ (fun _ => C1)); [| intro].
    { intros w1 [] w2 Hw1 Hrun1. unfold when in Hrun1.
      destruct (DISPLAY_MODE_DURATION_MS <=? usub nowMs lastM);
        [| injection Hrun1 as <-; exact Hw1].
      unfold bind at 1 2 3, modify in Hrun1.
      rewrite computeHoursRemainingM_run in Hrun1.
      destruct (computeHoursRemaining _ _) as [hrs |]; [| discriminate].
      apply status_lines_updateDisplay in Hrun1.
      destruct Hrun1 as [Hlines Hlrh]. cbn in Hlines, Hlrh.
      unfold C1, C0 in *. rewrite Hlines, Hlrh. exact Hw1. }
    apply (hoare_bind _ _ _
             (fun last w1 => C1 w1 /\ last = lastReportedHours w1));
      [apply hoare_gets; auto | intro last].
    apply (hoare_bind _ _ _ (fun _ => C1)); [| intro].
    { intros w1 [] w2 [Hw1 Hlast] Hrun1. unfold when in Hrun1.
      destruct (Z.ltb_spec last 0); [| injection Hrun1 as <-; exact Hw1].
      destruct Hw1 as [Hw1 | (Hpos & _)]; [| lia].
      destruct (reportIfNeeded_status_lines env true w1 w2 Hrun1)
        as [Hsame | (Hpos & line & Hline)].
      - left. unfold C0 in *. congruence.
      - right. split; [exact Hpos |]. exists line.
        unfold C0 in *. congruence. }
    apply hoare_modify. intros w1 Hw1. exact Hw1. }
  exact (H w tt w' eq_refl Hrun).
Qed.

Lemma X16_one_status_line_per_round_witness :
  let w := set_TZ (Some TZ_CET_CEST) boot in
  let env := mk_Env (fun _ => 1775793600) (fun _ => 70000) (fun _ => true) in
  exists w',
    loop env 1 w = Ret tt w'
    /\ status_lines (trace w')
       = [SerialPrintf RESULT_FMT [ArgLong 47; ArgLong 2; ArgLong 0]].
Proof.
  cbv zeta.
  set (w := set_TZ (Some TZ_CET_CEST) boot).
  set (env := mk_Env (fun _ => 1775793600) (fun _ => 70000) (fun _ => true)).
  destruct (loop env 1 w) as [[] w' | |] eqn:Hrun;
    [| vm_compute in Hrun; discriminate | vm_compute in Hrun; discriminate].
  destruct (X16_one_status_line_per_round env 1 w w' Hrun)
    as [Hsame | (_ & line & Hline)].
  - exfalso. vm_compute in Hrun. injection Hrun as <-. discriminate.
  - exists w'. split; [reflexivity |]. rewrite Hline.
    vm_compute in Hrun. injection Hrun as <-.
    injection Hline as <-. reflexivity.
Defined.

